(** * TwitchDropsMiner: websocket client, topic registry and watch scheduler

    A shallow embedding of [constants.py], [websocket.py] and the scheduling
    part of [twitch.py].  Python dictionaries that are iterated in insertion
    order are association lists ([PyDict]); the hash set of topics and the
    nonce table, whose order is never observed, are [gmap]s.  Coroutines are
    cut at their [await] points: every definition below is one atomic segment
    of the source between two suspension points. *)

From Stdlib Require Import ZArith.
From stdpp Require Import base option list strings gmap fin_maps pretty.

Set Warnings "-clear-no-such-hyp".

Open Scope string_scope.
Open Scope list_scope.

(** ** Python values *)

(** Decoded JSON documents, as [json.loads] produces them. *)
#[warnings="-register-all"]
Inductive json : Type :=
  | JNull
  | JBool (b : bool)
  | JNum (z : Z)
  | JStr (s : string)
  | JArr (items : list json)
  | JObj (entries : list (string * json)).

(** The exceptions the modelled code can raise. *)
Inductive exn : Type :=
  | KeyError
  | TypeError
  | AssertionError
  | InvalidStateError
  | JSONDecodeError
  | HandlerError
  | MinerException (msg : string)
  | ConnectionClosedOK (rcvd_then_sent : bool)
  | ConnectionClosedError.

Inductive result (A : Type) : Type :=
  | Ok (a : A)
  | Raise (e : exn).
Arguments Ok {A} a.
Arguments Raise {A} e.

(** ** Insertion-ordered dictionaries *)

Module PyDict.
Section dict.
Context {K V : Type} `{EqDecision K}.

(** [d.get(k)]; [None] is the absent key. *)
Fixpoint get (k : K) (d : list (K * V)) : option V :=
  match d with
  | [] => None
  | (k', v) :: d' => if decide (k = k') then Some v else get k d'
  end.

(** [d[k] = v]: an existing key keeps its position, a new one is appended. *)
Fixpoint set (k : K) (v : V) (d : list (K * V)) : list (K * V) :=
  match d with
  | [] => [(k, v)]
  | (k', v') :: d' =>
      if decide (k = k') then (k, v) :: d' else (k', v') :: set k v d'
  end.

(** [d.values()], in insertion order. *)
Definition values (d : list (K * V)) : list V := d.*2.

(** [d.keys()], in insertion order. *)
Definition keys (d : list (K * V)) : list K := d.*1.
End dict.
End PyDict.

(** [obj[k]] on a decoded document: [KeyError] for a missing key, [TypeError]
    when [obj] is not subscriptable by a string. *)
Definition getitem (k : string) (obj : json) : result json :=
  match obj with
  | JObj entries =>
      match PyDict.get k entries with
      | Some v => Ok v
      | None => Raise KeyError
      end
  | _ => Raise TypeError
  end.

(** [obj[k] = v] on a dictionary. *)
Definition setitem (k : string) (v : json) (obj : json) : json :=
  match obj with
  | JObj entries => JObj (PyDict.set k v entries)
  | other => other
  end.

(** [value == "text"] for a decoded value and a string literal. *)
Definition is_str (text : string) (value : json) : bool :=
  match value with
  | JStr s => bool_decide (s = text)
  | _ => false
  end.

(** ** constants.py *)

(** Callables stored in topics: the three bound methods the repository
    registers, and any other callable object by its address. *)
Inductive Handler : Type :=
  | process_drops
  | process_points
  | process_stream_state (channel_id : Z)
  | callable (addr : nat).

#[global] Instance Handler_eq_dec : EqDecision Handler.
Proof. solve_decision. Defined.

Module GQLOperation.
(** A [GQLOperation] is a [dict] object; objects live in a heap and are
    named by their address, so that [copy] and item assignment act on
    distinct objects. *)
Definition t : Type := list (string * json).
Abbreviation heap := (list t).

(** [GQLOperation.__init__] *)
Definition init (name sha256 : string) (variables : option json) : t :=
  let base :=
    [ ("operationName", JStr name);
      ("extensions",
        JObj [("persistedQuery",
                JObj [("version", JNum 1); ("sha256Hash", JStr sha256)])]) ] in
  match variables with
  | Some v => PyDict.set "variables" v base
  | None => base
  end.

(** [copy(self)]: a new dictionary object with the same items. *)
Definition copy (self : nat) (h : heap) : option (nat * heap) :=
  d ← h !! self;
  Some (length h, h ++ [d]).

(** [obj[key] = value] on the object at [obj]. *)
Definition setitem (obj : nat) (key : string) (value : json) (h : heap) : heap :=
  alter (PyDict.set key value) obj h.

(** [GQLOperation.with_variables] *)
Definition with_variables (self : nat) (variables : json) (h : heap)
  : option (nat * heap) :=
  '(modified, h1) ← copy self h;
  let h2 := setitem modified "variables" variables h1 in
  Some (modified, h2).
End GQLOperation.

Definition GQL_OPERATIONS : list (string * GQLOperation.t) :=
  [ ("IsStreamLive", GQLOperation.init "WithIsStreamLiveQuery"
       "04e46329a6786ff3a81c01c50bfa5d725902507a0deb83b0edbf7abe7a3716ea" None);
    ("GetStreamInfo", GQLOperation.init "VideoPlayerStreamInfoOverlayChannel"
       "a5f2e34d626a9f4f5c0204f910bab2194948a9502089be558bb6e779a9e1b3d2" None);
    ("ClaimCommunityPoints", GQLOperation.init "ClaimCommunityPoints"
       "46aaeebe02c99afdf4fc97c7c0cba964124bf6b0af229395f1f6d1feed05b3d0" None);
    ("ClaimDrop", GQLOperation.init "DropsPage_ClaimDropRewards"
       "2f884fa187b8fadb2a49db0adc033e636f7b6aaee6e76de1e2bba9a7baf0daf6" None);
    ("ChannelPointsContext", GQLOperation.init "ChannelPointsContext"
       "9988086babc615a918a1e9a722ff41d98847acac822645209ac7379eecb27152" None);
    ("ModViewChannelQuery", GQLOperation.init "ModViewChannelQuery"
       "df5d55b6401389afb12d3017c9b2cf1237164220c8ef4ed754eae8188068a807" None);
    ("Inventory", GQLOperation.init "Inventory"
       "e0765ebaa8e8eeb4043cc6dfeab3eac7f682ef5f724b81367e6e55c7aef2be4c" None);
    ("ViewerDropsDashboard", GQLOperation.init "ViewerDropsDashboard"
       "c4d61d7b71d03b324914d3cf8ca0bc23fe25dacf54120cc954321b9704a3f4e2" None);
    ("DropCampaignDetails", GQLOperation.init "DropCampaignDetails"
       "14b5e8a50777165cfc3971e1d93b4758613fe1c817d5542c398dce70b7a45c05" None);
    ("AvailableDrops", GQLOperation.init "DropsHighlightService_AvailableDrops"
       "b19ee96a0e79e3f8281c4108bc4c7b3f232266db6f96fd04a339ab393673a075" None);
    ("ReportMenuItem", GQLOperation.init "ReportMenuItem"
       "8f3628981255345ca5e5453dfd844efffb01d6413a9931498836e6268692a30c" None);
    ("PersonalSections", GQLOperation.init "PersonalSections"
       "9fbdfb00156f754c26bde81eb47436dee146655c92682328457037da1a48ed39"
       (Some (JObj
         [ ("input", JObj
             [ ("sectionInputs", JArr [JStr "FOLLOWED_SECTION"]);
               ("recommendationContext", JObj [("platform", JStr "web")]) ]);
           ("channelLogin", JNull);
           ("withChannelUser", JBool false);
           ("creatorAnniversariesExperimentEnabled", JBool false) ]))) ].

Definition WEBSOCKET_TOPICS : list (string * string) :=
  [ ("UserDrops", "user-drop-events");
    ("UserStreamState", "stream-change-v1");
    ("UserCommunityPoints", "community-points-user-v1");
    ("Presence", "presence");
    ("Notifications", "onsite-notifications");
    ("ChannelDrops", "channel-drop-events");
    ("ChannelStreamState", "stream-change-by-channel");
    ("ChannelCommunityPoints", "community-points-channel-v1");
    ("VideoPlayback", "video-playback-by-id");
    ("StreamUpdate", "broadcast-settings-update") ].

Module WebsocketTopic.
Record t : Type := mk { id : string; process : Handler }.

(** The right-hand side of a comparison: a string, another topic, or an
    object of any other type. *)
Inductive operand : Type :=
  | Str (s : string)
  | Topic (other : t)
  | Object.

(** [WebsocketTopic.__str__] *)
Definition str (self : t) : string := id self.

(** [WebsocketTopic.__eq__]; [None] is [NotImplemented]. *)
Definition eq (self : t) (other : operand) : option bool :=
  match other with
  | Str s => Some (bool_decide (id self = s))
  | Topic o => Some (bool_decide (id self = id o))
  | Object => None
  end.

(** [WebsocketTopic.__hash__], over the interpreter's string hash. *)
Definition hash (hash_str : string → Z) (self : t) : Z := hash_str (id self).

(** [left == topic] as the interpreter evaluates it when [left] is a decoded
    JSON value: [str.__eq__] and the other built-in types answer
    [NotImplemented] for a topic, the reflected [topic.__eq__(left)] is
    tried, and identity (false here) is the last resort. *)
Definition py_eq (left : json) (topic : t) : bool :=
  let reflected :=
    match left with
    | JStr s => eq topic (Str s)
    | _ => eq topic Object
    end in
  default false reflected.
End WebsocketTopic.

(** The [target_id : Union[str, int]] of [get_topic]. *)
Inductive Target : Type :=
  | TargetStr (text : string)
  | TargetInt (number : Z).

(** How an f-string prints a target: a string as it is, an integer in
    decimal. *)
Definition format (target_id : Target) : string :=
  match target_id with
  | TargetStr text => text
  | TargetInt number => pretty number
  end.

(** [get_topic]: the f-string [f"{WEBSOCKET_TOPICS[topic_name]}.{target_id}"]. *)
Definition get_topic (topic_name : string) (target_id : Target) (process : Handler)
  : result WebsocketTopic.t :=
  match PyDict.get topic_name WEBSOCKET_TOPICS with
  | Some prefix => Ok (WebsocketTopic.mk (prefix +:+ "." +:+ format target_id) process)
  | None => Raise KeyError
  end.

(** ** websocket.py *)

(** An [asyncio.Future]: objects of the event loop, shared by address between
    the nonce table and the coroutine awaiting the reply. *)
Inductive Future : Type :=
  | Pending
  | Finished (value : json)
  | Cancelled.

(** Where a [_ping_loop] task stands: at one of its three [await]s, or over. *)
Inductive PingTask : Type :=
  | AtConnectedWait
  | AtWaitFor (future : nat)
  | AtSleep
  | Returned
  | TaskCancelled.

Inductive level : Type := INFO | WARNING | ERROR | EXCEPTION.

(** What a segment does to the outside: log records (debug records are left
    out), handler calls, and frames written to the socket. *)
Inductive event : Type :=
  | Log (lvl : level) (text : string)
  | Invoke (topic : WebsocketTopic.t) (payload : json)
  | Wire (frame : json).

Module Websocket.

(** The attributes of [Websocket.__init__], followed by the objects they
    refer to: the futures and ping tasks of the event loop, and
    [self._twitch._access_token]. *)
Record t : Type := mk {
  _ws : option nat;
  connected : bool;
  reconnect : bool;
  _send_queue : list (string * json);
  _recv_dict : gmap string nat;
  _topics : gmap string Handler;
  _ping_task : option nat;
  futures : list Future;
  ping_tasks : list PingTask;
  _access_token : option string;
}.

(** [Websocket.__init__], for a client whose token is [token]. *)
Definition init (token : option string) : t :=
  mk None false false [] ∅ ∅ None [] [] token.

Definition set_ws (v : option nat) (s : t) : t :=
  mk v (connected s) (reconnect s) (_send_queue s) (_recv_dict s) (_topics s)
     (_ping_task s) (futures s) (ping_tasks s) (_access_token s).
Definition set_connected (v : bool) (s : t) : t :=
  mk (_ws s) v (reconnect s) (_send_queue s) (_recv_dict s) (_topics s)
     (_ping_task s) (futures s) (ping_tasks s) (_access_token s).
Definition set_reconnect (v : bool) (s : t) : t :=
  mk (_ws s) (connected s) v (_send_queue s) (_recv_dict s) (_topics s)
     (_ping_task s) (futures s) (ping_tasks s) (_access_token s).
Definition set_send_queue (v : list (string * json)) (s : t) : t :=
  mk (_ws s) (connected s) (reconnect s) v (_recv_dict s) (_topics s)
     (_ping_task s) (futures s) (ping_tasks s) (_access_token s).
Definition set_recv_dict (v : gmap string nat) (s : t) : t :=
  mk (_ws s) (connected s) (reconnect s) (_send_queue s) v (_topics s)
     (_ping_task s) (futures s) (ping_tasks s) (_access_token s).
Definition set_topics (v : gmap string Handler) (s : t) : t :=
  mk (_ws s) (connected s) (reconnect s) (_send_queue s) (_recv_dict s) v
     (_ping_task s) (futures s) (ping_tasks s) (_access_token s).
Definition set_ping_task (v : option nat) (s : t) : t :=
  mk (_ws s) (connected s) (reconnect s) (_send_queue s) (_recv_dict s) (_topics s)
     v (futures s) (ping_tasks s) (_access_token s).
Definition set_futures (v : list Future) (s : t) : t :=
  mk (_ws s) (connected s) (reconnect s) (_send_queue s) (_recv_dict s) (_topics s)
     (_ping_task s) v (ping_tasks s) (_access_token s).
Definition set_ping_tasks (v : list PingTask) (s : t) : t :=
  mk (_ws s) (connected s) (reconnect s) (_send_queue s) (_recv_dict s) (_topics s)
     (_ping_task s) (futures s) v (_access_token s).

(** *** Segments: state, exceptions and a trace

    A segment runs on the client's state and ends normally or by raising;
    assignments made before a [raise] stay made. *)
Definition M (A : Type) : Type := t → result A * t * list event.

Definition ret {A} (a : A) : M A := λ s, (Ok a, s, []).
Definition raise {A} (e : exn) : M A := λ s, (Raise e, s, []).
Definition bind {A B} (m : M A) (k : A → M B) : M B := λ s,
  match m s with
  | (Ok a, s1, tr1) => let '(r, s2, tr2) := k a s1 in (r, s2, tr1 ++ tr2)
  | (Raise e, s1, tr1) => (Raise e, s1, tr1)
  end.
Definition lift {A} (r : result A) : M A := λ s, (r, s, []).
Definition gets {A} (f : t → A) : M A := λ s, (Ok (f s), s, []).
Definition modify (f : t → t) : M unit := λ s, (Ok (), f s, []).
Definition emit (ev : event) : M unit := λ s, (Ok (), s, [ev]).

Notation "'let*' x ':=' m 'in' k" := (bind m (λ x, k))
  (at level 10, x name, m at level 100, k at level 200).
Notation "m ';;' k" := (bind m (λ _, k))
  (at level 100, k at level 200, right associativity).

(** [loop.create_future()] *)
Definition create_future : M nat :=
  let* fs := gets futures in
  modify (set_futures (fs ++ [Pending]));;
  ret (length fs).

(** [future.done()] *)
Definition future_done (future : nat) : M bool :=
  let* fs := gets futures in
  ret (match fs !! future with Some Pending => false | _ => true end).

(** [future.set_result(value)]: refused once the future is done. *)
Definition set_result (future : nat) (value : json) : M unit :=
  let* fs := gets futures in
  match fs !! future with
  | Some Pending => modify (set_futures (<[future := Finished value]> fs))
  | _ => raise InvalidStateError
  end.

(** [future.cancel()] *)
Definition cancel (future : nat) : M unit :=
  let* fs := gets futures in
  match fs !! future with
  | Some Pending => modify (set_futures (<[future := Cancelled]> fs))
  | _ => ret ()
  end.

(** [Websocket.create_nonce]: [rnd] is what [random.choices] draws. *)
Definition create_nonce (rnd : string) : string := rnd.

(** [Websocket.send] *)
Definition send (rnd : string) (message : json) : M nat :=
  let* msg_type := lift (getitem "type" message) in
  let nonce := if is_str "PING" msg_type then "PING" else create_nonce rnd in
  let* q := gets _send_queue in
  modify (set_send_queue (q ++ [(nonce, message)]));;
  let* future := create_future in
  let* table := gets _recv_dict in
  modify (set_recv_dict (<[nonce := future]> table));;
  ret future.

(** [set(topics)]: an element equal to one already present is not added. *)
Definition topic_set (topics : list WebsocketTopic.t) : gmap string Handler :=
  foldl (λ acc topic,
           match acc !! WebsocketTopic.id topic with
           | Some _ => acc
           | None => <[WebsocketTopic.id topic := WebsocketTopic.process topic]> acc
           end) ∅ topics.

(** The elements of a topic set, in the order the interpreter iterates it. *)
Definition members (topics : gmap string Handler) : list WebsocketTopic.t :=
  (λ kv, WebsocketTopic.mk kv.1 kv.2) <$> map_to_list topics.

(** How a call of [add_topics] leaves its coroutine. *)
Inductive add_status : Type :=
  | NothingToAdd
  | AwaitingConnected (topics : gmap string Handler)
  | AwaitingReply (future : nat).

(** [Websocket.add_topics] from [await self.connected.wait()] on, for the
    local [topics]. *)
Definition add_topics_listen (rnd : string) (topics : gmap string Handler)
  : M add_status :=
  let* token := gets _access_token in
  match token with
  | None => raise AssertionError
  | Some auth_token =>
      let topics_list := WebsocketTopic.str <$> members topics in
      emit (Log INFO "Listening for");;
      let* future :=
        send rnd
          (JObj [ ("type", JStr "LISTEN");
                  ("data", JObj [ ("topics", JArr (JStr <$> topics_list));
                                  ("auth_token", JStr auth_token) ]) ]) in
      ret (AwaitingReply future)
  end.

(** [Websocket.add_topics], up to its first suspension. *)
Definition add_topics (rnd : string) (topics : list WebsocketTopic.t)
  : M add_status :=
  let* held := gets _topics in
  let topics := topic_set topics ∖ held in
  if bool_decide (topics = ∅) then ret NothingToAdd
  else
    modify (set_topics (held ∪ topics));;
    let* held := gets _topics in
    if bool_decide (50 ≤ size held)%nat then raise (MinerException "Too many topics")
    else
      let* ready := gets connected in
      if ready then add_topics_listen rnd topics
      else ret (AwaitingConnected topics).

(** *** The heartbeat task *)

(** [task.cancel()] on a ping task; [asyncio.wait_for] hands the cancellation
    on to the future it waits for. *)
Definition cancel_task (task : nat) : M unit :=
  let* tasks := gets ping_tasks in
  match tasks !! task with
  | None | Some Returned | Some TaskCancelled => ret ()
  | Some (AtWaitFor future) =>
      cancel future;;
      modify (set_ping_tasks (<[task := TaskCancelled]> tasks))
  | Some _ => modify (set_ping_tasks (<[task := TaskCancelled]> tasks))
  end.

(** [asyncio.create_task(self._ping_loop())] *)
Definition create_ping_task : M nat :=
  let* tasks := gets ping_tasks in
  modify (set_ping_tasks (tasks ++ [AtConnectedWait]));;
  ret (length tasks).

Definition goto (task : nat) (pc : PingTask) : M unit :=
  let* tasks := gets ping_tasks in
  modify (set_ping_tasks (<[task := pc]> tasks)).

(** Why the event loop resumes a suspended task: what it awaited is there,
    or the timeout of [asyncio.wait_for] ran out first. *)
Inductive wake : Type := Ready | TimedOut.

(** The head of [while self.connected.is_set()], up to the [wait_for]. *)
Definition ping_loop_head (task : nat) : M unit :=
  let* up := gets connected in
  if up then
    let* future := send EmptyString (JObj [("type", JStr "PING")]) in
    goto task (AtWaitFor future)
  else goto task Returned.

(** [Websocket._ping_loop]: one resumption of the task. *)
Definition _ping_loop (task : nat) (w : wake) : M unit :=
  let* tasks := gets ping_tasks in
  match tasks !! task, w with
  | Some AtConnectedWait, Ready =>
      let* up := gets connected in
      if up then ping_loop_head task else ret ()
  | Some (AtWaitFor future), Ready =>
      let* fs := gets futures in
      match fs !! future with
      | Some (Finished _) => goto task AtSleep
      | Some Cancelled => goto task TaskCancelled
      | _ => ret ()
      end
  | Some (AtWaitFor future), TimedOut =>
      let* done := future_done future in
      if done then ret ()
      else
        cancel future;;
        emit (Log WARNING "Websocket got no response to PING - reconnect");;
        modify (set_reconnect true);;
        goto task Returned
  | Some AtSleep, Ready => ping_loop_head task
  | _, _ => ret ()
  end.

(** *** The connection loop *)

(** [if nonce != "PING": message["nonce"] = nonce], for a queued entry. *)
Definition stamp (entry : string * json) : json :=
  let '(nonce, message) := entry in
  if bool_decide (nonce ≠ "PING") then setitem "nonce" (JStr nonce) message
  else message.

Section connect.
(** [json.loads] of the standard library; [None] is a decoding error. *)
Variable json_loads : string → option json.
(** Whether awaiting a handler on a payload ends by an exception. *)
Variable process_raises : Handler → json → bool.

Definition loads (value : json) : M json :=
  match value with
  | JStr s =>
      match json_loads s with
      | Some v => ret v
      | None => raise JSONDecodeError
      end
  | _ => raise TypeError
  end.

(** [self._recv_dict.pop(key, None)] *)
Definition pop_default (key : string) : M (option nat) :=
  let* table := gets _recv_dict in
  modify (set_recv_dict (delete key table));;
  ret (table !! key).

(** [self._recv_dict.pop(key)] for a decoded [key]: a list or a dictionary
    cannot be hashed, which an empty table does not get to try. *)
Definition pop (key : json) : M nat :=
  let* table := gets _recv_dict in
  match key with
  | JStr k =>
      match table !! k with
      | Some future => modify (set_recv_dict (delete k table));; ret future
      | None => raise KeyError
      end
  | JArr _ | JObj _ =>
      if bool_decide (table = ∅) then raise KeyError else raise TypeError
  | _ => raise KeyError
  end.

(** [for topic in self._topics: if target_topic == topic: ...; break] *)
Fixpoint for_topics (target_topic message : json) (topics : list WebsocketTopic.t)
  : M unit :=
  match topics with
  | [] => ret ()
  | topic :: rest =>
      if WebsocketTopic.py_eq target_topic topic then
        let* data := lift (getitem "data" message) in
        let* inner := lift (getitem "message" data) in
        let* payload := loads inner in
        emit (Invoke topic payload);;
        if process_raises (WebsocketTopic.process topic) payload
        then raise HandlerError else ret ()
      else for_topics target_topic message rest
  end.

(** The [else] branch of the receive step: one raw message is handled. *)
Definition process_receive (raw_message : string) : M unit :=
  let* message := loads (JStr raw_message) in
  let* msg_type := lift (getitem "type" message) in
  if is_str "PONG" msg_type then
    let* ping_future := pop_default "PING" in
    match ping_future with
    | Some future =>
        let* done := future_done future in
        if done then ret () else set_result future message
    | None => ret ()
    end
  else if is_str "RESPONSE" msg_type then
    let* nonce := lift (getitem "nonce" message) in
    let* future := pop nonce in
    set_result future message
  else if is_str "RECONNECT" msg_type then
    emit (Log WARNING "Received a Websocket Reconnect Request");;
    modify (set_reconnect true)
  else if is_str "MESSAGE" msg_type then
    let* data := lift (getitem "data" message) in
    let* target_topic := lift (getitem "topic" data) in
    let* held := gets _topics in
    for_topics target_topic message (members held)
  else emit (Log ERROR "Received unknown websocket payload").

(** What [websocket.recv()] under [wait_for(..., timeout=0.5)] gives. *)
Inductive received : Type :=
  | Nothing
  | Message (raw_message : string)
  | Closed (exc : exn).

(** The [while not self._send_queue.empty()] loop over the entries queued;
    [wire = Some (n, exc)] makes [websocket.send] raise [exc] after [n]
    frames. *)
Fixpoint process_send (wire : option (nat * exn)) (queue : list (string * json))
  : M unit :=
  match queue with
  | [] => ret ()
  | entry :: rest =>
      modify (set_send_queue rest);;
      let message := stamp entry in
      match wire with
      | Some (0, exc) => raise exc
      | Some (S n, exc) => emit (Wire message);; process_send (Some (n, exc)) rest
      | None => emit (Wire message);; process_send None rest
      end
  end.

(** One turn of [while not self.reconnect.is_set()]. *)
Definition iteration (incoming : received) (wire : option (nat * exn)) : M unit :=
  match incoming with
  | Nothing => ret ()
  | Message raw_message => process_receive raw_message
  | Closed exc => raise exc
  end;;
  let* stop := gets reconnect in
  if stop then ret ()
  else
    let* queue := gets _send_queue in
    process_send wire queue.

(** The inner [while] over the inputs of successive turns; [true] when the
    loop was left because a reconnect was requested. *)
Fixpoint pump (inputs : list (received * option (nat * exn))) : M bool :=
  let* stop := gets reconnect in
  if stop then ret true
  else
    match inputs with
    | [] => ret false
    | (incoming, wire) :: rest => iteration incoming wire;; pump rest
    end.

(** The head of the [async for] body, for the connection [websocket]. *)
Definition connected_to (websocket : nat) : M unit :=
  modify (set_ws (Some websocket));;
  modify (set_reconnect false);;
  modify (set_connected true);;
  emit (Log INFO "Websocket Connected");;
  let* task := create_ping_task in
  modify (set_ping_task (Some task)).

(** How the [async for] goes on after a connection. *)
Inductive outcome : Type :=
  | Pumping
  | Continue
  | Break.

(** The two [except] clauses. *)
Definition on_exception (exc : exn) : M outcome :=
  let closed (rest : M outcome) : M outcome :=
    modify (set_connected false);;
    let* task := gets _ping_task in
    match task with
    | Some task' => cancel_task task';; modify (set_ping_task None)
    | None => ret ()
    end;;
    rest in
  match exc with
  | ConnectionClosedOK rcvd_then_sent =>
      closed (if rcvd_then_sent
              then emit (Log WARNING "Websocket Disconnected - Reconnecting");;
                   ret Continue
              else ret Break)
  | ConnectionClosedError =>
      closed (emit (Log WARNING "Websocket Closed - Reconnecting");; ret Continue)
  | _ =>
      emit (Log EXCEPTION "Exception in Websocket - Reconnecting");;
      ret Continue
  end.

Definition try_except {A} (body : M A) (handler : exn → M A) : M A := λ s,
  match body s with
  | (Raise exc, s1, tr1) => let '(r, s2, tr2) := handler exc s1 in (r, s2, tr1 ++ tr2)
  | finished => finished
  end.

(** The [try] statement of the [async for] body. *)
Definition session (inputs : list (received * option (nat * exn))) : M outcome :=
  try_except
    (let* left := pump inputs in ret (if left then Continue else Pumping))
    on_exception.

(** One pass through the body of the [async for], the steps of the loop
    alone: the heartbeat task it creates is not resumed here. *)
Definition connection (websocket : nat) (inputs : list (received * option (nat * exn)))
  : M outcome :=
  connected_to websocket;;
  session inputs.

(** What the event loop runs when the body first suspends, at
    [await asyncio.wait_for(websocket.recv(), timeout=0.5)]: the task that
    [create_task] has just scheduled, up to its own first suspension. *)
Definition ping_task_starts : M unit :=
  let* task := gets _ping_task in
  match task with
  | Some task' => _ping_loop task' Ready
  | None => ret ()
  end.

(** One pass through the body of the [async for] as the event loop runs it:
    the heartbeat task starts at the first [await] of the body, before the
    first turn handles what was received and writes what is queued. *)
Definition reconnection (websocket : nat)
    (inputs : list (received * option (nat * exn))) : M outcome :=
  connected_to websocket;;
  ping_task_starts;;
  session inputs.

(** The [async for] of [Websocket.connect]: successive connections, each with
    the inputs it sees, until one ends the loop.  The [add_topics] call that
    [connect] defers to a task of its own beforehand is [add_topics] on
    [connect_topics]. *)
Fixpoint connect (websocket : nat) (sessions : list (list (received * option (nat * exn))))
  : M outcome :=
  match sessions with
  | [] => ret Pumping
  | inputs :: rest =>
      let* next := connection websocket inputs in
      match next with
      | Continue => connect (S websocket) rest
      | other => ret other
      end
  end.

End connect.

(** The topics [connect] subscribes to through its deferred task. *)
Definition connect_topics (user_id : Z) : result (list WebsocketTopic.t) :=
  match get_topic "UserDrops" (TargetInt user_id) process_drops,
        get_topic "UserCommunityPoints" (TargetInt user_id) process_points with
  | Ok drops, Ok points => Ok [drops; points]
  | Raise e, _ | _, Raise e => Raise e
  end.

(** [Websocket.close], up to [await self._ws.close()]. *)
Definition close : M unit :=
  modify (set_connected false);;
  let* task := gets _ping_task in
  match task with
  | Some task' => cancel_task task'
  | None => ret ()
  end.

End Websocket.

(** ** twitch.py: the channel scheduler *)

Module Twitch.

(** Modelled from the spec: [channel.py] is not among the sources.  A stream
    carries the eligibility flag, the category and the viewer count that
    [twitch.py] reads; a channel is offline when it has no stream. *)
Record Stream : Type := mkStream {
  drops_enabled : bool;
  game : string;
  viewer_count : Z;
}.

(** Modelled from the spec: the attributes of a channel that [twitch.py]
    reads. *)
Record Channel : Type := mkChannel {
  id : Z;
  name : string;
  stream : option Stream;
}.

(** A [watcher] task of the event loop: the channel it was started for and
    whether it has been cancelled. *)
Record WatchTask : Type := mkTask {
  target : Z;
  cancelled : bool;
}.

(** The scheduling attributes of [Twitch.__init__], the watcher tasks they
    refer to, and the local [refresh_channels] of [run].  A channel object is
    referred to by its key in [channels]. *)
Record t : Type := mk {
  channels : list (Z * Channel);
  _watching_channel : option Z;
  _watching_task : option nat;
  _channel_change : bool;
  tasks : list WatchTask;
  refresh_channels : bool;
}.

Definition init : t := mk [] None None false [] false.

(** [task.cancel()] *)
Definition cancel (task : nat) (ts : list WatchTask) : list WatchTask :=
  alter (λ w, mkTask (target w) true) task ts.

(** [Twitch.watch] *)
Definition watch (channel : Channel) (s : t) : t :=
  let ts :=
    match _watching_task s with
    | Some task => cancel task (tasks s)
    | None => tasks s
    end in
  mk (channels s) (Some (id channel)) (Some (length ts))
     (_channel_change s) (ts ++ [mkTask (id channel) false]) (refresh_channels s).

(** [Twitch.stop_watching] *)
Definition stop_watching (s : t) : t :=
  match _watching_task s with
  | Some task =>
      mk (channels s) None None (_channel_change s) (cancel task (tasks s))
         (refresh_channels s)
  | None =>
      mk (channels s) None None (_channel_change s) (tasks s) (refresh_channels s)
  end.

(** The condition of the [if] in the scheduling loop. *)
Definition eligible (games : gset string) (channel : Channel) : bool :=
  match stream channel with
  | Some live => drops_enabled live && bool_decide (game live ∈ games)
  | None => false
  end.

(** [for channel in ...: if ...: ...; break], as the channel the loop stops
    at; [None] is the [else] branch. *)
Fixpoint first_eligible (games : gset string) (candidates : list Channel)
  : option Channel :=
  match candidates with
  | [] => None
  | channel :: rest =>
      if eligible games channel then Some channel else first_eligible games rest
  end.

(** How one turn of [while True] in [run] ends. *)
Inductive turn : Type :=
  | Waiting
  | Watching (channel : Channel)
  | Refreshed
  | Sleep120.

(** Modelled from the spec: [Channel.get_stream] is not among the sources; the
    on-demand refresh replaces a channel's stream by what [fetch] reports. *)
Definition get_stream (fetch : Z → option Stream) (channel : Channel) : Channel :=
  mkChannel (id channel) (name channel) (fetch (id channel)).

(** One turn of the [while True] loop of [Twitch.run]. *)
Definition run_turn (games : gset string) (fetch : Z → option Stream) (s : t)
  : turn * t :=
  if negb (_channel_change s) then (Waiting, s)
  else
    match first_eligible games (PyDict.values (channels s)) with
    | Some channel =>
        let s1 := watch channel s in
        (Watching channel,
         mk (channels s1) (_watching_channel s1) (_watching_task s1) false
            (tasks s1) true)
    | None =>
        if refresh_channels s then
          (Refreshed,
           mk (prod_map (λ k, k) (get_stream fetch) <$> channels s)
              (_watching_channel s) (_watching_task s) (_channel_change s)
              (tasks s) false)
        else (Sleep120, s)
    end.

(** Modelled from the spec: [Channel.set_offline] is not among the sources; an
    offline channel has no stream. *)
Definition set_offline (channel : Channel) : Channel :=
  mkChannel (id channel) (name channel) None.

(** [Twitch.process_stream_state] for a message of type ["stream-down"]. *)
Definition stream_down (channel_id : Z) (s : t) : t :=
  match PyDict.get channel_id (channels s) with
  | None => s
  | Some channel =>
      mk (PyDict.set channel_id (set_offline channel) (channels s))
         (_watching_channel s) (_watching_task s)
         (if bool_decide (_watching_channel s = Some channel_id) then true
          else _channel_change s)
         (tasks s) (refresh_channels s)
  end.

(** [self.channels[channel.id] = channel] for each channel fetched by [run]. *)
Definition register (fetched : list Channel) (s : t) : t :=
  mk (foldl (λ d channel, PyDict.set (id channel) channel d) (channels s) fetched)
     (_watching_channel s) (_watching_task s) (_channel_change s) (tasks s)
     (refresh_channels s).

(** The topics [run] subscribes to, one per registered channel. *)
Definition channel_topics (s : t) : result (list WebsocketTopic.t) :=
  foldr (λ channel_id acc,
           match get_topic "VideoPlayback" (TargetInt channel_id)
                   (process_stream_state channel_id),
                 acc with
           | Ok topic, Ok topics => Ok (topic :: topics)
           | Raise e, _ | _, Raise e => Raise e
           end)
        (Ok []) (PyDict.keys (channels s)).

End Twitch.

(** ** Requests made for a channel: [claim_points], [process_points], [watcher] *)

Module Requests.

(** What these coroutines do to the outside: the watch signal of a channel,
    a call of [gql_request] with the operation as it is at that moment, and
    printed or logged lines. *)
Inductive action : Type :=
  | SendWatch (channel_id : Z)
  | Post (op : GQLOperation.t)
  | Print (text : string)
  | Info (text : string).

(** The objects of [GQL_OPERATIONS], at the addresses 0 to 11 of the heap. *)
Definition table : list GQLOperation.t := GQL_OPERATIONS.*2.

(** [GQL_OPERATIONS[name]], as the address of the object. *)
Definition operation (name : string) : result nat :=
  match list_find (λ entry, entry.1 = name) GQL_OPERATIONS with
  | Some (address, _) => Ok address
  | None => Raise KeyError
  end.

(** Truth value of a decoded document in a condition. *)
Definition truthy (value : json) : bool :=
  match value with
  | JNull => false
  | JBool b => b
  | JNum z => negb (z =? 0)%Z
  | JStr EmptyString => false
  | JStr _ => true
  | JArr [] => false
  | JArr _ => true
  | JObj [] => false
  | JObj _ => true
  end.

(** [f"{value:3}"]: the format specification is accepted by numbers and
    strings and refused by [None], lists and dictionaries. *)
Definition format_width (value : json) : result unit :=
  match value with
  | JNum _ | JStr _ | JBool _ => Ok ()
  | _ => Raise TypeError
  end.

Definition and_then {A B} (r : result A) (k : A → result B) : result B :=
  match r with
  | Ok a => k a
  | Raise e => Raise e
  end.

Notation "'let?' x ':=' r 'in' k" := (and_then r (λ x, k))
  (at level 10, x name, r at level 100, k at level 200).

Section builtin.
(** [str] of the interpreter on a decoded value. *)
Variable str : json → string.

(** [GQL_OPERATIONS[name].with_variables(variables)]: the new operation and
    the heap that holds it. *)
Definition derive (name : string) (variables : json) (h : list GQLOperation.t)
  : result GQLOperation.t * list GQLOperation.t :=
  match operation name with
  | Raise e => (Raise e, h)
  | Ok address =>
      match GQLOperation.with_variables address variables h with
      | Some (modified, h') =>
          match h' !! modified with
          | Some op => (Ok op, h')
          | None => (Raise KeyError, h')
          end
      | None => (Raise KeyError, h)
      end
  end.

(** [Twitch.claim_points] *)
Definition claim_points (channel_id claim_id : json) (h : list GQLOperation.t)
  : result action * list GQLOperation.t :=
  let variables :=
    JObj [("input", JObj [("channelID", JStr (str channel_id)); ("claimID", claim_id)])] in
  match derive "ClaimCommunityPoints" variables h with
  | (Ok op, h') => (Ok (Post op), h')
  | (Raise e, h') => (Raise e, h')
  end.

(** [Websocket.process_points]: the actions, in order, and how the handler
    ends. *)
Definition process_points (message : json) (h : list GQLOperation.t)
  : list action * result unit * list GQLOperation.t :=
  match getitem "type" message with
  | Raise e => ([], Raise e, h)
  | Ok msg_type =>
      if is_str "points-earned" msg_type then
        let looked :=
          let? data := getitem "data" message in
          let? point_gain := getitem "point_gain" data in
          let? points := getitem "total_points" point_gain in
          let? data' := getitem "data" message in
          let? balance := getitem "balance" data' in
          let? _ := getitem "balance" balance in
          format_width points in
        match looked with
        | Ok _ => ([Print "Earned points for watching"], Ok (), h)
        | Raise e => ([], Raise e, h)
        end
      else if is_str "claim-available" msg_type then
        let looked :=
          let? data := getitem "data" message in
          let? claim_data := getitem "claim" data in
          let? point_gain := getitem "point_gain" claim_data in
          let? _ := getitem "total_points" point_gain in
          let? channel_id := getitem "channel_id" claim_data in
          let? claim_id := getitem "id" claim_data in
          Ok (channel_id, claim_id) in
        match looked with
        | Ok (channel_id, claim_id) =>
            match claim_points channel_id claim_id h with
            | (Ok posted, h') => ([posted; Print "Claimed bonus points"], Ok (), h')
            | (Raise e, h') => ([], Raise e, h')
            end
        | Raise e => ([], Raise e, h)
        end
      else ([], Ok (), h)
  end.

(** The [if i == 0] block of [watcher], for the operation [op] built when the
    task started and the reply [response] of the server. *)
Definition bonus_check (op : GQLOperation.t) (response : json) (h : list GQLOperation.t)
  : list action * result unit * list GQLOperation.t :=
  let looked :=
    let? data := getitem "data" response in
    let? community := getitem "community" data in
    let? channel_data := getitem "channel" community in
    let? self := getitem "self" channel_data in
    let? community_points := getitem "communityPoints" self in
    let? claim_available := getitem "availableClaim" community_points in
    Ok (channel_data, claim_available) in
  match looked with
  | Raise e => ([Post op], Raise e, h)
  | Ok (channel_data, claim_available) =>
      if truthy claim_available then
        let ids :=
          let? channel_id := getitem "id" channel_data in
          let? claim_id := getitem "id" claim_available in
          Ok (channel_id, claim_id) in
        match ids with
        | Raise e => ([Post op], Raise e, h)
        | Ok (channel_id, claim_id) =>
            match claim_points channel_id claim_id h with
            | (Ok posted, h') => ([Post op; posted; Info "Claimed bonus points"], Ok (), h')
            | (Raise e, h') => ([Post op], Raise e, h')
            end
        end
      else ([Post op], Ok (), h)
  end.

(** One turn of [while True] in [watcher], with the counter [i]: the actions
    and the counter of the next turn. *)
Definition watcher_turn (channel : Twitch.Channel) (op : GQLOperation.t) (i : nat)
    (response : json) (h : list GQLOperation.t)
  : list action * result nat * list GQLOperation.t :=
  if bool_decide (i = 0%nat) then
    match bonus_check op response h with
    | (actions, Ok _, h') =>
        (SendWatch (Twitch.id channel) :: actions, Ok ((i + 1) mod 30)%nat, h')
    | (actions, Raise e, h') => (SendWatch (Twitch.id channel) :: actions, Raise e, h')
    end
  else ([SendWatch (Twitch.id channel)], Ok ((i + 1) mod 30)%nat, h).

(** The loop of [watcher] for at most [turns] turns from the turn [t] on;
    [responses t] is what the server would reply in turn [t].  The task ends
    at the first exception. *)
Fixpoint watcher_loop (channel : Twitch.Channel) (op : GQLOperation.t)
    (responses : nat → json) (turns t i : nat) (h : list GQLOperation.t)
  : list (list action) * list GQLOperation.t :=
  match turns with
  | 0%nat => ([], h)
  | S turns' =>
      match watcher_turn channel op i (responses t) h with
      | (actions, Ok i', h') =>
          let '(later, h'') := watcher_loop channel op responses turns' (S t) i' h' in
          (actions :: later, h'')
      | (actions, Raise _, h') => ([actions], h')
      end
  end.

(** [watcher] for [turns] turns: the operation is built once, then the loop
    runs with the counter at 0. *)
Definition watcher (channel : Twitch.Channel) (responses : nat → json) (turns : nat)
    (h : list GQLOperation.t)
  : result (list (list action)) * list GQLOperation.t :=
  match derive "ChannelPointsContext"
          (JObj [("channelLogin", JStr (Twitch.name channel))]) h with
  | (Ok op, h') =>
      let '(log, h'') := watcher_loop channel op responses turns 0 0 h' in
      (Ok log, h'')
  | (Raise e, h') => (Raise e, h')
  end.

End builtin.
End Requests.

(** ** twitch.py: logging in *)

Definition CLIENT_ID : string := "kimne78kx3ncx6brgo4mv6wki5h1ko".

Module Login.

(** The exceptions of [_login]: those of [exceptions.py] it raises, the end
    of the console's input, and a key missing from a reply. *)
Inductive error : Type :=
  | IncorrectCredentials
  | CaptchaRequired
  | LoginException (reason : json)
  | EOFError
  | Missing (key : string).

Inductive outcome (A : Type) : Type :=
  | Returns (a : A)
  | Raises (e : error).
Arguments Returns {A} a.
Arguments Raises {A} e.

(** The attributes [_login] works on, followed by its surroundings: the lines
    the user will type at [input()] and [getpass()], in order, and the
    payloads posted to the login endpoint so far. *)
Record t : Type := mk {
  username : option string;
  password : option string;
  _access_token : option json;
  console : list string;
  posts : list (list (string * json));
}.

Definition set_username (v : string) (s : t) : t :=
  mk (Some v) (password s) (_access_token s) (console s) (posts s).
Definition set_password (v : string) (s : t) : t :=
  mk (username s) (Some v) (_access_token s) (console s) (posts s).
Definition set_access_token (v : option json) (s : t) : t :=
  mk (username s) (password s) v (console s) (posts s).
Definition set_console (v : list string) (s : t) : t :=
  mk (username s) (password s) (_access_token s) v (posts s).

(** [self._session.post("https://passport.twitch.tv/login", json=payload)] *)
Definition post (payload : list (string * json)) (s : t) : t :=
  mk (username s) (password s) (_access_token s) (console s) (posts s ++ [payload]).

(** [input()] and [getpass()]: the next line of the console. *)
Definition read (s : t) : outcome string * t :=
  match console s with
  | [] => (Raises EOFError, s)
  | line :: rest => (Returns line, set_console rest s)
  end.

(** A decoded value as an attribute: [null] is [None]. *)
Definition attribute (value : json) : option json :=
  match value with
  | JNull => None
  | other => Some other
  end.

(** [error_code == n] *)
Definition is_code (n : Z) (error_code : json) : bool :=
  match error_code with
  | JNum z => (z =? n)%Z
  | _ => false
  end.

(** [not text] *)
Definition empty (text : string) : bool :=
  match text with
  | EmptyString => true
  | _ => false
  end.

(** The statements of [_login] before the loop: the two prompts, the check
    of the password and the payload. *)
Definition prepare (s : t) : outcome (list (string * json)) * t :=
  let asked_name :=
    match username s with
    | Some name => (Returns name, s)
    | None =>
        match read s with
        | (Returns line, s') => (Returns line, set_username line s')
        | (Raises e, s') => (Raises e, s')
        end
    end in
  match asked_name with
  | (Raises e, s1) => (Raises e, s1)
  | (Returns name, s1) =>
      let asked_pass :=
        match password s1 with
        | Some pass => (Returns pass, s1)
        | None =>
            match read s1 with
            | (Returns line, s') => (Returns line, set_password line s')
            | (Raises e, s') => (Raises e, s')
            end
        end in
      match asked_pass with
      | (Raises e, s2) => (Raises e, s2)
      | (Returns pass, s2) =>
          if empty pass then (Raises IncorrectCredentials, s2)
          else
            (Returns [ ("username", JStr name);
                       ("password", JStr pass);
                       ("client_id", JStr CLIENT_ID);
                       ("undelete_user", JBool false);
                       ("remember_me", JBool true) ],
             s2)
      end
  end.

(** How one pass through the body of [for attempt in range(10)] ends: by
    leaving the loop ([break] or an exception), or by going on with the
    payload as it is then. *)
Inductive step : Type :=
  | Leave (r : outcome unit) (s : t)
  | Again (payload : list (string * json)) (s : t).

(** The body of the loop, for the reply [login_response] to the payload. *)
Definition attempt (login_response payload : list (string * json)) (s : t) : step :=
  let s := post payload s in
  let payload :=
    match PyDict.get "captcha_proof" login_response with
    | Some proof => PyDict.set "captcha" (JObj [("proof", proof)]) payload
    | None => payload
    end in
  let success (s : t) : step :=
    match PyDict.get "access_token" login_response with
    | Some token => Leave (Returns ()) (set_access_token (attribute token) s)
    | None => Again payload s
    end in
  match PyDict.get "error_code" login_response with
  | None => success s
  | Some error_code =>
      if is_code 1000 error_code then Leave (Raises CaptchaRequired) s
      else if is_code 3001 error_code then
        match read s with
        | (Raises e, s') => Leave (Raises e) s'
        | (Returns line, s') =>
            if empty line then Leave (Raises IncorrectCredentials) (set_password line s')
            else success (set_password line s')
        end
      else if is_code 3011 error_code || is_code 3012 error_code
              || is_code 3022 error_code || is_code 3023 error_code then
        let email := is_code 3022 error_code || is_code 3023 error_code in
        match read s with
        | (Raises e, s') => Leave (Raises e) s'
        | (Returns token, s') =>
            Again (PyDict.set (if email then "twitchguard_code" else "authy_token")
                     (JStr token) payload) s'
        end
      else
        match PyDict.get "error" login_response with
        | Some reason => Leave (Raises (LoginException reason)) s
        | None => Leave (Raises (Missing "error")) s
        end
  end.

(** [for attempt in range(n)]; [responses k] is the reply to the post
    number [k]. *)
Fixpoint attempts (n : nat) (responses : nat → list (string * json))
    (payload : list (string * json)) (s : t) : outcome unit * t :=
  match n with
  | 0%nat => (Returns (), s)
  | S n' =>
      match attempt (responses (length (posts s))) payload s with
      | Leave r s' => (r, s')
      | Again payload' s' => attempts n' responses payload' s'
      end
  end.

(** [Twitch._login] *)
Definition _login (responses : nat → list (string * json)) (s : t) : outcome json * t :=
  match prepare s with
  | (Raises e, s1) => (Raises e, s1)
  | (Returns payload, s1) =>
      match attempts 10 responses payload s1 with
      | (Raises e, s2) => (Raises e, s2)
      | (Returns _, s2) =>
          match _access_token s2 with
          | None => (Raises (LoginException (JStr "Ran out of login retries")), s2)
          | Some token => (Returns token, s2)
          end
      end
  end.

End Login.

(** ** Statements of the specification *)

(** The three eligibility predicates in the words of the specification: the
    stream is online, drops are enabled, and the game is in the interest set. *)
Definition satisfies_all (games : gset string) (channel : Twitch.Channel) : Prop :=
  ∃ live, Twitch.stream channel = Some live
          ∧ Twitch.drops_enabled live = true
          ∧ Twitch.game live ∈ games.

(** No engagement switch between two scheduler states: no watcher task was
    cancelled or started, and the task watched is the same. *)
Definition no_switch (s s' : Twitch.t) : Prop :=
  Twitch.tasks s' = Twitch.tasks s
  ∧ Twitch._watching_task s' = Twitch._watching_task s.

(** The eligibility of every tracked channel, in the order of the scan. *)
Definition eligibility (games : gset string) (s : Twitch.t) : list (Z * bool) :=
  (λ channel, (Twitch.id channel, Twitch.eligible games channel))
  <$> PyDict.values (Twitch.channels s).

(** The topic keys a LISTEN frame carries. *)
Definition listen_topics (frame : json) : list json :=
  match getitem "data" frame with
  | Ok data =>
      match getitem "topics" data with
      | Ok (JArr keys) => keys
      | _ => []
      end
  | Raise _ => []
  end.

(** A frame carries the full membership of a held set: every held key is in
    its topic list. *)
Definition carries_full_membership (frame : json) (held : gmap string Handler) : Prop :=
  ∀ key, is_Some (held !! key) → JStr key ∈ listen_topics frame.

(** The frames a trace writes to the socket, in order. *)
Definition wires (tr : list event) : list json :=
  omap (λ ev, match ev with Wire frame => Some frame | _ => None end) tr.

(** Whether a frame is a LISTEN request. *)
Definition is_listen (frame : json) : bool :=
  match getitem "type" frame with
  | Ok kind => is_str "LISTEN" kind
  | Raise _ => false
  end.

(** Exactly one LISTEN was written, and its topic list is the held set. *)
Definition reannounced_once (held : gmap string Handler) (tr : list event) : Prop :=
  ∃ frame, filter (λ f, is_listen f = true) (wires tr) = [frame]
           ∧ ∀ key, is_Some (held !! key) ↔ JStr key ∈ listen_topics frame.

(** A payload carries the user name and the password given. *)
Definition carries_credentials (name pass : string) (payload : list (string * json))
  : Prop :=
  PyDict.get "username" payload = Some (JStr name)
  ∧ PyDict.get "password" payload = Some (JStr pass).

(** A reply that asks for a two-factor token and grants nothing. *)
Definition asks_for_token (login_response : list (string * json)) : Prop :=
  ∃ error_code,
    PyDict.get "error_code" login_response = Some (JNum error_code)
    ∧ error_code ∈ [3011; 3012; 3022; 3023]%Z.

(** The objects of the operation table are in the heap, at their addresses,
    as they were defined. *)
Definition intact (h : list GQLOperation.t) : Prop :=
  ∀ address op, Requests.table !! address = Some op → h !! address = Some op.

(** A reply to the points query that offers nothing to claim. *)
Definition no_claim (response : json) : Prop :=
  ∃ data community channel_data self community_points claim_available,
    getitem "data" response = Ok data
    ∧ getitem "community" data = Ok community
    ∧ getitem "channel" community = Ok channel_data
    ∧ getitem "self" channel_data = Ok self
    ∧ getitem "communityPoints" self = Ok community_points
    ∧ getitem "availableClaim" community_points = Ok claim_available
    ∧ Requests.truthy claim_available = false.

(** What a turn of the watcher does, for the operation [op] it built when it
    started: the watch signal alone in a turn without the bonus check; in a
    turn with the check, the watch signal and the points query with [op],
    then nothing more or a claim and its log line. *)
Definition turn_actions (channel : Twitch.Channel) (op : GQLOperation.t) (u : nat)
    (actions : list Requests.action) : Prop :=
  if bool_decide (u mod 30 = 0)%nat then
    actions = [Requests.SendWatch (Twitch.id channel); Requests.Post op]
    ∨ ∃ claim,
        actions = [Requests.SendWatch (Twitch.id channel); Requests.Post op;
                   Requests.Post claim; Requests.Info "Claimed bonus points"]
        ∧ PyDict.get "operationName" claim = Some (JStr "ClaimCommunityPoints")
  else actions = [Requests.SendWatch (Twitch.id channel)].

(** Every watcher task that has not been cancelled is the one recorded as
    current, and it was started for the channel recorded as watched. *)
Definition one_watcher (s : Twitch.t) : Prop :=
  ∀ task w, Twitch.tasks s !! task = Some w → Twitch.cancelled w = false →
    Twitch._watching_task s = Some task
    ∧ Twitch._watching_channel s = Some (Twitch.target w).

(** The exceptions the socket raises in the inputs of a connection: from
    [recv], or from [send] when the write budget runs out. *)
Definition closures (inputs : list (Websocket.received * option (nat * exn)))
  : list exn :=
  inputs ≫= λ input,
    match input.1 with Websocket.Closed exc => [exc] | _ => [] end
    ++ match input.2 with Some (_, exc) => [exc] | None => [] end.

(** The exceptions that handling a message can raise by itself. *)
Definition internal (exc : exn) : Prop :=
  exc ∈ [KeyError; TypeError; JSONDecodeError; InvalidStateError; HandlerError].

(** ** Sample data *)

Module Sample.

(** A stand-in for the interpreter's string hash. *)
Definition hash_str (s : string) : Z := Z.of_nat (String.length s).

Definition drops : WebsocketTopic.t := WebsocketTopic.mk "user-drop-events.7" process_drops.
Definition drops' : WebsocketTopic.t := WebsocketTopic.mk "user-drop-events.7" (callable 3).
Definition points : WebsocketTopic.t :=
  WebsocketTopic.mk "community-points-user-v1.7" process_points.

Definition points_context : GQLOperation.t :=
  GQLOperation.init "ChannelPointsContext"
    "9988086babc615a918a1e9a722ff41d98847acac822645209ac7379eecb27152" None.
Definition login : json := JObj [("channelLogin", JStr "somebody")].

(** The two account topics of [connect], for the account 7. *)
Definition user_topics : list WebsocketTopic.t :=
  match Websocket.connect_topics 7 with Ok topics => topics | Raise _ => [] end.

Definition exec {A} (segment : Websocket.M A) (s : Websocket.t) : Websocket.t :=
  (segment s).1.2.

(** A client whose deferred [add_topics] has run before the first connection:
    the account topics are held and the coroutine waits for readiness. *)
Definition started : Websocket.t :=
  exec (Websocket.add_topics "n0" user_topics) (Websocket.init (Some "oauth")).

(** The first connection is open. *)
Definition opened : Websocket.t := exec (Websocket.connected_to 0) started.

(** The waiting [add_topics] has resumed: its LISTEN is queued under [n0]. *)
Definition subscribed : Websocket.t :=
  exec (Websocket.add_topics_listen "n0" (Websocket._topics started)) opened.

(** A scheduler tracking the channels 1 to [n]. *)
Definition tracking (n : nat) : Twitch.t :=
  Twitch.register ((λ i, Twitch.mkChannel (Z.of_nat i) "channel" None) <$> seq 1 n)
    Twitch.init.

(** The topics [run] passes to [add_topics] when it tracks [n] channels. *)
Definition videos (n : nat) : list WebsocketTopic.t :=
  match Twitch.channel_topics (tracking n) with Ok topics => topics | Raise _ => [] end.

(** A decoder that knows five raw messages and one inner payload. *)
Definition json_loads (raw : string) : option json :=
  if bool_decide (raw = "<push drops>") then
    Some (JObj [ ("type", JStr "MESSAGE");
                 ("data", JObj [ ("topic", JStr "user-drop-events.7");
                                 ("message", JStr "<progress>") ]) ])
  else if bool_decide (raw = "<progress>") then
    Some (JObj [ ("type", JStr "drop-progress");
                 ("data", JObj [("drop_id", JStr "d1")]) ])
  else if bool_decide (raw = "<push stray>") then
    Some (JObj [ ("type", JStr "MESSAGE");
                 ("data", JObj [ ("topic", JStr "video-playback-by-id.99");
                                 ("message", JStr "<progress>") ]) ])
  else if bool_decide (raw = "<reply n0>") then
    Some (JObj [("type", JStr "RESPONSE"); ("error", JStr EmptyString); ("nonce", JStr "n0")])
  else if bool_decide (raw = "<reply zz>") then
    Some (JObj [("type", JStr "RESPONSE"); ("nonce", JStr "zz")])
  else if bool_decide (raw = "<pong>") then
    Some (JObj [("type", JStr "PONG")])
  else None.

(** Handlers that return normally. *)
Definition process_raises (handler : Handler) (payload : json) : bool := false.

(** The first connection has written the LISTEN and was then lost. *)
Definition dropped : Websocket.t :=
  exec (Websocket.session json_loads process_raises
          [(Websocket.Nothing, None); (Websocket.Closed ConnectionClosedError, None)])
       subscribed.

(** The caller of the request [n0] has given up and cancelled its future. *)
Definition abandoned : Websocket.t := exec (Websocket.cancel 0) subscribed.

(** The request the account subscription is made of. *)
Definition listen_request : json :=
  JObj [ ("type", JStr "LISTEN");
         ("data", JObj [ ("topics", JArr [JStr "user-drop-events.7"]);
                         ("auth_token", JStr "oauth") ]) ].

(** The heartbeat task of the first connection has sent its PING and waits
    for the reply. *)
Definition beating : Websocket.t := exec (Websocket._ping_loop 0 Websocket.Ready) subscribed.

(** The second connection: it opens, its heartbeat task starts, and the pump
    takes two turns in which nothing arrives. *)
Definition reconnects : Websocket.M bool :=
  Websocket.bind (Websocket.connected_to 1) (λ _,
  Websocket.bind (Websocket._ping_loop 1 Websocket.Ready) (λ _,
  Websocket.pump json_loads process_raises
    [(Websocket.Nothing, None); (Websocket.Nothing, None)])).

(** A decoder that also knows a reconnect request, a frame of a kind the
    router does not handle, and a document without a type. *)
Definition more_loads (raw : string) : option json :=
  if bool_decide (raw = "<reconnect>") then Some (JObj [("type", JStr "RECONNECT")])
  else if bool_decide (raw = "<auth>") then Some (JObj [("type", JStr "AUTH_REVOKED")])
  else if bool_decide (raw = "<untyped>") then Some (JObj [("data", JNull)])
  else json_loads raw.

Definition unlisten_request : json :=
  JObj [ ("type", JStr "UNLISTEN");
         ("data", JObj [("topics", JArr [JStr "user-drop-events.7"])]) ].

(** Two requests are queued on the open connection. *)
Definition two_queued : Websocket.t :=
  exec (Websocket.send "n2" unlisten_request)
    (exec (Websocket.send "n1" listen_request) opened).

(** A connected client without an access token. *)
Definition anonymous : Websocket.t :=
  Websocket.set_connected true (Websocket.init None).

(** A message announcing a bonus that can be claimed. *)
Definition claim_available : json :=
  JObj [ ("type", JStr "claim-available");
         ("data", JObj [ ("claim",
             JObj [ ("id", JStr "claim-1");
                    ("channel_id", JStr "11");
                    ("point_gain", JObj [("total_points", JNum 50)]) ]) ]) ].

(** A reply to the points query without a bonus to claim. *)
Definition no_bonus : json :=
  JObj [ ("data", JObj [ ("community", JObj [ ("channel",
     JObj [ ("id", JStr "11");
            ("self", JObj [ ("communityPoints",
               JObj [("availableClaim", JNull)]) ]) ]) ]) ]) ].

(** A reply to the points query that offers the bonus [claim-1]. *)
Definition bonus : json :=
  JObj [ ("data", JObj [ ("community", JObj [ ("channel",
     JObj [ ("id", JStr "11");
            ("self", JObj [ ("communityPoints",
               JObj [("availableClaim", JObj [("id", JStr "claim-1")])]) ]) ]) ]) ]) ].

(** What the server replies to the watcher of alpha: a bonus in the first
    turn, none afterwards. *)
Definition replies (u : nat) : json :=
  if bool_decide (u = 0%nat) then bonus else no_bonus.

(** [str] on the values the samples use. *)
Definition str (value : json) : string :=
  match value with
  | JStr text => text
  | JNum z => pretty z
  | _ => "None"
  end.

(** A user with both credentials, a console of ten lines, and a server that
    asks for the authenticator token every time. *)
Definition user : Login.t :=
  Login.mk (Some "somebody") (Some "secret") None (replicate 10 "123456") [].
Definition asks_authy (k : nat) : list (string * json) :=
  [("error_code", JNum 3011); ("error", JStr "missing authy token")].

Definition live (category : string) : option Twitch.Stream :=
  Some (Twitch.mkStream true category 10).
Definition chanA : Twitch.Channel := Twitch.mkChannel 11 "alpha" (live "chess").
Definition chanB : Twitch.Channel := Twitch.mkChannel 22 "beta" (live "chess").
Definition chanOff : Twitch.Channel := Twitch.mkChannel 33 "gamma" None.
Definition games : gset string := {["chess"]}.
(** What the server reports on a refresh: alpha is live, the others are not. *)
Definition fetch (channel_id : Z) : option Twitch.Stream :=
  if bool_decide (channel_id = 11%Z) then live "chess" else None.

(** Channels registered in the order gamma, alpha, beta; the scheduler has
    been signalled and nothing is watched yet. *)
Definition idle : Twitch.t :=
  let s := Twitch.register [chanOff; chanA; chanB] Twitch.init in
  Twitch.mk (Twitch.channels s) None None true [] false.

(** A server that reports every channel offline. *)
Definition all_offline (channel_id : Z) : option Twitch.Stream := None.

(** A scheduler tracking gamma and alpha, signalled, that watches nothing
    yet. *)
Definition unengaged : Twitch.t :=
  let s0 := Twitch.register [chanOff; chanA] Twitch.init in
  Twitch.mk (Twitch.channels s0) None None true [] false.

(** A scheduler tracking gamma and alpha that watches alpha with task 0. *)
Definition watching : Twitch.t :=
  let s0 := Twitch.register [chanOff; chanA] Twitch.init in
  (Twitch.run_turn games fetch
     (Twitch.mk (Twitch.channels s0) None None true [] false)).2.

(** A scheduler tracking gamma and alpha: it watches alpha with task 0, a
    stream-down event for alpha arrives, and the refresh that follows finds
    alpha live again.  The change signal is still set. *)
Definition engaged : Twitch.t :=
  let s0 := Twitch.register [chanOff; chanA] Twitch.init in
  let s1 := Twitch.mk (Twitch.channels s0) None None true [] false in
  let s2 := (Twitch.run_turn games fetch s1).2 in
  let s3 := Twitch.stream_down 11 s2 in
  (Twitch.run_turn games fetch s3).2.

End Sample.

(** * Properties *)

(** ** Dictionaries *)

Section dict_facts.
Context {K V : Type} `{EqDecision K}.
Implicit Types (d : list (K * V)) (k : K) (v : V).

Lemma get_set_eq d k v : PyDict.get k (PyDict.set k v d) = Some v.
Proof.
  induction d as [|[k' v'] d IH]; simpl.
  - by rewrite decide_True.
  - destruct (decide (k = k')) as [->|Hne]; simpl.
    + by rewrite decide_True.
    + by rewrite decide_False.
Qed.

Lemma get_set_ne d k k' v : k ≠ k' → PyDict.get k' (PyDict.set k v d) = PyDict.get k' d.
Proof.
  intros Hne. induction d as [|[k0 v0] d IH]; simpl.
  - by rewrite decide_False.
  - destruct (decide (k = k0)) as [->|Hk]; simpl.
    + by rewrite !decide_False.
    + by rewrite IH.
Qed.

Lemma set_fresh d k v : k ∉ PyDict.keys d → PyDict.set k v d = d ++ [(k, v)].
Proof.
  unfold PyDict.keys. induction d as [|[k0 v0] d IH]; simpl; [done|].
  rewrite not_elem_of_cons. intros [Hk Hd].
  rewrite decide_False by done. by rewrite IH.
Qed.

End dict_facts.

(** ** GQL operations *)

(** C10: [with_variables] returns a new operation object whose ["variables"]
    entry is the mapping passed, which agrees with the receiver on every
    other top-level key; the receiver and every other object of the heap are
    what they were before the call. *)
Theorem with_variables_frame (h : list GQLOperation.t) (op : nat)
    (d : GQLOperation.t) (variables : json) :
  h !! op = Some d →
  ∃ modified h' d',
    GQLOperation.with_variables op variables h = Some (modified, h')
    ∧ modified ≠ op
    ∧ h' !! modified = Some d'
    ∧ PyDict.get "variables" d' = Some variables
    ∧ (∀ key, key ≠ "variables" → PyDict.get key d' = PyDict.get key d)
    ∧ h' !! op = Some d
    ∧ (∀ other, other ≠ modified → h' !! other = h !! other).
Proof.
  intros Hop.
  assert (op < length h)%nat as Hlt by (by eapply lookup_lt_Some).
  exists (length h), (h ++ [PyDict.set "variables" variables d]),
    (PyDict.set "variables" variables d).
  assert (GQLOperation.setitem (length h) "variables" variables (h ++ [d])
          = h ++ [PyDict.set "variables" variables d]) as Hset.
  { unfold GQLOperation.setitem.
    replace (length h) with (length h + 0)%nat at 1 by lia.
    by rewrite (alter_app_r (PyDict.set "variables" variables) h [d] 0). }
  split_and!.
  - unfold GQLOperation.with_variables, GQLOperation.copy.
    rewrite Hop. simpl. by rewrite Hset.
  - lia.
  - rewrite lookup_app_r by reflexivity. by rewrite Nat.sub_diag.
  - apply get_set_eq.
  - intros key Hkey. by apply get_set_ne.
  - by rewrite lookup_app_l.
  - intros other Hother. destruct (decide (other < length h)%nat) as [Hin|Hout].
    + by rewrite lookup_app_l.
    + rewrite (lookup_ge_None_2 h) by lia.
      apply lookup_ge_None_2. rewrite length_app. simpl. lia.
Qed.

Lemma with_variables_frame_witness :
  ∃ modified h' d',
    GQLOperation.with_variables 0 Sample.login [Sample.points_context]
      = Some (modified, h')
    ∧ modified ≠ 0%nat
    ∧ h' !! modified = Some d'
    ∧ PyDict.get "variables" d' = Some Sample.login
    ∧ (∀ key, key ≠ "variables" →
         PyDict.get key d' = PyDict.get key Sample.points_context)
    ∧ h' !! 0%nat = Some Sample.points_context
    ∧ (∀ other, other ≠ modified →
         h' !! other = [Sample.points_context] !! other).
Proof.
  apply (with_variables_frame [Sample.points_context] 0 Sample.points_context).
  reflexivity.
Defined.

(** ** Topics *)

(** C9: equality and hashing of topics look at the key alone.  Topics with
    equal keys are equal and have equal hashes whatever their handlers;
    topics with unequal keys are unequal; and a topic equals the bare string
    of its key, from either side of [==]. *)
Theorem topic_eq_hash_by_key (hash_str : string → Z) (a b : WebsocketTopic.t) :
  (WebsocketTopic.id a = WebsocketTopic.id b →
     WebsocketTopic.eq a (WebsocketTopic.Topic b) = Some true
     ∧ WebsocketTopic.hash hash_str a = WebsocketTopic.hash hash_str b)
  ∧ (WebsocketTopic.id a ≠ WebsocketTopic.id b →
     WebsocketTopic.eq a (WebsocketTopic.Topic b) = Some false)
  ∧ WebsocketTopic.eq a (WebsocketTopic.Str (WebsocketTopic.id a)) = Some true
  ∧ WebsocketTopic.py_eq (JStr (WebsocketTopic.id a)) a = true.
Proof.
  unfold WebsocketTopic.py_eq, WebsocketTopic.hash. simpl. split_and!.
  - intros Heq. rewrite bool_decide_eq_true_2 by done. by rewrite Heq.
  - intros Hne. by rewrite bool_decide_eq_false_2.
  - by rewrite bool_decide_eq_true_2.
  - by rewrite bool_decide_eq_true_2.
Qed.

Lemma topic_eq_hash_by_key_witness :
  (WebsocketTopic.eq Sample.drops (WebsocketTopic.Topic Sample.drops') = Some true
   ∧ WebsocketTopic.hash Sample.hash_str Sample.drops
     = WebsocketTopic.hash Sample.hash_str Sample.drops')
  ∧ WebsocketTopic.eq Sample.drops (WebsocketTopic.Topic Sample.points) = Some false.
Proof.
  split.
  - apply (topic_eq_hash_by_key Sample.hash_str Sample.drops Sample.drops').
    reflexivity.
  - apply (topic_eq_hash_by_key Sample.hash_str Sample.drops Sample.points).
    discriminate.
Defined.

(** ** The watch scheduler *)

Lemma eligible_spec games channel :
  Twitch.eligible games channel = true ↔ satisfies_all games channel.
Proof.
  unfold Twitch.eligible, satisfies_all. destruct (Twitch.stream channel) as [live|].
  - rewrite andb_true_iff, bool_decide_eq_true. split.
    + intros [? ?]. by exists live.
    + intros (? & [= <-] & ? & ?). done.
  - split; [done | intros (? & ? & _); done].
Qed.

Lemma first_eligible_app games before channel after :
  Forall (λ c, ¬ satisfies_all games c) before →
  satisfies_all games channel →
  Twitch.first_eligible games (before ++ channel :: after) = Some channel.
Proof.
  intros Hbefore Hchannel. induction Hbefore as [|c before Hc _ IH]; simpl.
  - apply eligible_spec in Hchannel. by rewrite Hchannel.
  - destruct (Twitch.eligible games c) eqn:E; [|done].
    apply eligible_spec in E. done.
Qed.

Lemma first_eligible_None games candidates :
  Twitch.first_eligible games candidates = None ↔
  Forall (λ c, ¬ satisfies_all games c) candidates.
Proof.
  induction candidates as [|c rest IH]; simpl.
  - split; [constructor | done].
  - rewrite Forall_cons, <- IH, <- eligible_spec.
    destruct (Twitch.eligible games c); split; try done.
    + intros [? _]. done.
    + intros [_ ?]. done.
Qed.

(** Channels registered under pairwise distinct ids are listed in the order
    of their registration. *)
Lemma register_order (fetched : list Twitch.Channel) :
  NoDup (Twitch.id <$> fetched) →
  PyDict.values (Twitch.channels (Twitch.register fetched Twitch.init)) = fetched.
Proof.
  unfold Twitch.register. simpl.
  enough (∀ d : list (Z * Twitch.Channel),
    NoDup (PyDict.keys d ++ (Twitch.id <$> fetched)) →
    PyDict.values (foldl (λ d c, PyDict.set (Twitch.id c) c d) d fetched)
    = PyDict.values d ++ fetched) as Hgen.
  { intros Hnd. by rewrite (Hgen []). }
  induction fetched as [|c rest IH]; intros d Hnd; simpl.
  - by rewrite app_nil_r.
  - simpl in Hnd. apply NoDup_app in Hnd as (Hd & Hdisj & Hrest).
    apply NoDup_cons in Hrest as [Hc Hrest].
    assert (Twitch.id c ∉ PyDict.keys d) as Hfresh.
    { intros Hin. apply (Hdisj _ Hin). left. }
    rewrite set_fresh by done. rewrite IH.
    + unfold PyDict.values. rewrite fmap_app. simpl. by rewrite <- app_assoc.
    + unfold PyDict.keys. rewrite fmap_app. simpl. rewrite <- app_assoc. simpl.
      apply NoDup_app. split_and!; [done| |by apply NoDup_cons].
      intros k Hk. rewrite elem_of_cons. intros [->|Hin]; [done|].
      apply (Hdisj _ Hk). by right.
Qed.

(** C6: a re-evaluation scans the tracked channels in the order of the
    dictionary (insertion order) and engages the first one that is online,
    has drops enabled and streams a game of the interest set: whatever
    follows it, eligible or not, is not considered. *)
Theorem run_turn_selects_first_eligible (games : gset string)
    (fetch : Z → option Twitch.Stream) (s : Twitch.t)
    (before after : list Twitch.Channel) (A : Twitch.Channel) :
  Twitch._channel_change s = true →
  PyDict.values (Twitch.channels s) = before ++ A :: after →
  Forall (λ c, ¬ satisfies_all games c) before →
  satisfies_all games A →
  (Twitch.run_turn games fetch s).1 = Twitch.Watching A
  ∧ Twitch._watching_channel (Twitch.run_turn games fetch s).2 = Some (Twitch.id A).
Proof.
  intros Hsignal Horder Hbefore HA. unfold Twitch.run_turn.
  rewrite Hsignal, Horder. simpl.
  by rewrite (first_eligible_app _ _ _ _ Hbefore HA).
Qed.

Lemma run_turn_selects_first_eligible_witness :
  satisfies_all Sample.games Sample.chanB
  ∧ (Twitch.run_turn Sample.games Sample.fetch Sample.idle).1
    = Twitch.Watching Sample.chanA
  ∧ Twitch._watching_channel (Twitch.run_turn Sample.games Sample.fetch Sample.idle).2
    = Some 11%Z.
Proof.
  assert (∀ channel, Twitch.stream channel = Sample.live "chess" →
            satisfies_all Sample.games channel) as Hlive.
  { intros channel Hstream. eexists. split_and!; [exact Hstream|reflexivity|].
    by apply elem_of_singleton. }
  split; [by apply Hlive|].
  apply (run_turn_selects_first_eligible Sample.games Sample.fetch Sample.idle
           [Sample.chanOff] [Sample.chanB] Sample.chanA).
  - reflexivity.
  - reflexivity.
  - constructor; [|constructor]. intros (? & Hoff & _). discriminate Hoff.
  - by apply Hlive.
Defined.

Lemma first_eligible_by_eligibility (games : gset string)
    (now before : list Twitch.Channel) :
  (λ channel, (Twitch.id channel, Twitch.eligible games channel)) <$> now
  = (λ channel, (Twitch.id channel, Twitch.eligible games channel)) <$> before →
  Twitch.id <$> Twitch.first_eligible games now
  = Twitch.id <$> Twitch.first_eligible games before.
Proof.
  revert before. induction now as [|c now IH]; intros [|c0 before]; simpl; try done.
  intros [= Hid Heligible Hrest]. rewrite Heligible.
  destruct (Twitch.eligible games c0); simpl; [by rewrite Hid|by apply IH].
Qed.

(** Counterexample to C5 as stated: the evaluation of [Sample.unengaged]
    engages alpha with task 0.  A stream-down event for alpha and the refresh
    that follows lead to [Sample.engaged], where the eligibility of every
    channel is what it was when alpha was engaged and alpha, the engaged
    channel, is still the first eligible one; the re-evaluation cancels
    task 0 and starts task 1. *)
Lemma reevaluation_switches_counterexample :
  Twitch.run_turn Sample.games Sample.fetch Sample.unengaged
  = (Twitch.Watching Sample.chanA, Sample.watching)
  ∧ Twitch.run_turn Sample.games Sample.fetch (Twitch.stream_down 11 Sample.watching)
    = (Twitch.Refreshed, Sample.engaged)
  ∧ eligibility Sample.games Sample.engaged = eligibility Sample.games Sample.unengaged
  ∧ Twitch.first_eligible Sample.games (PyDict.values (Twitch.channels Sample.unengaged))
    = Some Sample.chanA
  ∧ Twitch.first_eligible Sample.games (PyDict.values (Twitch.channels Sample.engaged))
    = Some Sample.chanA
  ∧ Twitch._watching_channel Sample.engaged = Some (Twitch.id Sample.chanA)
  ∧ Twitch._watching_task Sample.engaged = Some 0%nat
  ∧ Twitch._channel_change Sample.engaged = true
  ∧ Twitch.tasks Sample.engaged = [Twitch.mkTask 11 false]
  ∧ Twitch.tasks (Twitch.run_turn Sample.games Sample.fetch Sample.engaged).2
    = [Twitch.mkTask 11 true; Twitch.mkTask 11 false]
  ∧ ¬ no_switch Sample.engaged
        (Twitch.run_turn Sample.games Sample.fetch Sample.engaged).2.
Proof.
  split_and!; try reflexivity.
  intros [Htasks _]. discriminate Htasks.
Qed.

(** C5, amended: a re-evaluation, which scans only when the change signal is
    set, with the eligibility of every channel as it was at an earlier
    evaluation and the watched channel still first among the eligible ones,
    selects the channel that the earlier evaluation selected and keeps it as
    the watched channel, but it does cancel the running watcher task and
    starts a new one for the same channel, and clears the change signal; an
    evaluation straight after it finds the signal clear and does nothing. *)
Theorem reevaluation_restarts_same_channel (games : gset string)
    (fetch : Z → option Twitch.Stream) (s0 s : Twitch.t) (channel : Twitch.Channel)
    (task : nat) (running : Twitch.WatchTask) :
  eligibility games s = eligibility games s0 →
  Twitch._channel_change s = true →
  Twitch.first_eligible games (PyDict.values (Twitch.channels s)) = Some channel →
  Twitch._watching_channel s = Some (Twitch.id channel) →
  Twitch._watching_task s = Some task →
  Twitch.tasks s !! task = Some running →
  let s' := (Twitch.run_turn games fetch s).2 in
  Twitch.id <$> Twitch.first_eligible games (PyDict.values (Twitch.channels s0))
  = Some (Twitch.id channel)
  ∧ (Twitch.run_turn games fetch s).1 = Twitch.Watching channel
  ∧ Twitch._watching_channel s' = Some (Twitch.id channel)
  ∧ Twitch.tasks s'
    = <[task := Twitch.mkTask (Twitch.target running) true]> (Twitch.tasks s)
      ++ [Twitch.mkTask (Twitch.id channel) false]
  ∧ Twitch._watching_task s' = Some (length (Twitch.tasks s))
  ∧ Twitch._watching_task s' ≠ Some task
  ∧ Twitch._channel_change s' = false
  ∧ Twitch.channels s' = Twitch.channels s
  ∧ Twitch.run_turn games fetch s' = (Twitch.Waiting, s').
Proof.
  intros Hsame Hsignal Hfirst Hwatching Htask Hrunning.
  assert (task < length (Twitch.tasks s))%nat as Hlt by (by eapply lookup_lt_Some).
  split.
  { rewrite <- (first_eligible_by_eligibility games _ _ Hsame). by rewrite Hfirst. }
  unfold Twitch.run_turn, Twitch.watch, Twitch.cancel.
  rewrite Hsignal, Hfirst, Htask. simpl.
  assert (alter (λ w, Twitch.mkTask (Twitch.target w) true) task (Twitch.tasks s)
          = <[task := Twitch.mkTask (Twitch.target running) true]> (Twitch.tasks s))
    as Halter.
  { apply list_eq. intros i. destruct (decide (i = task)) as [->|Hne].
    - rewrite list_lookup_alter_eq, Hrunning. simpl.
      by rewrite list_lookup_insert_eq.
    - rewrite list_lookup_alter_ne by done. by rewrite list_lookup_insert_ne. }
  rewrite Halter, length_insert. split_and!; try done.
  intros [= Heq]. lia.
Qed.

Lemma reevaluation_restarts_same_channel_witness :
  let s' := (Twitch.run_turn Sample.games Sample.fetch Sample.engaged).2 in
  Twitch.id <$> Twitch.first_eligible Sample.games
                  (PyDict.values (Twitch.channels Sample.unengaged))
  = Some 11%Z
  ∧ (Twitch.run_turn Sample.games Sample.fetch Sample.engaged).1
    = Twitch.Watching Sample.chanA
  ∧ Twitch._watching_channel s' = Some 11%Z
  ∧ Twitch.tasks s' = [Twitch.mkTask 11 true; Twitch.mkTask 11 false]
  ∧ Twitch._watching_task s' = Some 1%nat
  ∧ Twitch._watching_task s' ≠ Some 0%nat
  ∧ Twitch._channel_change s' = false
  ∧ Twitch.channels s' = Twitch.channels Sample.engaged
  ∧ Twitch.run_turn Sample.games Sample.fetch s' = (Twitch.Waiting, s').
Proof.
  apply (reevaluation_restarts_same_channel Sample.games Sample.fetch
           Sample.unengaged Sample.engaged Sample.chanA 0 (Twitch.mkTask 11 false));
    reflexivity.
Defined.

(** ** The subscription registry *)

Ltac run :=
  unfold Websocket.bind, Websocket.gets, Websocket.modify, Websocket.ret,
    Websocket.raise, Websocket.emit, Websocket.lift; simpl.

Lemma topic_set_dom (topics : list WebsocketTopic.t) :
  dom (Websocket.topic_set topics)
  = (list_to_set (WebsocketTopic.id <$> topics) : gset string).
Proof.
  unfold Websocket.topic_set.
  enough (∀ acc : gmap string Handler,
    dom (foldl (λ acc topic,
                  match acc !! WebsocketTopic.id topic with
                  | Some _ => acc
                  | None => <[WebsocketTopic.id topic := WebsocketTopic.process topic]> acc
                  end) acc topics)
    = dom acc ∪ list_to_set (WebsocketTopic.id <$> topics)) as Hgen.
  { rewrite Hgen, dom_empty_L. set_solver. }
  induction topics as [|topic rest IH]; intros acc; simpl.
  - set_solver.
  - rewrite IH. destruct (acc !! WebsocketTopic.id topic) as [h|] eqn:E.
    + assert (WebsocketTopic.id topic ∈ dom acc) by (apply elem_of_dom; eauto).
      set_solver.
    + rewrite dom_insert_L. set_solver.
Qed.

(** The keys of the elements of a topic set, in iteration order. *)
Lemma str_members (topics : gmap string Handler) :
  WebsocketTopic.str <$> Websocket.members topics = (map_to_list topics).*1.
Proof.
  unfold Websocket.members. rewrite <- list_fmap_compose.
  apply list_fmap_ext. by intros i [k h] _.
Qed.

(** Whatever a call of [add_topics] ends in, the topics passed are in the
    held set afterwards: the held set is committed before the ceiling is
    looked at. *)
Lemma add_topics_commits (rnd : string) (topics : list WebsocketTopic.t)
    (s : Websocket.t) :
  let s' := (Websocket.add_topics rnd topics s).1.2 in
  Websocket._topics s'
  = Websocket._topics s ∪ (Websocket.topic_set topics ∖ Websocket._topics s)
  ∧ dom (Websocket._topics s')
    = dom (Websocket._topics s) ∪ list_to_set (WebsocketTopic.id <$> topics).
Proof.
  simpl.
  assert (dom (Websocket._topics s
               ∪ (Websocket.topic_set topics ∖ Websocket._topics s))
          = dom (Websocket._topics s) ∪ list_to_set (WebsocketTopic.id <$> topics))
    as Hdom.
  { rewrite dom_union_L, dom_difference_L, topic_set_dom.
    apply set_eq. intros k. rewrite !elem_of_union, elem_of_difference.
    destruct (decide (k ∈ dom (Websocket._topics s))); tauto. }
  unfold Websocket.add_topics. run.
  destruct (bool_decide (Websocket.topic_set topics ∖ Websocket._topics s = ∅)) eqn:E.
  - simpl. apply bool_decide_eq_true in E.
    rewrite E, (right_id_L ∅ (∪)) in Hdom. rewrite E, (right_id_L ∅ (∪)). done.
  - simpl. destruct (bool_decide (50 ≤ _)%nat); simpl; [done|].
    destruct (Websocket.connected s); simpl; [|done].
    unfold Websocket.add_topics_listen. run.
    destruct (Websocket._access_token s); simpl; done.
Qed.

(** Once the held set would reach 50 topics the call raises, with the new
    topics already among the held ones and nothing queued. *)
Lemma add_topics_raises_from_50 (rnd : string) (topics : list WebsocketTopic.t)
    (s : Websocket.t) :
  Websocket.topic_set topics ∖ Websocket._topics s ≠ ∅ →
  (50 ≤ size (Websocket._topics s ∪ (Websocket.topic_set topics ∖ Websocket._topics s)))%nat →
  Websocket.add_topics rnd topics s
  = (Raise (MinerException "Too many topics"),
     Websocket.set_topics
       (Websocket._topics s ∪ (Websocket.topic_set topics ∖ Websocket._topics s)) s,
     []).
Proof.
  intros Hnew Hsize. unfold Websocket.add_topics. run.
  rewrite bool_decide_eq_false_2 by done. simpl.
  by rewrite bool_decide_eq_true_2.
Qed.

(** C1, on the code: a client holding the two account topics is asked to add
    the topics of 48 channels.  The union has 50 members, which does not
    exceed the ceiling, yet the call raises; and the held set is not what it
    was before the call, it has the 50 members.  With 49 channels the call
    raises as well and leaves 51 topics held. *)
Theorem add_topics_raises_at_ceiling_after_commit :
  size (Websocket._topics Sample.subscribed) = 2%nat
  ∧ (let '(r, s', tr) := Websocket.add_topics "n1" (Sample.videos 48) Sample.subscribed in
     r = Raise (MinerException "Too many topics")
     ∧ size (Websocket._topics s') = 50%nat
     ∧ Websocket._topics s' ≠ Websocket._topics Sample.subscribed
     ∧ Websocket._send_queue s' = Websocket._send_queue Sample.subscribed)
  ∧ (let '(r, s', tr) := Websocket.add_topics "n1" (Sample.videos 49) Sample.subscribed in
     r = Raise (MinerException "Too many topics")
     ∧ size (Websocket._topics s') = 51%nat).
Proof.
  split; [by vm_compute|]. split.
  - vm_compute. split_and!; try reflexivity. discriminate.
  - by vm_compute.
Qed.

(** Counterexample to C2 as stated: with the two account topics held, adding
    the topics of three channels queues a LISTEN frame that names the three
    new topics only; the held topic [user-drop-events.7] is not in it. *)
Lemma listen_omits_held_topics_counterexample :
  let '(r, s', tr) := Websocket.add_topics "n1" (Sample.videos 3) Sample.subscribed in
  ∃ frame,
    last (Websocket._send_queue s') = Some ("n1", frame)
    ∧ Websocket._topics s' !! "user-drop-events.7" = Some process_drops
    ∧ listen_topics frame
      = [JStr "video-playback-by-id.3"; JStr "video-playback-by-id.1";
         JStr "video-playback-by-id.2"]
    ∧ ¬ carries_full_membership frame (Websocket._topics s').
Proof.
  vm_compute. eexists. split_and!; [reflexivity..|].
  intros Hfull. specialize (Hfull "user-drop-events.7" (ex_intro _ process_drops eq_refl)).
  vm_compute in Hfull.
  repeat (apply elem_of_cons in Hfull as [Hfull|Hfull]; [discriminate Hfull|]).
  by apply elem_of_nil in Hfull.
Qed.

(** C2, amended: when some of the topics passed are not held yet, the client
    is connected and the held set stays below 50, [add_topics] queues exactly
    one request, a LISTEN that carries the keys of the newly added topics
    only (each once, none of the topics held before) together with the
    current access token. *)
Theorem add_topics_listens_for_new_topics (rnd token : string)
    (topics : list WebsocketTopic.t) (s : Websocket.t) :
  Websocket.connected s = true →
  Websocket._access_token s = Some token →
  Websocket.topic_set topics ∖ Websocket._topics s ≠ ∅ →
  (size (Websocket._topics s ∪ (Websocket.topic_set topics ∖ Websocket._topics s)) < 50)%nat →
  ∃ keys s',
    Websocket.add_topics rnd topics s
    = (Ok (Websocket.AwaitingReply (length (Websocket.futures s))), s',
       [Log INFO "Listening for"])
    ∧ Websocket._send_queue s'
      = Websocket._send_queue s
        ++ [(rnd, JObj [ ("type", JStr "LISTEN");
                         ("data", JObj [ ("topics", JArr (JStr <$> keys));
                                         ("auth_token", JStr token) ]) ])]
    ∧ NoDup keys
    ∧ (∀ key, key ∈ keys ↔
         key ∈ WebsocketTopic.id <$> topics ∧ Websocket._topics s !! key = None)
    ∧ dom (Websocket._topics s') = dom (Websocket._topics s) ∪ list_to_set keys.
Proof.
  intros Hup Htoken Hnew Hsize.
  set (new := Websocket.topic_set topics ∖ Websocket._topics s) in *.
  assert (∀ key, key ∈ (map_to_list new).*1 ↔
            key ∈ WebsocketTopic.id <$> topics ∧ Websocket._topics s !! key = None)
    as Hkeys.
  { intros key.
    assert (key ∈ WebsocketTopic.id <$> topics ↔ key ∈ dom (Websocket.topic_set topics))
      as -> by (by rewrite topic_set_dom, elem_of_list_to_set).
    unfold new. rewrite list_elem_of_fmap. split.
    - intros ([k h] & -> & Hin). apply elem_of_map_to_list in Hin. simpl.
      apply lookup_difference_Some in Hin as [Hset Hheld]. split; [|done].
      apply elem_of_dom. eauto.
    - intros [Hin Hheld]. apply elem_of_dom in Hin as [h Hh].
      exists (key, h). split; [done|]. apply elem_of_map_to_list.
      by apply lookup_difference_Some. }
  exists (map_to_list new).*1. eexists. split_and!.
  - unfold Websocket.add_topics. run. fold new.
    rewrite bool_decide_eq_false_2 by done. simpl.
    rewrite bool_decide_eq_false_2 by lia. simpl. rewrite Hup. simpl.
    unfold Websocket.add_topics_listen. run. rewrite Htoken. simpl.
    rewrite str_members. reflexivity.
  - reflexivity.
  - apply NoDup_fst_map_to_list.
  - apply Hkeys.
  - simpl. rewrite dom_union_L. f_equal. apply set_eq. intros key.
    rewrite elem_of_list_to_set, elem_of_dom, list_elem_of_fmap. split.
    + intros [h Hh]. exists (key, h). split; [done|]. by apply elem_of_map_to_list.
    + intros ([k h] & -> & Hin). apply elem_of_map_to_list in Hin. eauto.
Qed.

Lemma add_topics_listens_for_new_topics_witness :
  ∃ keys s',
    Websocket.add_topics "n1" (Sample.videos 3) Sample.subscribed
    = (Ok (Websocket.AwaitingReply 1), s', [Log INFO "Listening for"])
    ∧ Websocket._send_queue s'
      = Websocket._send_queue Sample.subscribed
        ++ [("n1", JObj [ ("type", JStr "LISTEN");
                          ("data", JObj [ ("topics", JArr (JStr <$> keys));
                                          ("auth_token", JStr "oauth") ]) ])]
    ∧ NoDup keys
    ∧ (∀ key, key ∈ keys ↔
         key ∈ WebsocketTopic.id <$> Sample.videos 3
         ∧ Websocket._topics Sample.subscribed !! key = None)
    ∧ dom (Websocket._topics s')
      = dom (Websocket._topics Sample.subscribed) ∪ list_to_set keys.
Proof.
  apply (add_topics_listens_for_new_topics "n1" "oauth" (Sample.videos 3)
           Sample.subscribed).
  - reflexivity.
  - reflexivity.
  - by vm_compute.
  - vm_compute. lia.
Defined.

(** ** The send loop *)

Lemma set_send_queue_same (s : Websocket.t) :
  Websocket.set_send_queue (Websocket._send_queue s) s = s.
Proof. by destruct s. Qed.

(** While the socket accepts writes, the send loop writes every queued entry,
    stamped, in order, and empties the queue. *)
Lemma process_send_drains (queue : list (string * json)) (s : Websocket.t) :
  Websocket._send_queue s = queue →
  Websocket.process_send None queue s
  = (Ok (), Websocket.set_send_queue [] s, Wire <$> (Websocket.stamp <$> queue)).
Proof.
  revert s. induction queue as [|entry rest IH]; intros s Hqueue; simpl.
  - by rewrite <- Hqueue, set_send_queue_same.
  - run. by rewrite (IH (Websocket.set_send_queue rest s)).
Qed.

Lemma wires_fmap (frames : list json) : wires (Wire <$> frames) = frames.
Proof. induction frames as [|frame rest IH]; simpl; [done|]. by f_equal. Qed.

(** ** The message router *)

Section router.
Variable json_loads : string → option json.
Variable process_raises : Handler → json → bool.

Lemma py_eq_str (k : string) (topic : WebsocketTopic.t) :
  WebsocketTopic.py_eq (JStr k) topic = bool_decide (WebsocketTopic.id topic = k).
Proof. reflexivity. Qed.

(** The loop over a set without two topics of one key calls the handler of
    the topic whose key is the target, once, on the decoded inner message. *)
Lemma for_topics_match (message data payload : json) (inner key : string)
    (handler : Handler) (topics : list WebsocketTopic.t) (s : Websocket.t) :
  NoDup (WebsocketTopic.id <$> topics) →
  WebsocketTopic.mk key handler ∈ topics →
  getitem "data" message = Ok data →
  getitem "message" data = Ok (JStr inner) →
  json_loads inner = Some payload →
  Websocket.for_topics json_loads process_raises (JStr key) message topics s
  = (if process_raises handler payload then Raise HandlerError else Ok (), s,
     [Invoke (WebsocketTopic.mk key handler) payload]).
Proof.
  intros Hnodup Hin Hdata Hinner Hpayload.
  induction topics as [|topic rest IH]; [by apply elem_of_nil in Hin|].
  simpl in Hnodup. apply NoDup_cons in Hnodup as [Hfresh Hnodup].
  simpl. rewrite py_eq_str. case_bool_decide as Hkey.
  - assert (topic = WebsocketTopic.mk key handler) as ->.
    { apply elem_of_cons in Hin as [<-|Hin]; [done|].
      exfalso. apply Hfresh. rewrite Hkey.
      apply (list_elem_of_fmap_2 WebsocketTopic.id) in Hin. done. }
    run. rewrite Hdata. simpl. rewrite Hinner. simpl. rewrite Hpayload. run.
    by destruct (process_raises handler payload).
  - apply elem_of_cons in Hin as [<-|Hin]; [done|]. by apply IH.
Qed.

(** Without a topic equal to the target the loop ends without a call. *)
Lemma for_topics_no_match (target message : json) (topics : list WebsocketTopic.t)
    (s : Websocket.t) :
  Forall (λ topic, WebsocketTopic.py_eq target topic = false) topics →
  Websocket.for_topics json_loads process_raises target message topics s
  = (Ok (), s, []).
Proof.
  induction 1 as [|topic rest Hne _ IH]; simpl; [done|]. by rewrite Hne.
Qed.

Lemma members_NoDup (held : gmap string Handler) :
  NoDup (WebsocketTopic.id <$> Websocket.members held).
Proof.
  unfold Websocket.members. rewrite <- list_fmap_compose.
  rewrite (list_fmap_ext _ fst (map_to_list held)) by (by intros i [k h] _).
  apply NoDup_fst_map_to_list.
Qed.

Lemma elem_of_members (held : gmap string Handler) (topic : WebsocketTopic.t) :
  topic ∈ Websocket.members held ↔
  held !! WebsocketTopic.id topic = Some (WebsocketTopic.process topic).
Proof.
  unfold Websocket.members. rewrite list_elem_of_fmap. split.
  - intros ([k h] & -> & Hin). by apply elem_of_map_to_list in Hin.
  - intros Hin. exists (WebsocketTopic.id topic, WebsocketTopic.process topic).
    split; [by destruct topic|]. by apply elem_of_map_to_list.
Qed.

(** C7: a MESSAGE frame whose [data.topic] is the key of a held topic makes
    the router call that topic's handler, and nothing else, exactly once, on
    the document decoded from the [data.message] string; when no held topic
    has the key (or [data.topic] is not a string), nothing is called, nothing
    changes and the receive step ends normally. *)
Theorem message_dispatches_to_matching_topic (raw_message : string)
    (message data target : json) (s : Websocket.t) :
  json_loads raw_message = Some message →
  getitem "type" message = Ok (JStr "MESSAGE") →
  getitem "data" message = Ok data →
  getitem "topic" data = Ok target →
  (∀ key handler inner payload,
     target = JStr key →
     Websocket._topics s !! key = Some handler →
     getitem "message" data = Ok (JStr inner) →
     json_loads inner = Some payload →
     ∃ r, Websocket.process_receive json_loads process_raises raw_message s
          = (r, s, [Invoke (WebsocketTopic.mk key handler) payload])
          ∧ (r = Ok () ↔ process_raises handler payload = false))
  ∧ ((∀ key, target = JStr key → Websocket._topics s !! key = None) →
     Websocket.process_receive json_loads process_raises raw_message s
     = (Ok (), s, [])
     ∧ ∃ s' tr,
         Websocket.iteration json_loads process_raises
           (Websocket.Message raw_message) None s
         = (Ok (), s', tr)
         ∧ Websocket._topics s' = Websocket._topics s
         ∧ ∀ topic payload, Invoke topic payload ∉ tr).
Proof.
  intros Hraw Htype Hdata Htarget.
  assert (∀ s0, Websocket.process_receive json_loads process_raises raw_message s0
          = Websocket.for_topics json_loads process_raises target message
              (Websocket.members (Websocket._topics s0)) s0) as Hroute.
  { intros s0. unfold Websocket.process_receive. run.
    rewrite Hraw. simpl. rewrite Htype. simpl. rewrite Hdata. simpl.
    rewrite Htarget. simpl.
    destruct (Websocket.for_topics _ _ _ _ _ s0) as [[r s1] tr]. done. }
  split.
  - intros key handler inner payload -> Hheld Hinner Hpayload.
    rewrite Hroute.
    rewrite (for_topics_match message data payload inner key handler); try done.
    + eexists. split; [reflexivity|].
      destruct (process_raises handler payload); split; done.
    + apply members_NoDup.
    + by apply elem_of_members.
  - intros Hnone.
    assert (Websocket.process_receive json_loads process_raises raw_message s
            = (Ok (), s, [])) as Hdrop.
    { rewrite Hroute. apply for_topics_no_match.
      apply Forall_forall. intros topic Hin. apply elem_of_members in Hin.
      destruct target; try reflexivity.
      rewrite py_eq_str. apply bool_decide_eq_false_2. intros Hkey.
      rewrite (Hnone (WebsocketTopic.id topic)) in Hin by (by rewrite Hkey). done. }
    split; [done|].
    unfold Websocket.iteration, Websocket.bind at 1. rewrite Hdrop.
    unfold Websocket.bind at 1, Websocket.gets.
    destruct (Websocket.reconnect s).
    + do 2 eexists. split; [reflexivity|]. split; [done|].
      intros topic payload Hin. by apply elem_of_nil in Hin.
    + unfold Websocket.bind.
      rewrite (process_send_drains (Websocket._send_queue s)) by done.
      do 2 eexists. split; [reflexivity|]. split; [done|].
      intros topic payload Hin. simpl in Hin.
      apply list_elem_of_fmap in Hin as (frame & Hframe & _). discriminate Hframe.
Qed.

End router.

Lemma message_dispatches_to_matching_topic_witness :
  (∃ r, Websocket.process_receive Sample.json_loads Sample.process_raises
          "<push drops>" Sample.subscribed
        = (r, Sample.subscribed,
           [Invoke (WebsocketTopic.mk "user-drop-events.7" process_drops)
              (JObj [ ("type", JStr "drop-progress");
                      ("data", JObj [("drop_id", JStr "d1")]) ])])
        ∧ (r = Ok () ↔ false = false))
  ∧ Websocket.process_receive Sample.json_loads Sample.process_raises
      "<push stray>" Sample.subscribed
    = (Ok (), Sample.subscribed, [])
  ∧ ∃ s' tr,
      Websocket.iteration Sample.json_loads Sample.process_raises
        (Websocket.Message "<push stray>") None Sample.subscribed
      = (Ok (), s', tr)
      ∧ Websocket._topics s' = Websocket._topics Sample.subscribed
      ∧ ∀ topic payload, Invoke topic payload ∉ tr.
Proof.
  split.
  - eapply (message_dispatches_to_matching_topic Sample.json_loads
              Sample.process_raises "<push drops>"); reflexivity.
  - eapply (message_dispatches_to_matching_topic Sample.json_loads
              Sample.process_raises "<push stray>"); try reflexivity.
    intros key [= <-]. reflexivity.
Defined.

(** ** The request correlator *)

Section correlator.
Variable json_loads : string → option json.
Variable process_raises : Handler → json → bool.

Lemma set_recv_dict_same (s : Websocket.t) :
  Websocket.set_recv_dict (Websocket._recv_dict s) s = s.
Proof. by destruct s. Qed.

(** A RESPONSE whose nonce has a slot with a pending future resolves that
    future with the frame and removes the slot. *)
Lemma response_resolves_pending (raw_message nonce : string) (message : json)
    (future : nat) (s : Websocket.t) :
  json_loads raw_message = Some message →
  getitem "type" message = Ok (JStr "RESPONSE") →
  getitem "nonce" message = Ok (JStr nonce) →
  Websocket._recv_dict s !! nonce = Some future →
  Websocket.futures s !! future = Some Pending →
  Websocket.process_receive json_loads process_raises raw_message s
  = (Ok (),
     Websocket.set_futures (<[future := Finished message]> (Websocket.futures s))
       (Websocket.set_recv_dict (delete nonce (Websocket._recv_dict s)) s),
     []).
Proof.
  intros Hraw Htype Hnonce Hslot Hpending.
  unfold Websocket.process_receive. run. rewrite Hraw. simpl. rewrite Htype. simpl.
  rewrite Hnonce. simpl. unfold Websocket.pop. run. rewrite Hslot. simpl.
  unfold Websocket.set_result. run. by rewrite Hpending.
Qed.

(** A RESPONSE whose nonce has no slot raises [KeyError] out of the receive
    step. *)
Lemma response_unknown_raises (raw_message nonce : string) (message : json)
    (s : Websocket.t) :
  json_loads raw_message = Some message →
  getitem "type" message = Ok (JStr "RESPONSE") →
  getitem "nonce" message = Ok (JStr nonce) →
  Websocket._recv_dict s !! nonce = None →
  Websocket.process_receive json_loads process_raises raw_message s
  = (Raise KeyError, s, []).
Proof.
  intros Hraw Htype Hnonce Hslot.
  unfold Websocket.process_receive. run. rewrite Hraw. simpl. rewrite Htype. simpl.
  rewrite Hnonce. simpl. unfold Websocket.pop. run. by rewrite Hslot.
Qed.

(** A PONG without a slot for the heartbeat token changes nothing. *)
Lemma pong_without_slot_ignored (raw_message : string) (message : json)
    (s : Websocket.t) :
  json_loads raw_message = Some message →
  getitem "type" message = Ok (JStr "PONG") →
  Websocket._recv_dict s !! "PING" = None →
  Websocket.process_receive json_loads process_raises raw_message s
  = (Ok (), s, []).
Proof.
  intros Hraw Htype Hslot.
  unfold Websocket.process_receive. run. rewrite Hraw. simpl. rewrite Htype. simpl.
  unfold Websocket.pop_default. run. rewrite Hslot. simpl.
  rewrite delete_id by done. by rewrite set_recv_dict_same.
Qed.

End correlator.

(** C4, on the code: the client awaits the reply to the request [n0].  A
    RESPONSE for the unknown nonce [zz] raises [KeyError] in the receive
    step; the connection loop catches it, logs the exception and goes on to
    the next connection, leaving the queued request unsent.  A RESPONSE for
    [n0] resolves the future and removes the slot, and a second one raises
    [KeyError] in the same way.  A PONG without a slot is ignored. *)
Theorem response_for_unknown_nonce_raises :
  Websocket._recv_dict Sample.subscribed !! "zz" = None
  ∧ Websocket.process_receive Sample.json_loads Sample.process_raises
      "<reply zz>" Sample.subscribed
    = (Raise KeyError, Sample.subscribed, [])
  ∧ (let '(r, s', tr) :=
       Websocket.connection Sample.json_loads Sample.process_raises 1
         [(Websocket.Message "<reply zz>", None); (Websocket.Nothing, None)]
         Sample.subscribed in
     r = Ok Websocket.Continue
     ∧ tr = [Log INFO "Websocket Connected";
             Log EXCEPTION "Exception in Websocket - Reconnecting"]
     ∧ Websocket._send_queue s' = Websocket._send_queue Sample.subscribed)
  ∧ (let '(r1, s1, tr1) :=
       Websocket.process_receive Sample.json_loads Sample.process_raises
         "<reply n0>" Sample.subscribed in
     r1 = Ok ()
     ∧ Websocket._recv_dict Sample.subscribed !! "n0" = Some 0%nat
     ∧ Websocket._recv_dict s1 !! "n0" = None
     ∧ (∃ reply, Websocket.futures s1 = [Finished reply])
     ∧ Websocket.process_receive Sample.json_loads Sample.process_raises
         "<reply n0>" s1
       = (Raise KeyError, s1, []))
  ∧ Websocket.process_receive Sample.json_loads Sample.process_raises
      "<pong>" Sample.subscribed
    = (Ok (), Sample.subscribed, []).
Proof.
  split_and!.
  - reflexivity.
  - by eapply (response_unknown_raises _ _ "<reply zz>" "zz").
  - by vm_compute.
  - vm_compute. split_and!; try reflexivity. by eexists.
  - by eapply (pong_without_slot_ignored _ _ "<pong>").
Qed.

(** ** Reconnecting *)

Section reconnecting.
Variable json_loads : string → option json.
Variable process_raises : Handler → json → bool.

(** Turns in which nothing arrives and nothing is queued change nothing. *)
Lemma pump_idle (n : nat) (s : Websocket.t) :
  Websocket.reconnect s = false →
  Websocket._send_queue s = [] →
  Websocket.pump json_loads process_raises (replicate n (Websocket.Nothing, None)) s
  = (Ok false, s, []).
Proof.
  intros Hgo Hqueue. induction n as [|n IH]; simpl; run; rewrite Hgo; simpl; [done|].
  unfold Websocket.iteration. run. rewrite Hgo. simpl.
  rewrite Hqueue. simpl.
  by rewrite IH.
Qed.

(** Turns in which nothing arrives write what is queued, once. *)
Lemma pump_quiet (n : nat) (s : Websocket.t) :
  Websocket.reconnect s = false →
  Websocket.pump json_loads process_raises
    (replicate (S n) (Websocket.Nothing, None)) s
  = (Ok false, Websocket.set_send_queue [] s,
     Wire <$> (Websocket.stamp <$> Websocket._send_queue s)).
Proof.
  intros Hgo. simpl. run. rewrite Hgo. simpl.
  unfold Websocket.iteration. run. rewrite Hgo. simpl.
  rewrite (process_send_drains (Websocket._send_queue s)) by done.
  rewrite (pump_idle n) by done. by rewrite app_nil_r.
Qed.

(** What the head of the loop body does to the client. *)
Lemma connected_to_eq (websocket : nat) (s : Websocket.t) :
  Websocket.connected_to websocket s
  = (Ok (),
     Websocket.set_ping_task (Some (length (Websocket.ping_tasks s)))
       (Websocket.set_ping_tasks (Websocket.ping_tasks s ++ [AtConnectedWait])
          (Websocket.set_connected true
             (Websocket.set_reconnect false
                (Websocket.set_ws (Some websocket) s)))),
     [Log INFO "Websocket Connected"]).
Proof. reflexivity. Qed.

(** The heartbeat task of a connection that has just opened queues its PING
    under the reserved token and waits for the reply. *)
Lemma ping_task_starts_eq (websocket : nat) (s : Websocket.t) :
  Websocket.ping_task_starts (Websocket.connected_to websocket s).1.2
  = (Ok (),
     Websocket.mk (Some websocket) true false
       (Websocket._send_queue s ++ [("PING", JObj [("type", JStr "PING")])])
       (<["PING" := length (Websocket.futures s)]> (Websocket._recv_dict s))
       (Websocket._topics s)
       (Some (length (Websocket.ping_tasks s)))
       (Websocket.futures s ++ [Pending])
       (Websocket.ping_tasks s ++ [AtWaitFor (length (Websocket.futures s))])
       (Websocket._access_token s),
     []).
Proof.
  rewrite connected_to_eq. unfold Websocket.ping_task_starts, Websocket._ping_loop.
  run. rewrite lookup_app_r by reflexivity. rewrite Nat.sub_diag. simpl.
  unfold Websocket.ping_loop_head, Websocket.send, Websocket.create_future,
    Websocket.goto.
  run. rewrite insert_app_r_alt by reflexivity. by rewrite Nat.sub_diag.
Qed.

Lemma wires_log (lv : level) (text : string) (tr : list event) :
  wires (Log lv text :: tr) = wires tr.
Proof. reflexivity. Qed.

Lemma is_listen_ping : is_listen (JObj [("type", JStr "PING")]) = false.
Proof. reflexivity. Qed.

(** C3, amended: opening a connection after a previous one clears the
    reconnect signal, sets readiness, starts a new heartbeat task and records
    it, and leaves the held set as it is, but queues no re-announcement.
    While nothing arrives and nothing else is sent, the frames written on the
    new connection are the requests that were queued before it opened
    followed by the PING of the new heartbeat task, so the LISTEN frames
    among them are those that were already queued, none when there was none,
    whatever the held set. *)
Theorem reconnect_writes_queue_and_heartbeat (websocket n : nat) (s : Websocket.t) :
  ∃ s' tr,
    Websocket.reconnection json_loads process_raises websocket
      (replicate (S n) (Websocket.Nothing, None)) s
    = (Ok Websocket.Pumping, s', tr)
    ∧ Websocket.reconnect s' = false
    ∧ Websocket.connected s' = true
    ∧ Websocket._ping_task s' = Some (length (Websocket.ping_tasks s))
    ∧ Websocket.ping_tasks s'
      = Websocket.ping_tasks s ++ [AtWaitFor (length (Websocket.futures s))]
    ∧ Websocket._recv_dict s' !! "PING" = Some (length (Websocket.futures s))
    ∧ Websocket._topics s' = Websocket._topics s
    ∧ wires tr
      = (Websocket.stamp <$> Websocket._send_queue s) ++ [JObj [("type", JStr "PING")]]
    ∧ filter (λ f, is_listen f = true) (wires tr)
      = filter (λ f, is_listen f = true) (Websocket.stamp <$> Websocket._send_queue s)
    ∧ Websocket._send_queue s' = [].
Proof.
  assert (∃ s' tr,
    Websocket.reconnection json_loads process_raises websocket
      (replicate (S n) (Websocket.Nothing, None)) s
    = (Ok Websocket.Pumping, s', tr)
    ∧ s' = Websocket.mk (Some websocket) true false []
             (<["PING" := length (Websocket.futures s)]> (Websocket._recv_dict s))
             (Websocket._topics s)
             (Some (length (Websocket.ping_tasks s)))
             (Websocket.futures s ++ [Pending])
             (Websocket.ping_tasks s ++ [AtWaitFor (length (Websocket.futures s))])
             (Websocket._access_token s)
    ∧ wires tr
      = (Websocket.stamp <$> Websocket._send_queue s) ++ [JObj [("type", JStr "PING")]])
    as (s' & tr & Hrun & -> & Hwires).
  { unfold Websocket.reconnection, Websocket.session, Websocket.try_except.
    unfold Websocket.bind at 1 2.
    pose proof (ping_task_starts_eq websocket s) as Hstart.
    rewrite connected_to_eq in Hstart |- *. simpl in Hstart.
    rewrite Hstart.
    unfold Websocket.bind at 1. rewrite (pump_quiet n) by reflexivity.
    simpl. do 2 eexists. split; [reflexivity|]. split; [reflexivity|].
    rewrite app_nil_r, wires_log, wires_fmap, fmap_app. reflexivity. }
  eexists _, tr. split; [exact Hrun|]. split_and!; try reflexivity.
  - apply lookup_insert_eq.
  - exact Hwires.
  - rewrite Hwires, filter_app. rewrite filter_cons_False, filter_nil, app_nil_r; [done|].
    rewrite is_listen_ping. discriminate.
Qed.

End reconnecting.

(** Counterexample to C3 as stated: the account topics are held when the
    first connection is lost; the second connection reaches readiness and
    the only frame written on it is the heartbeat of its monitor, no LISTEN. *)
Lemma reconnect_without_reannouncement_counterexample :
  size (Websocket._topics Sample.dropped) = 2%nat
  ∧ Websocket.connected Sample.dropped = false
  ∧ (let '(r, s', tr) := Sample.reconnects Sample.dropped in
     r = Ok false
     ∧ Websocket.connected s' = true
     ∧ Websocket._topics s' = Websocket._topics Sample.dropped
     ∧ wires tr = [JObj [("type", JStr "PING")]]
     ∧ ¬ reannounced_once (Websocket._topics s') tr).
Proof.
  split; [by vm_compute|]. split; [by vm_compute|].
  vm_compute. split_and!; try reflexivity.
  intros (frame & Hlisten & _). discriminate Hlisten.
Qed.

(** ** The heartbeat monitor *)

Lemma ping_loop_over (task : nat) (w : Websocket.wake) (s : Websocket.t) :
  Websocket.ping_tasks s !! task = Some Returned →
  Websocket._ping_loop task w s = (Ok (), s, []).
Proof.
  intros Hover. unfold Websocket._ping_loop. run. rewrite Hover. by destruct w.
Qed.

(** A task that starts while the client is connected queues a heartbeat
    under the reserved token and waits for its future. *)
Lemma ping_loop_first_heartbeat (task : nat) (s : Websocket.t) :
  Websocket.ping_tasks s !! task = Some AtConnectedWait →
  Websocket.connected s = true →
  ∃ s', Websocket._ping_loop task Websocket.Ready s = (Ok (), s', [])
        ∧ Websocket._send_queue s'
          = Websocket._send_queue s ++ [("PING", JObj [("type", JStr "PING")])]
        ∧ Websocket._recv_dict s' !! "PING" = Some (length (Websocket.futures s))
        ∧ Websocket.futures s' = Websocket.futures s ++ [Pending]
        ∧ Websocket.ping_tasks s' !! task
          = Some (AtWaitFor (length (Websocket.futures s))).
Proof.
  intros Htask Hup.
  assert (task < length (Websocket.ping_tasks s))%nat by (by eapply lookup_lt_Some).
  unfold Websocket._ping_loop. run. rewrite Htask, Hup. simpl.
  unfold Websocket.ping_loop_head. run. rewrite Hup. simpl.
  eexists. split; [reflexivity|]. simpl. split_and!; try reflexivity.
  - apply lookup_insert_eq.
  - by apply list_lookup_insert_eq.
Qed.

(** C8: when the heartbeat task waits for a reply that is still pending and
    the timeout runs out, that one resumption sets the reconnect signal and
    ends the task, which from then on queues nothing, however it is resumed;
    and every connection that opens creates a new heartbeat task, records it
    as the current one, and that task sends a heartbeat when it first runs. *)
Theorem heartbeat_timeout_reconnects_and_stops (task future : nat) (s : Websocket.t) :
  Websocket.ping_tasks s !! task = Some (AtWaitFor future) →
  Websocket.futures s !! future = Some Pending →
  (∃ s', Websocket._ping_loop task Websocket.TimedOut s
         = (Ok (), s', [Log WARNING "Websocket got no response to PING - reconnect"])
         ∧ Websocket.reconnect s' = true
         ∧ Websocket.ping_tasks s' !! task = Some Returned
         ∧ Websocket._send_queue s' = Websocket._send_queue s
         ∧ ∀ w, Websocket._ping_loop task w s' = (Ok (), s', []))
  ∧ (∀ websocket s0, ∃ s1 s2,
       Websocket.connected_to websocket s0
       = (Ok (), s1, [Log INFO "Websocket Connected"])
       ∧ Websocket.ping_tasks s1 = Websocket.ping_tasks s0 ++ [AtConnectedWait]
       ∧ Websocket._ping_task s1 = Some (length (Websocket.ping_tasks s0))
       ∧ Websocket._ping_loop (length (Websocket.ping_tasks s0)) Websocket.Ready s1
         = (Ok (), s2, [])
       ∧ Websocket._send_queue s2
         = Websocket._send_queue s0 ++ [("PING", JObj [("type", JStr "PING")])]).
Proof.
  intros Htask Hfuture.
  assert (task < length (Websocket.ping_tasks s))%nat as Hlt
    by (by eapply lookup_lt_Some).
  split.
  - exists (Websocket.set_ping_tasks (<[task := Returned]> (Websocket.ping_tasks s))
              (Websocket.set_reconnect true
                 (Websocket.set_futures (<[future := Cancelled]> (Websocket.futures s)) s))).
    assert (<[task := Returned]> (Websocket.ping_tasks s) !! task = Some Returned)
      as Hover by (by apply list_lookup_insert_eq).
    split_and!; try done.
    + unfold Websocket._ping_loop. run. rewrite Htask. simpl.
      unfold Websocket.future_done. run. rewrite Hfuture. simpl.
      unfold Websocket.cancel. run. by rewrite Hfuture.
    + intros w. by apply ping_loop_over.
  - intros websocket s0. rewrite connected_to_eq.
    destruct (ping_loop_first_heartbeat (length (Websocket.ping_tasks s0))
                (Websocket.set_ping_task (Some (length (Websocket.ping_tasks s0)))
                   (Websocket.set_ping_tasks (Websocket.ping_tasks s0 ++ [AtConnectedWait])
                      (Websocket.set_connected true
                         (Websocket.set_reconnect false
                            (Websocket.set_ws (Some websocket) s0))))))
      as (s2 & Hrun & Hqueue & _).
    + simpl. rewrite lookup_app_r by reflexivity. by rewrite Nat.sub_diag.
    + reflexivity.
    + do 2 eexists. split; [reflexivity|]. split_and!; try reflexivity.
      * exact Hrun.
      * exact Hqueue.
Qed.

Lemma heartbeat_timeout_reconnects_and_stops_witness :
  Websocket.ping_tasks Sample.beating !! 0%nat = Some (AtWaitFor 1)
  ∧ ∃ s', Websocket._ping_loop 0 Websocket.TimedOut Sample.beating
          = (Ok (), s', [Log WARNING "Websocket got no response to PING - reconnect"])
          ∧ Websocket.reconnect s' = true
          ∧ Websocket.ping_tasks s' !! 0%nat = Some Returned
          ∧ Websocket._send_queue s' = Websocket._send_queue Sample.beating
          ∧ ∀ w, Websocket._ping_loop 0 w s' = (Ok (), s', []).
Proof.
  split; [reflexivity|].
  apply (heartbeat_timeout_reconnects_and_stops 0 1 Sample.beating); reflexivity.
Defined.

(** * Further properties of the code *)

(** ** Requests and their replies *)

Section exchange.
Variable json_loads : string → option json.
Variable process_raises : Handler → json → bool.

(** What [send] does for a request that is not a heartbeat. *)
Lemma send_request_eq (rnd : string) (message kind : json) (s : Websocket.t) :
  getitem "type" message = Ok kind →
  is_str "PING" kind = false →
  Websocket.send rnd message s
  = (Ok (length (Websocket.futures s)),
     Websocket.set_recv_dict
       (<[rnd := length (Websocket.futures s)]> (Websocket._recv_dict s))
       (Websocket.set_futures (Websocket.futures s ++ [Pending])
          (Websocket.set_send_queue (Websocket._send_queue s ++ [(rnd, message)]) s)),
     []).
Proof.
  intros Hkind Hping. unfold Websocket.send, Websocket.create_future,
    Websocket.create_nonce. run. rewrite Hkind. simpl. by rewrite Hping.
Qed.

(** X1: a request sent under a nonce and then answered by a RESPONSE frame
    carrying that nonce has its own future resolved with the frame and its
    slot removed; the futures of earlier requests are what they were. *)
Theorem send_then_response_resolves (rnd raw_message : string)
    (message kind reply : json) (s : Websocket.t) :
  getitem "type" message = Ok kind →
  is_str "PING" kind = false →
  json_loads raw_message = Some reply →
  getitem "type" reply = Ok (JStr "RESPONSE") →
  getitem "nonce" reply = Ok (JStr rnd) →
  ∃ s1 s2,
    Websocket.send rnd message s = (Ok (length (Websocket.futures s)), s1, [])
    ∧ Websocket._send_queue s1 = Websocket._send_queue s ++ [(rnd, message)]
    ∧ Websocket.process_receive json_loads process_raises raw_message s1
      = (Ok (), s2, [])
    ∧ Websocket.futures s2 !! length (Websocket.futures s) = Some (Finished reply)
    ∧ Websocket._recv_dict s2 !! rnd = None
    ∧ ∀ earlier, (earlier < length (Websocket.futures s))%nat →
        Websocket.futures s2 !! earlier = Websocket.futures s !! earlier.
Proof.
  intros Hkind Hping Hraw Htype Hnonce.
  rewrite (send_request_eq rnd message kind s Hkind Hping).
  do 2 eexists. split; [reflexivity|]. split; [reflexivity|].
  split.
  - eapply (response_resolves_pending json_loads process_raises raw_message rnd reply
              (length (Websocket.futures s))); try done.
    + simpl. apply lookup_insert_eq.
    + simpl. rewrite lookup_app_r by reflexivity. by rewrite Nat.sub_diag.
  - simpl. split_and!.
    + rewrite list_lookup_insert_eq; [done|]. rewrite length_app. simpl. lia.
    + apply lookup_delete_eq.
    + intros earlier Hlt. rewrite list_lookup_insert_ne by lia.
      by rewrite lookup_app_l.
Qed.

(** X2: a RESPONSE whose slot holds a future that is already done (its caller
    gave up and cancelled it, or it was resolved before) removes the slot and
    then raises [InvalidStateError] out of the receive step. *)
Theorem response_for_done_future_raises (raw_message nonce : string)
    (message : json) (future : nat) (s : Websocket.t) :
  json_loads raw_message = Some message →
  getitem "type" message = Ok (JStr "RESPONSE") →
  getitem "nonce" message = Ok (JStr nonce) →
  Websocket._recv_dict s !! nonce = Some future →
  Websocket.futures s !! future ≠ Some Pending →
  Websocket.process_receive json_loads process_raises raw_message s
  = (Raise InvalidStateError,
     Websocket.set_recv_dict (delete nonce (Websocket._recv_dict s)) s, []).
Proof.
  intros Hraw Htype Hnonce Hslot Hdone.
  unfold Websocket.process_receive. run. rewrite Hraw. simpl. rewrite Htype. simpl.
  rewrite Hnonce. simpl. unfold Websocket.pop. run. rewrite Hslot. simpl.
  unfold Websocket.set_result. run.
  destruct (Websocket.futures s !! future) as [[]|]; done.
Qed.

(** X3: a heartbeat that is answered.  The PONG resolves the future the task
    waits for and removes the reserved slot; the task then goes to sleep
    without touching the reconnect signal, and when it wakes up while the
    client is connected it queues the next heartbeat. *)
Theorem heartbeat_answered_sleeps_and_repeats (raw_message : string) (pong : json)
    (task future : nat) (s : Websocket.t) :
  Websocket.ping_tasks s !! task = Some (AtWaitFor future) →
  Websocket._recv_dict s !! "PING" = Some future →
  Websocket.futures s !! future = Some Pending →
  Websocket.connected s = true →
  json_loads raw_message = Some pong →
  getitem "type" pong = Ok (JStr "PONG") →
  ∃ s1 s2 s3,
    Websocket.process_receive json_loads process_raises raw_message s = (Ok (), s1, [])
    ∧ Websocket.futures s1 !! future = Some (Finished pong)
    ∧ Websocket._recv_dict s1 !! "PING" = None
    ∧ Websocket._ping_loop task Websocket.Ready s1 = (Ok (), s2, [])
    ∧ Websocket.ping_tasks s2 !! task = Some AtSleep
    ∧ Websocket.reconnect s2 = Websocket.reconnect s
    ∧ Websocket._send_queue s2 = Websocket._send_queue s
    ∧ Websocket._ping_loop task Websocket.Ready s2 = (Ok (), s3, [])
    ∧ Websocket._send_queue s3
      = Websocket._send_queue s ++ [("PING", JObj [("type", JStr "PING")])]
    ∧ Websocket.ping_tasks s3 !! task = Some (AtWaitFor (length (Websocket.futures s))).
Proof.
  intros Htask Hslot Hpending Hup Hraw Htype.
  assert (task < length (Websocket.ping_tasks s))%nat as Htl
    by (by eapply lookup_lt_Some).
  assert (future < length (Websocket.futures s))%nat as Hfl
    by (by eapply lookup_lt_Some).
  set (s1 := Websocket.set_futures (<[future := Finished pong]> (Websocket.futures s))
               (Websocket.set_recv_dict (delete "PING" (Websocket._recv_dict s)) s)).
  set (s2 := Websocket.set_ping_tasks (<[task := AtSleep]> (Websocket.ping_tasks s)) s1).
  assert (Websocket.futures s1 !! future = Some (Finished pong)) as Hdone
    by (by apply list_lookup_insert_eq).
  exists s1, s2. eexists. split_and!.
  - unfold Websocket.process_receive. run. rewrite Hraw. simpl. rewrite Htype. simpl.
    unfold Websocket.pop_default. run. rewrite Hslot. simpl.
    unfold Websocket.future_done. run. rewrite Hpending. simpl.
    unfold Websocket.set_result. run. by rewrite Hpending.
  - done.
  - apply lookup_delete_eq.
  - unfold Websocket._ping_loop. run. rewrite Htask. simpl.
    unfold s1 in Hdone. simpl in Hdone. rewrite Hdone. reflexivity.
  - by apply list_lookup_insert_eq.
  - reflexivity.
  - reflexivity.
  - unfold Websocket._ping_loop. run.
    rewrite list_lookup_insert_eq by done. simpl.
    unfold Websocket.ping_loop_head. run. rewrite Hup. reflexivity.
  - reflexivity.
  - simpl. rewrite length_insert. apply list_lookup_insert_eq.
    by rewrite length_insert.
Qed.

(** X4: a PONG that arrives after the heartbeat timed out is absorbed.  The
    timeout has cancelled the future and asked for a reconnect; the late PONG
    removes the reserved slot, resolves nothing and raises nothing. *)
Theorem late_pong_after_timeout_is_absorbed (raw_message : string) (pong : json)
    (task future : nat) (s : Websocket.t) :
  Websocket.ping_tasks s !! task = Some (AtWaitFor future) →
  Websocket._recv_dict s !! "PING" = Some future →
  Websocket.futures s !! future = Some Pending →
  json_loads raw_message = Some pong →
  getitem "type" pong = Ok (JStr "PONG") →
  ∃ s1 s2,
    (Websocket._ping_loop task Websocket.TimedOut s).1 = (Ok (), s1)
    ∧ Websocket.futures s1 !! future = Some Cancelled
    ∧ Websocket.process_receive json_loads process_raises raw_message s1
      = (Ok (), s2, [])
    ∧ Websocket._recv_dict s2 !! "PING" = None
    ∧ Websocket.futures s2 = Websocket.futures s1
    ∧ Websocket.reconnect s2 = true.
Proof.
  intros Htask Hslot Hpending Hraw Htype.
  assert (future < length (Websocket.futures s))%nat as Hfl
    by (by eapply lookup_lt_Some).
  do 2 eexists. split_and!.
  - unfold Websocket._ping_loop. run. rewrite Htask. simpl.
    unfold Websocket.future_done. run. rewrite Hpending. simpl.
    unfold Websocket.cancel. run. rewrite Hpending. reflexivity.
  - simpl. by apply list_lookup_insert_eq.
  - unfold Websocket.process_receive. run. rewrite Hraw. simpl. rewrite Htype. simpl.
    unfold Websocket.pop_default. run. rewrite Hslot. simpl.
    unfold Websocket.future_done. run.
    rewrite list_lookup_insert_eq by done. reflexivity.
  - apply lookup_delete_eq.
  - reflexivity.
  - reflexivity.
Qed.

End exchange.

Lemma send_then_response_resolves_witness :
  ∃ s1 s2,
    Websocket.send "n0" Sample.listen_request Sample.opened
    = (Ok (length (Websocket.futures Sample.opened)), s1, [])
    ∧ Websocket._send_queue s1
      = Websocket._send_queue Sample.opened ++ [("n0", Sample.listen_request)]
    ∧ Websocket.process_receive Sample.json_loads Sample.process_raises
        "<reply n0>" s1 = (Ok (), s2, [])
    ∧ Websocket.futures s2 !! length (Websocket.futures Sample.opened)
      = Some (Finished (JObj [ ("type", JStr "RESPONSE"); ("error", JStr EmptyString);
                               ("nonce", JStr "n0") ]))
    ∧ Websocket._recv_dict s2 !! "n0" = None
    ∧ ∀ earlier, (earlier < length (Websocket.futures Sample.opened))%nat →
        Websocket.futures s2 !! earlier = Websocket.futures Sample.opened !! earlier.
Proof.
  apply (send_then_response_resolves Sample.json_loads Sample.process_raises
           "n0" "<reply n0>" Sample.listen_request (JStr "LISTEN")
           (JObj [ ("type", JStr "RESPONSE"); ("error", JStr EmptyString);
                   ("nonce", JStr "n0") ]) Sample.opened);
    by vm_compute.
Defined.

Lemma response_for_done_future_raises_witness :
  Websocket.futures Sample.abandoned !! 0%nat = Some Cancelled
  ∧ Websocket.process_receive Sample.json_loads Sample.process_raises
      "<reply n0>" Sample.abandoned
    = (Raise InvalidStateError,
       Websocket.set_recv_dict (delete "n0" (Websocket._recv_dict Sample.abandoned))
         Sample.abandoned, []).
Proof.
  split; [by vm_compute|].
  apply (response_for_done_future_raises Sample.json_loads Sample.process_raises
           "<reply n0>" "n0"
           (JObj [ ("type", JStr "RESPONSE"); ("error", JStr EmptyString);
                   ("nonce", JStr "n0") ]) 0 Sample.abandoned);
    by vm_compute.
Defined.

Lemma heartbeat_answered_sleeps_and_repeats_witness :
  ∃ s1 s2 s3,
    Websocket.process_receive Sample.json_loads Sample.process_raises "<pong>"
      Sample.beating = (Ok (), s1, [])
    ∧ Websocket.futures s1 !! 1%nat = Some (Finished (JObj [("type", JStr "PONG")]))
    ∧ Websocket._recv_dict s1 !! "PING" = None
    ∧ Websocket._ping_loop 0 Websocket.Ready s1 = (Ok (), s2, [])
    ∧ Websocket.ping_tasks s2 !! 0%nat = Some AtSleep
    ∧ Websocket.reconnect s2 = Websocket.reconnect Sample.beating
    ∧ Websocket._send_queue s2 = Websocket._send_queue Sample.beating
    ∧ Websocket._ping_loop 0 Websocket.Ready s2 = (Ok (), s3, [])
    ∧ Websocket._send_queue s3
      = Websocket._send_queue Sample.beating ++ [("PING", JObj [("type", JStr "PING")])]
    ∧ Websocket.ping_tasks s3 !! 0%nat
      = Some (AtWaitFor (length (Websocket.futures Sample.beating))).
Proof.
  apply (heartbeat_answered_sleeps_and_repeats Sample.json_loads Sample.process_raises
           "<pong>" (JObj [("type", JStr "PONG")]) 0 1 Sample.beating);
    by vm_compute.
Defined.

Lemma late_pong_after_timeout_is_absorbed_witness :
  ∃ s1 s2,
    (Websocket._ping_loop 0 Websocket.TimedOut Sample.beating).1 = (Ok (), s1)
    ∧ Websocket.futures s1 !! 1%nat = Some Cancelled
    ∧ Websocket.process_receive Sample.json_loads Sample.process_raises "<pong>" s1
      = (Ok (), s2, [])
    ∧ Websocket._recv_dict s2 !! "PING" = None
    ∧ Websocket.futures s2 = Websocket.futures s1
    ∧ Websocket.reconnect s2 = true.
Proof.
  apply (late_pong_after_timeout_is_absorbed Sample.json_loads Sample.process_raises
           "<pong>" (JObj [("type", JStr "PONG")]) 0 1 Sample.beating);
    by vm_compute.
Defined.

(** ** The pump and the connection loop *)

Section pumping.
Variable json_loads : string → option json.
Variable process_raises : Handler → json → bool.

(** When the socket fails after [length written] frames, the entries before
    the failure are written and the entry taken from the queue at the
    failure is neither written nor put back. *)
Lemma process_send_fails (written kept : list (string * json)) (lost : string * json)
    (exc : exn) (s : Websocket.t) :
  Websocket.process_send (Some (length written, exc)) (written ++ lost :: kept) s
  = (Raise exc, Websocket.set_send_queue kept s, Wire <$> (Websocket.stamp <$> written)).
Proof.
  revert s. induction written as [|entry written IH]; intros s; simpl.
  - reflexivity.
  - run. by rewrite IH.
Qed.

(** X5: a turn of the pump in which the socket fails while the queue is
    being written raises the socket's exception; the requests before the
    failing one have been written, the failing one is lost (neither written
    nor left in the queue) and the ones behind it stay queued. *)
Theorem send_failure_loses_the_dequeued_request (written kept : list (string * json))
    (lost : string * json) (exc : exn) (s : Websocket.t) :
  Websocket.reconnect s = false →
  Websocket._send_queue s = written ++ lost :: kept →
  ∃ s' tr,
    Websocket.iteration json_loads process_raises Websocket.Nothing
      (Some (length written, exc)) s
    = (Raise exc, s', tr)
    ∧ wires tr = Websocket.stamp <$> written
    ∧ Websocket._send_queue s' = kept
    ∧ Websocket._recv_dict s' = Websocket._recv_dict s.
Proof.
  intros Hgo Hqueue. unfold Websocket.iteration. run. rewrite Hgo. simpl.
  rewrite Hqueue, process_send_fails.
  do 2 eexists. split; [reflexivity|]. split_and!; try reflexivity.
  apply wires_fmap.
Qed.

(** X6: a request that is not a heartbeat goes out with its nonce.  After
    [send], the next turn of the pump writes what was queued before and then
    the request, whose frame has the nonce under ["nonce"] and the entries
    of the message under every other key. *)
Theorem request_is_written_with_its_nonce (rnd : string) (entries : list (string * json))
    (kind : json) (s : Websocket.t) :
  getitem "type" (JObj entries) = Ok kind →
  is_str "PING" kind = false →
  rnd ≠ "PING" →
  Websocket.reconnect s = false →
  ∃ future s1 s2 frame,
    Websocket.send rnd (JObj entries) s = (Ok future, s1, [])
    ∧ Websocket.pump json_loads process_raises [(Websocket.Nothing, None)] s1
      = (Ok false, s2, Wire <$> ((Websocket.stamp <$> Websocket._send_queue s) ++ [frame]))
    ∧ getitem "nonce" frame = Ok (JStr rnd)
    ∧ (∀ key, key ≠ "nonce" → getitem key frame = getitem key (JObj entries))
    ∧ Websocket._send_queue s2 = []
    ∧ Websocket._recv_dict s2 !! rnd = Some future.
Proof.
  intros Hkind Hping Hrnd Hgo.
  rewrite (send_request_eq rnd (JObj entries) kind s Hkind Hping).
  do 3 eexists. exists (JObj (PyDict.set "nonce" (JStr rnd) entries)).
  split; [reflexivity|]. split_and!.
  - rewrite (pump_quiet json_loads process_raises 0) by done. simpl.
    rewrite fmap_app. simpl. by rewrite bool_decide_eq_true_2.
  - simpl. by rewrite get_set_eq.
  - intros key Hkey. simpl. by rewrite get_set_ne.
  - reflexivity.
  - simpl. apply lookup_insert_eq.
Qed.

(** X7: a RECONNECT frame ends the session before anything is written.  The
    requests queued stay queued, the inputs behind the frame are not read,
    readiness stays set, and the heartbeat task is left as it is, so that the
    next connection starts a second one beside it. *)
Theorem reconnect_request_keeps_queue_and_heartbeat (raw_message : string)
    (message : json) (wire : option (nat * exn))
    (rest : list (Websocket.received * option (nat * exn)))
    (websocket : nat) (s : Websocket.t) :
  json_loads raw_message = Some message →
  getitem "type" message = Ok (JStr "RECONNECT") →
  Websocket.reconnect s = false →
  Websocket.session json_loads process_raises
    ((Websocket.Message raw_message, wire) :: rest) s
  = (Ok Websocket.Continue, Websocket.set_reconnect true s,
     [Log WARNING "Received a Websocket Reconnect Request"])
  ∧ ∃ s',
      (Websocket.connected_to websocket (Websocket.set_reconnect true s)).1 = (Ok (), s')
      ∧ Websocket.ping_tasks s' = Websocket.ping_tasks s ++ [AtConnectedWait]
      ∧ Websocket._send_queue s' = Websocket._send_queue s
      ∧ Websocket.futures s' = Websocket.futures s.
Proof.
  intros Hraw Htype Hgo. split.
  - unfold Websocket.session, Websocket.try_except. simpl.
    unfold Websocket.iteration, Websocket.process_receive. run.
    rewrite Hgo. simpl. rewrite Hraw. simpl. rewrite Htype. simpl.
    by destruct rest as [|[? ?] ?].
  - rewrite connected_to_eq. eexists. split; [reflexivity|]. done.
Qed.

(** X8: raw data that does not decode, or decodes to a document without a
    ["type"], is not dropped: the exception ends the session, which logs it
    and goes on to the next connection with the client's state untouched
    (readiness set, requests queued, heartbeat task running). *)
Theorem malformed_frame_ends_the_session (raw_message : string)
    (wire : option (nat * exn))
    (rest : list (Websocket.received * option (nat * exn))) (s : Websocket.t) :
  json_loads raw_message = None
  ∨ (∃ entries, json_loads raw_message = Some (JObj entries)
                ∧ PyDict.get "type" entries = None) →
  Websocket.reconnect s = false →
  Websocket.session json_loads process_raises
    ((Websocket.Message raw_message, wire) :: rest) s
  = (Ok Websocket.Continue, s,
     [Log EXCEPTION "Exception in Websocket - Reconnecting"]).
Proof.
  intros Hbad Hgo.
  unfold Websocket.session, Websocket.try_except. simpl.
  unfold Websocket.iteration, Websocket.process_receive. run. rewrite Hgo. simpl.
  destruct Hbad as [Hraw|(entries & Hraw & Htype)]; rewrite Hraw; simpl.
  - reflexivity.
  - rewrite Htype. reflexivity.
Qed.

(** X9: a frame of a kind the router does not know is logged as an error and
    dropped; the turn goes on and writes the queue. *)
Theorem unknown_kind_is_logged_and_dropped (raw_message : string) (message kind : json)
    (s : Websocket.t) :
  json_loads raw_message = Some message →
  getitem "type" message = Ok kind →
  Forall (λ known, is_str known kind = false) ["PONG"; "RESPONSE"; "RECONNECT"; "MESSAGE"] →
  Websocket.reconnect s = false →
  Websocket.process_receive json_loads process_raises raw_message s
  = (Ok (), s, [Log ERROR "Received unknown websocket payload"])
  ∧ Websocket.iteration json_loads process_raises (Websocket.Message raw_message) None s
    = (Ok (), Websocket.set_send_queue [] s,
       Log ERROR "Received unknown websocket payload"
       :: (Wire <$> (Websocket.stamp <$> Websocket._send_queue s))).
Proof.
  intros Hraw Htype Hkinds Hgo.
  apply Forall_cons in Hkinds as [Hpong Hkinds].
  apply Forall_cons in Hkinds as [Hresponse Hkinds].
  apply Forall_cons in Hkinds as [Hreconnect Hkinds].
  apply Forall_cons in Hkinds as [Hmessage _].
  assert (Websocket.process_receive json_loads process_raises raw_message s
          = (Ok (), s, [Log ERROR "Received unknown websocket payload"])) as Hdrop.
  { unfold Websocket.process_receive. run. rewrite Hraw. simpl. rewrite Htype. simpl.
    by rewrite Hpong, Hresponse, Hreconnect, Hmessage. }
  split; [done|].
  unfold Websocket.iteration, Websocket.bind at 1. rewrite Hdrop.
  unfold Websocket.bind at 1, Websocket.gets. rewrite Hgo.
  unfold Websocket.bind.
  by rewrite (process_send_drains (Websocket._send_queue s)).
Qed.

End pumping.

(** ** What ends a connection *)

Section ending.
Variable json_loads : string → option json.
Variable process_raises : Handler → json → bool.

Lemma getitem_raises (key : string) (obj : json) (e : exn) :
  getitem key obj = Raise e → e = KeyError ∨ e = TypeError.
Proof.
  destruct obj; simpl; try (intros [= <-]; by right).
  destruct (PyDict.get key entries); [done|]. intros [= <-]. by left.
Qed.

Ltac internal_done :=
  repeat match goal with
         | H : getitem _ _ = Raise _ |- _ => apply getitem_raises in H as [-> | ->]
         end;
  unfold internal; apply list_elem_of_In; simpl; tauto.

Lemma bind_raises {A B} (m : Websocket.M A) (k : A → Websocket.M B)
    (s s' : Websocket.t) (e : exn) (tr : list event) :
  Websocket.bind m k s = (Raise e, s', tr) →
  m s = (Raise e, s', tr)
  ∨ ∃ a s1 tr1 tr2, m s = (Ok a, s1, tr1) ∧ k a s1 = (Raise e, s', tr2).
Proof.
  unfold Websocket.bind. destruct (m s) as [[[a|e0] s1] tr1].
  - destruct (k a s1) as [[r s2] tr2] eqn:Hk. intros [= -> -> <-].
    right. by exists a, s1, tr1, tr2.
  - intros [= -> -> ->]. by left.
Qed.

Lemma for_topics_raises (target message : json) (topics : list WebsocketTopic.t)
    (s s' : Websocket.t) (e : exn) (tr : list event) :
  Websocket.for_topics json_loads process_raises target message topics s
  = (Raise e, s', tr) →
  internal e.
Proof.
  induction topics as [|topic rest IH]; simpl; [done|].
  destruct (WebsocketTopic.py_eq target topic); [|done].
  unfold Websocket.loads. run. intros Hrun.
  repeat (case_match; simplify_eq; try internal_done).
Qed.

Lemma process_receive_raises (raw_message : string) (s s' : Websocket.t) (e : exn)
    (tr : list event) :
  Websocket.process_receive json_loads process_raises raw_message s = (Raise e, s', tr) →
  internal e.
Proof.
  unfold Websocket.process_receive, Websocket.loads, Websocket.pop_default,
    Websocket.pop, Websocket.future_done, Websocket.set_result.
  run. intros Hrun.
  repeat (case_match; simplify_eq; try internal_done);
    match goal with
    | H : Websocket.for_topics _ _ _ _ _ _ = (Raise _, _, _) |- _ =>
        by apply for_topics_raises in H
    end.
Qed.

Lemma process_send_raises (wire : option (nat * exn)) (queue : list (string * json))
    (s s' : Websocket.t) (e : exn) (tr : list event) :
  Websocket.process_send wire queue s = (Raise e, s', tr) →
  ∃ n, wire = Some (n, e).
Proof.
  revert wire s tr. induction queue as [|entry rest IH]; intros wire s tr; simpl; [done|].
  destruct wire as [[[|n] exc]|]; run.
  - intros [= -> _ _]. by exists 0%nat.
  - destruct (Websocket.process_send _ rest _) as [[r s1] tr1] eqn:Hrest.
    intros [= -> -> <-]. apply IH in Hrest as [m [= -> ->]]. by exists (S m).
  - destruct (Websocket.process_send _ rest _) as [[r s1] tr1] eqn:Hrest.
    intros [= -> -> <-]. by apply IH in Hrest as [m [=]].
Qed.

Lemma iteration_raises (incoming : Websocket.received) (wire : option (nat * exn))
    (s s' : Websocket.t) (e : exn) (tr : list event) :
  Websocket.iteration json_loads process_raises incoming wire s = (Raise e, s', tr) →
  internal e ∨ e ∈ closures [(incoming, wire)].
Proof.
  unfold Websocket.iteration. intros Hrun.
  apply bind_raises in Hrun as [Hrecv|(? & s1 & tr1 & tr2 & _ & Hrest)].
  - destruct incoming as [|raw_message|exc].
    + discriminate Hrecv.
    + left. by eapply process_receive_raises.
    + injection Hrecv as -> _ _. right. simpl. apply list_elem_of_here.
  - revert Hrest. run. destruct (Websocket.reconnect s1); [done|].
    destruct (Websocket.process_send _ _ _) as [[r s2] tr3] eqn:Hsend.
    intros [= -> -> _]. apply process_send_raises in Hsend as [n ->].
    right. simpl. rewrite app_nil_r. apply elem_of_app. right. apply list_elem_of_here.
Qed.

Lemma closures_cons (input : Websocket.received * option (nat * exn))
    (rest : list (Websocket.received * option (nat * exn))) :
  closures (input :: rest) = closures [input] ++ closures rest.
Proof. unfold closures. simpl. by rewrite app_nil_r. Qed.

Lemma pump_raises (inputs : list (Websocket.received * option (nat * exn)))
    (s s' : Websocket.t) (e : exn) (tr : list event) :
  Websocket.pump json_loads process_raises inputs s = (Raise e, s', tr) →
  internal e ∨ e ∈ closures inputs.
Proof.
  revert s tr. induction inputs as [|[incoming wire] rest IH]; intros s tr Hpump;
    simpl in Hpump; revert Hpump.
  - run. by destruct (Websocket.reconnect s).
  - unfold Websocket.bind at 1, Websocket.gets.
    destruct (Websocket.reconnect s); [done|].
    destruct (Websocket.bind _ _ s) as [[r s2] tr2] eqn:Hrun.
    intros [= -> -> _].
    apply bind_raises in Hrun as [Hturn|(? & s1 & tr1 & tr3 & _ & Hrest)].
    + apply iteration_raises in Hturn as [?|Hin]; [by left|]. right.
      rewrite closures_cons. apply elem_of_app. left. exact Hin.
    + apply IH in Hrest as [?|Hin]; [by left|]. right.
      rewrite closures_cons. apply elem_of_app. right. exact Hin.
Qed.

(** What the [except] clauses answer, and what they leave alone. *)
Lemma on_exception_answers (exc : exn) (s : Websocket.t) :
  ∃ next s' tr,
    Websocket.on_exception exc s = (Ok next, s', tr)
    ∧ next ≠ Websocket.Pumping
    ∧ (next = Websocket.Break ↔ exc = ConnectionClosedOK false)
    ∧ Websocket._send_queue s' = Websocket._send_queue s
    ∧ Websocket._topics s' = Websocket._topics s
    ∧ Websocket._recv_dict s' = Websocket._recv_dict s.
Proof.
  unfold Websocket.on_exception, Websocket.cancel_task, Websocket.cancel.
  destruct exc as [| | | | | | |[]|]; run;
    try (do 3 eexists; split; [reflexivity|]; split_and!; done);
    destruct (Websocket._ping_task s) as [task|]; simpl;
    try (do 3 eexists; split; [reflexivity|]; split_and!; done);
    destruct (Websocket.ping_tasks s !! task) as [[|future| | |]|]; simpl;
    try (do 3 eexists; split; [reflexivity|]; split_and!; done);
    destruct (Websocket.futures s !! future) as [[]|]; simpl;
    do 3 eexists; (split; [reflexivity|]); split_and!; done.
Qed.

(** X10: none of the exceptions that the socket or the handling of a
    message raise escapes the body of the connection loop, and the loop is
    left for good only when the socket itself reported a clean close that
    this side had initiated; whatever goes wrong while a message is handled
    leads to the next connection. *)
Theorem session_ends_only_on_local_close
    (inputs : list (Websocket.received * option (nat * exn))) (s : Websocket.t) :
  ∃ next s' tr,
    Websocket.session json_loads process_raises inputs s = (Ok next, s', tr)
    ∧ (next = Websocket.Break → ConnectionClosedOK false ∈ closures inputs).
Proof.
  unfold Websocket.session, Websocket.try_except.
  destruct (Websocket.bind (Websocket.pump json_loads process_raises inputs) _ s)
    as [[[next|exc] s1] tr1] eqn:Hrun.
  - do 3 eexists. split; [reflexivity|]. intros ->.
    revert Hrun. unfold Websocket.bind.
    destruct (Websocket.pump _ _ _ _) as [[[[]|] ?] ?]; simpl; intros [=].
  - apply bind_raises in Hrun as [Hpump|(left & ? & ? & ? & _ & Hret)];
      [|by destruct left].
    apply pump_raises in Hpump.
    destruct (on_exception_answers exc s1) as (next & s2 & tr2 & Hanswer & _ & Hbreak & _).
    rewrite Hanswer. do 3 eexists. split; [reflexivity|].
    intros Hnext. apply Hbreak in Hnext as ->.
    destruct Hpump as [Hinternal|Hin]; [|done].
    unfold internal in Hinternal.
    repeat (apply elem_of_cons in Hinternal as [Hinternal|Hinternal];
            [discriminate Hinternal|]).
    by apply elem_of_nil in Hinternal.
Qed.

End ending.

(** ** More on the subscription registry *)

Lemma topic_set_lookup (topics : list WebsocketTopic.t) (key : string) :
  Websocket.topic_set topics !! key
  = WebsocketTopic.process <$> head (filter (λ topic, WebsocketTopic.id topic = key) topics).
Proof.
  unfold Websocket.topic_set.
  enough (∀ acc : gmap string Handler,
    foldl (λ acc topic,
             match acc !! WebsocketTopic.id topic with
             | Some _ => acc
             | None => <[WebsocketTopic.id topic := WebsocketTopic.process topic]> acc
             end) acc topics !! key
    = match acc !! key with
      | Some handler => Some handler
      | None => WebsocketTopic.process
                <$> head (filter (λ topic, WebsocketTopic.id topic = key) topics)
      end) as Hgen.
  { by rewrite Hgen, lookup_empty. }
  induction topics as [|topic rest IH]; intros acc; simpl.
  - by destruct (acc !! key).
  - rewrite IH. rewrite filter_cons.
    destruct (decide (WebsocketTopic.id topic = key)) as [<-|Hne]; simpl.
    + destruct (acc !! WebsocketTopic.id topic) as [handler|] eqn:Hacc.
      * by rewrite Hacc.
      * by rewrite lookup_insert_eq.
    + destruct (acc !! WebsocketTopic.id topic) as [handler|] eqn:Hacc; [done|].
      by rewrite lookup_insert_ne.
Qed.

(** X11: [add_topics] never replaces a handler.  After the call, whatever
    its outcome, a key that was held has the handler it had, and a key that
    was not held has the handler of the first topic passed with that key (or
    is still not held when no topic passed has it). *)
Theorem add_topics_first_registration_wins (rnd : string)
    (topics : list WebsocketTopic.t) (s : Websocket.t) (key : string) :
  Websocket._topics (Websocket.add_topics rnd topics s).1.2 !! key
  = match Websocket._topics s !! key with
    | Some handler => Some handler
    | None => WebsocketTopic.process
              <$> head (filter (λ topic, WebsocketTopic.id topic = key) topics)
    end.
Proof.
  destruct (add_topics_commits rnd topics s) as [-> _].
  rewrite lookup_union, lookup_difference, topic_set_lookup.
  destruct (Websocket._topics s !! key) as [handler|]; simpl; [done|].
  by destruct (head (filter (λ topic, WebsocketTopic.id topic = key) topics)).
Qed.

(** A call all of whose topics are held returns at once. *)
Lemma add_topics_held_noop (rnd : string) (topics : list WebsocketTopic.t)
    (s : Websocket.t) :
  (∀ topic, topic ∈ topics → is_Some (Websocket._topics s !! WebsocketTopic.id topic)) →
  Websocket.add_topics rnd topics s = (Ok Websocket.NothingToAdd, s, []).
Proof.
  intros Hheld.
  assert (Websocket.topic_set topics ∖ Websocket._topics s = ∅) as Hnone.
  { apply map_eq. intros key. rewrite lookup_difference, lookup_empty.
    destruct (Websocket._topics s !! key) as [handler|] eqn:Hkey; [done|].
    rewrite topic_set_lookup.
    destruct (head (filter _ topics)) as [topic|] eqn:Hhead; [|done].
    apply head_Some_elem_of, list_elem_of_filter in Hhead as [<- Hin].
    apply Hheld in Hin as [handler Hin]. by rewrite Hin in Hkey. }
  unfold Websocket.add_topics. run. by rewrite Hnone.
Qed.

(** X12: repeating a call of [add_topics] is a no-op, whatever the first
    call ended in: the second call finds all its topics held, queues
    nothing and changes nothing, also when the first one raised. *)
Theorem add_topics_repeat_is_noop (rnd rnd' : string) (topics : list WebsocketTopic.t)
    (s : Websocket.t) :
  Websocket.add_topics rnd' topics (Websocket.add_topics rnd topics s).1.2
  = (Ok Websocket.NothingToAdd, (Websocket.add_topics rnd topics s).1.2, []).
Proof.
  apply add_topics_held_noop. intros topic Hin.
  apply elem_of_dom. destruct (add_topics_commits rnd topics s) as [_ ->].
  apply elem_of_union. right. apply elem_of_list_to_set.
  by apply list_elem_of_fmap_2.
Qed.

(** X13: a call that does not raise keeps the held set below the ceiling:
    with fewer than 50 topics held before, fewer than 50 are held after. *)
Theorem add_topics_success_stays_below_50 (rnd : string) (topics : list WebsocketTopic.t)
    (s : Websocket.t) (status : Websocket.add_status) :
  (size (Websocket._topics s) < 50)%nat →
  (Websocket.add_topics rnd topics s).1.1 = Ok status →
  (size (Websocket._topics (Websocket.add_topics rnd topics s).1.2) < 50)%nat.
Proof.
  intros Hbelow. unfold Websocket.add_topics. run.
  destruct (bool_decide (Websocket.topic_set topics ∖ Websocket._topics s = ∅)); simpl;
    [done|].
  case_bool_decide as Hsize; simpl; [done|].
  destruct (Websocket.connected s); simpl; [|intros _; lia].
  unfold Websocket.add_topics_listen. run.
  destruct (Websocket._access_token s); simpl; [intros _; lia|done].
Qed.

(** X14: before the first connection [add_topics] commits the new topics and
    suspends without queueing anything; resumed once the connection has set
    readiness, it queues the LISTEN for exactly those topics. *)
Theorem add_topics_before_connection_defers_listen (rnd token : string)
    (topics : list WebsocketTopic.t) (websocket : nat) (s : Websocket.t) :
  Websocket.connected s = false →
  Websocket._access_token s = Some token →
  Websocket.topic_set topics ∖ Websocket._topics s ≠ ∅ →
  (size (Websocket._topics s ∪ (Websocket.topic_set topics ∖ Websocket._topics s)) < 50)%nat →
  ∃ new keys s1 s2 s3,
    Websocket.add_topics rnd topics s = (Ok (Websocket.AwaitingConnected new), s1, [])
    ∧ Websocket._send_queue s1 = Websocket._send_queue s
    ∧ dom (Websocket._topics s1)
      = dom (Websocket._topics s) ∪ list_to_set (WebsocketTopic.id <$> topics)
    ∧ (Websocket.connected_to websocket s1).1 = (Ok (), s2)
    ∧ Websocket.add_topics_listen rnd new s2
      = (Ok (Websocket.AwaitingReply (length (Websocket.futures s))), s3,
         [Log INFO "Listening for"])
    ∧ Websocket._send_queue s3
      = Websocket._send_queue s
        ++ [(rnd, JObj [ ("type", JStr "LISTEN");
                         ("data", JObj [ ("topics", JArr (JStr <$> keys));
                                         ("auth_token", JStr token) ]) ])]
    ∧ NoDup keys
    ∧ ∀ key, key ∈ keys ↔
        key ∈ WebsocketTopic.id <$> topics ∧ Websocket._topics s !! key = None.
Proof.
  intros Hdown Htoken Hnew Hsize.
  set (new := Websocket.topic_set topics ∖ Websocket._topics s) in *.
  exists new, (map_to_list new).*1. do 3 eexists. split_and!.
  - unfold Websocket.add_topics. run. fold new.
    rewrite bool_decide_eq_false_2 by done. simpl.
    rewrite bool_decide_eq_false_2 by lia. simpl. by rewrite Hdown.
  - reflexivity.
  - simpl. destruct (add_topics_commits rnd topics s) as [_ Hdom].
    rewrite <- Hdom. destruct (add_topics_commits rnd topics s) as [-> _]. done.
  - by rewrite connected_to_eq.
  - unfold Websocket.add_topics_listen. run. rewrite Htoken. simpl.
    rewrite str_members. reflexivity.
  - reflexivity.
  - apply NoDup_fst_map_to_list.
  - intros key.
    assert (key ∈ WebsocketTopic.id <$> topics ↔ key ∈ dom (Websocket.topic_set topics))
      as -> by (by rewrite topic_set_dom, elem_of_list_to_set).
    unfold new. rewrite list_elem_of_fmap. split.
    + intros ([k h] & -> & Hin). apply elem_of_map_to_list in Hin. simpl.
      apply lookup_difference_Some in Hin as [Hset Hheld]. split; [|done].
      apply elem_of_dom. eauto.
    + intros [Hin Hheld]. apply elem_of_dom in Hin as [h Hh].
      exists (key, h). split; [done|]. apply elem_of_map_to_list.
      by apply lookup_difference_Some.
Qed.

(** X15: without an access token the call raises [AssertionError] only after
    the new topics have been committed to the held set; nothing is queued. *)
Theorem add_topics_without_token_raises_after_commit (rnd : string)
    (topics : list WebsocketTopic.t) (s : Websocket.t) :
  Websocket.connected s = true →
  Websocket._access_token s = None →
  Websocket.topic_set topics ∖ Websocket._topics s ≠ ∅ →
  (size (Websocket._topics s ∪ (Websocket.topic_set topics ∖ Websocket._topics s)) < 50)%nat →
  Websocket.add_topics rnd topics s
  = (Raise AssertionError,
     Websocket.set_topics
       (Websocket._topics s ∪ (Websocket.topic_set topics ∖ Websocket._topics s)) s,
     []).
Proof.
  intros Hup Htoken Hnew Hsize. unfold Websocket.add_topics. run.
  rewrite bool_decide_eq_false_2 by done. simpl.
  rewrite bool_decide_eq_false_2 by lia. simpl. rewrite Hup. simpl.
  unfold Websocket.add_topics_listen. run. by rewrite Htoken.
Qed.

(** ** More on the watch scheduler *)

Lemma cancel_lookup (task i : nat) (ts : list Twitch.WatchTask) :
  Twitch.cancel task ts !! i
  = (λ w, if decide (i = task) then Twitch.mkTask (Twitch.target w) true else w)
    <$> ts !! i.
Proof.
  unfold Twitch.cancel. destruct (decide (i = task)) as [->|Hne].
  - rewrite list_lookup_alter_eq. by destruct (ts !! task).
  - rewrite list_lookup_alter_ne by done. by destruct (ts !! i).
Qed.

Lemma watch_one_watcher (channel : Twitch.Channel) (s : Twitch.t) :
  one_watcher s → one_watcher (Twitch.watch channel s).
Proof.
  intros Hone task w. unfold Twitch.watch. simpl.
  destruct (Twitch._watching_task s) as [current|] eqn:Hcurrent.
  - assert (length (Twitch.cancel current (Twitch.tasks s)) = length (Twitch.tasks s))
      as Hlen by apply length_alter.
    intros Hlookup Hruns. apply lookup_app_Some in Hlookup as [Hold|[Hge Hnew]].
    + rewrite cancel_lookup in Hold.
      destruct (Twitch.tasks s !! task) as [w0|] eqn:Hw0; [|done].
      simpl in Hold. destruct (decide (task = current)) as [->|Hne].
      * injection Hold as <-. done.
      * injection Hold as <-. destruct (Hone task w0 Hw0 Hruns) as [Hcur _].
        rewrite Hcurrent in Hcur. by injection Hcur as ->.
    + rewrite Hlen in *.
      destruct (task - length (Twitch.tasks s))%nat as [|n] eqn:Hpos; [|done].
      injection Hnew as <-. simpl. split; [|done]. f_equal. lia.
  - intros Hlookup Hruns. apply lookup_app_Some in Hlookup as [Hold|[Hge Hnew]].
    + destruct (Hone task w Hold Hruns) as [Hcur _]. by rewrite Hcurrent in Hcur.
    + destruct (task - length (Twitch.tasks s))%nat as [|n] eqn:Hpos; [|done].
      injection Hnew as <-. simpl. split; [|done]. f_equal. lia.
Qed.

Lemma stop_watching_cancels_all (s : Twitch.t) :
  one_watcher s →
  Forall (λ w, Twitch.cancelled w = true) (Twitch.tasks (Twitch.stop_watching s)).
Proof.
  intros Hone. apply Forall_lookup. intros task w.
  unfold Twitch.stop_watching.
  destruct (Twitch._watching_task s) as [current|] eqn:Hcurrent; simpl.
  - rewrite cancel_lookup.
    destruct (Twitch.tasks s !! task) as [w0|] eqn:Hw0; [|done]. simpl.
    destruct (decide (task = current)) as [->|Hne]; intros [= <-]; [done|].
    destruct (Twitch.cancelled w0) eqn:Hruns; [done|].
    destruct (Hone task w0 Hw0 Hruns) as [Hcur _].
    rewrite Hcurrent in Hcur. by injection Hcur as ->.
  - intros Hw. destruct (Twitch.cancelled w) eqn:Hruns; [done|].
    destruct (Hone task w Hw Hruns) as [Hcur _]. by rewrite Hcurrent in Hcur.
Qed.

(** X16: at most one watcher task runs, and it is the one for the channel
    recorded as watched.  The scheduler starts with this property, and
    [watch], [stop_watching], a turn of the loop of [run] and a stream-down
    event all keep it; after [stop_watching] no watcher task runs at all. *)
Theorem at_most_one_watcher_runs (games : gset string) (fetch : Z → option Twitch.Stream)
    (channel : Twitch.Channel) (channel_id : Z) (s : Twitch.t) :
  one_watcher s →
  one_watcher (Twitch.watch channel s)
  ∧ one_watcher (Twitch.stop_watching s)
  ∧ one_watcher (Twitch.run_turn games fetch s).2
  ∧ one_watcher (Twitch.stream_down channel_id s)
  ∧ Forall (λ w, Twitch.cancelled w = true) (Twitch.tasks (Twitch.stop_watching s))
  ∧ Twitch._watching_channel (Twitch.stop_watching s) = None.
Proof.
  intros Hone. split_and!.
  - by apply watch_one_watcher.
  - intros task w Hw Hruns.
    pose proof (stop_watching_cancels_all s Hone) as Hall.
    rewrite Forall_lookup in Hall. specialize (Hall task w Hw). congruence.
  - unfold Twitch.run_turn. destruct (Twitch._channel_change s); simpl; [|done].
    destruct (Twitch.first_eligible _ _) as [found|]; simpl.
    + apply (watch_one_watcher found s Hone).
    + by destruct (Twitch.refresh_channels s).
  - unfold Twitch.stream_down. by destruct (PyDict.get _ _).
  - by apply stop_watching_cancels_all.
  - unfold Twitch.stop_watching. by destruct (Twitch._watching_task s).
Qed.

Lemma init_one_watcher : one_watcher Twitch.init.
Proof. intros task w Hw. by destruct task. Qed.

(** X17: when no channel is eligible and a channel has been watched since
    the last refresh, the turn refreshes every channel once, keeping their
    order, the watcher task and the signal; if still none is eligible, the
    turn after it changes nothing and asks for the 120 s pause. *)
Theorem one_refresh_then_pause (games : gset string)
    (fetch fetch' : Z → option Twitch.Stream) (s : Twitch.t) :
  Twitch._channel_change s = true →
  Twitch.refresh_channels s = true →
  Twitch.first_eligible games (PyDict.values (Twitch.channels s)) = None →
  let s1 := (Twitch.run_turn games fetch s).2 in
  (Twitch.run_turn games fetch s).1 = Twitch.Refreshed
  ∧ PyDict.keys (Twitch.channels s1) = PyDict.keys (Twitch.channels s)
  ∧ (∀ channel_id channel, PyDict.get channel_id (Twitch.channels s) = Some channel →
       PyDict.get channel_id (Twitch.channels s1)
       = Some (Twitch.mkChannel (Twitch.id channel) (Twitch.name channel)
                 (fetch (Twitch.id channel))))
  ∧ Twitch.tasks s1 = Twitch.tasks s
  ∧ Twitch._watching_channel s1 = Twitch._watching_channel s
  ∧ Twitch._channel_change s1 = true
  ∧ (Twitch.first_eligible games (PyDict.values (Twitch.channels s1)) = None →
     Twitch.run_turn games fetch' s1 = (Twitch.Sleep120, s1)).
Proof.
  intros Hsignal Hrefresh Hnone. unfold Twitch.run_turn.
  rewrite Hsignal, Hnone, Hrefresh. simpl. split_and!; try done.
  - unfold PyDict.keys. rewrite <- list_fmap_compose.
    apply list_fmap_ext. by intros i [k c] _.
  - intros channel_id channel. clear Hnone.
    induction (Twitch.channels s) as [|[k c] d IH]; simpl; [done|].
    destruct (decide (channel_id = k)); [by intros [= ->]|exact IH].
  - intros Hstill. by rewrite Hstill.
Qed.

(** X18: a stream-down event for the watched channel takes the channel's
    stream away and sets the change signal, but it does not stop the watcher:
    the task and the watched channel stay as they are, and when no channel is
    eligible the turn that follows leaves them running as well. *)
Theorem offline_channel_stays_watched (games : gset string)
    (fetch : Z → option Twitch.Stream) (channel_id : Z) (channel : Twitch.Channel)
    (s : Twitch.t) :
  Twitch._watching_channel s = Some channel_id →
  PyDict.get channel_id (Twitch.channels s) = Some channel →
  let s1 := Twitch.stream_down channel_id s in
  PyDict.get channel_id (Twitch.channels s1) = Some (Twitch.set_offline channel)
  ∧ Twitch.eligible games (Twitch.set_offline channel) = false
  ∧ (∀ other, other ≠ channel_id →
       PyDict.get other (Twitch.channels s1) = PyDict.get other (Twitch.channels s))
  ∧ Twitch._channel_change s1 = true
  ∧ Twitch.tasks s1 = Twitch.tasks s
  ∧ Twitch._watching_task s1 = Twitch._watching_task s
  ∧ Twitch._watching_channel s1 = Some channel_id
  ∧ (Twitch.first_eligible games (PyDict.values (Twitch.channels s1)) = None →
     Twitch.tasks (Twitch.run_turn games fetch s1).2 = Twitch.tasks s
     ∧ Twitch._watching_channel (Twitch.run_turn games fetch s1).2 = Some channel_id).
Proof.
  intros Hwatched Hchannel. unfold Twitch.stream_down. rewrite Hchannel. simpl.
  rewrite Hwatched, bool_decide_eq_true_2 by done. split_and!; try done.
  - apply get_set_eq.
  - intros other Hother. by apply get_set_ne.
  - intros Hnone. unfold Twitch.run_turn. simpl. rewrite Hnone.
    by destruct (Twitch.refresh_channels s).
Qed.

(** ** Requests made for a channel *)

Section requests.
Variable str : json → string.

Lemma with_variables_eq (address : nat) (variables : json) (d : GQLOperation.t)
    (h : list GQLOperation.t) :
  h !! address = Some d →
  GQLOperation.with_variables address variables h
  = Some (length h, h ++ [PyDict.set "variables" variables d]).
Proof.
  intros Hd. unfold GQLOperation.with_variables, GQLOperation.copy,
    GQLOperation.setitem. rewrite Hd. simpl. do 2 f_equal.
  replace (length h) with (length h + 0)%nat at 1 by lia.
  by rewrite (alter_app_r (PyDict.set "variables" variables) h [d] 0).
Qed.

Lemma intact_app (h : list GQLOperation.t) (op : GQLOperation.t) :
  intact h → intact (h ++ [op]).
Proof.
  intros Hh address op0 Hop. apply lookup_app_l_Some. by apply Hh.
Qed.

Lemma derive_eq (name : string) (variables : json) (address : nat)
    (d : GQLOperation.t) (h : list GQLOperation.t) :
  Requests.operation name = Ok address →
  Requests.table !! address = Some d →
  intact h →
  Requests.derive name variables h
  = (Ok (PyDict.set "variables" variables d),
     h ++ [PyDict.set "variables" variables d]).
Proof.
  intros Hname Hd Hh. unfold Requests.derive. rewrite Hname.
  rewrite (with_variables_eq address variables d) by (by apply Hh).
  rewrite lookup_app_r by reflexivity. by rewrite Nat.sub_diag.
Qed.

(** With the table in place, [claim_points] derives its operation from the
    third entry of the table and posts it. *)
Lemma claim_points_eq (channel_id claim_id : json) (h : list GQLOperation.t) :
  intact h →
  ∃ entry,
    Requests.table !! 2%nat = Some entry
    ∧ Requests.claim_points str channel_id claim_id h
      = (Ok (Requests.Post
               (PyDict.set "variables"
                  (JObj [("input", JObj [("channelID", JStr (str channel_id));
                                         ("claimID", claim_id)])]) entry)),
         h ++ [PyDict.set "variables"
                 (JObj [("input", JObj [("channelID", JStr (str channel_id));
                                        ("claimID", claim_id)])]) entry]).
Proof.
  intros Hh. eexists. split; [reflexivity|]. unfold Requests.claim_points.
  by erewrite (derive_eq "ClaimCommunityPoints" _ 2) by (reflexivity || done).
Qed.

(** X19: [claim_points] posts a copy of the [ClaimCommunityPoints]
    operation whose variables name the channel, as a string, and the claim;
    the operation has the name and the persisted-query hash of the table
    entry, and the entries of the table are not touched by the call. *)
Theorem claim_points_posts_a_copy (channel_id claim_id : json)
    (h : list GQLOperation.t) :
  intact h →
  ∃ op,
    Requests.claim_points str channel_id claim_id h = (Ok (Requests.Post op), h ++ [op])
    ∧ intact (h ++ [op])
    ∧ PyDict.get "operationName" op = Some (JStr "ClaimCommunityPoints")
    ∧ PyDict.get "extensions" op
      = Some (JObj [("persistedQuery",
                      JObj [("version", JNum 1);
                            ("sha256Hash",
                              JStr "46aaeebe02c99afdf4fc97c7c0cba964124bf6b0af229395f1f6d1feed05b3d0")])])
    ∧ PyDict.get "variables" op
      = Some (JObj [("input", JObj [("channelID", JStr (str channel_id));
                                    ("claimID", claim_id)])]).
Proof.
  intros Hh. destruct (claim_points_eq channel_id claim_id h Hh) as (entry & Hentry & ->).
  cbv in Hentry. injection Hentry as <-.
  eexists. split; [reflexivity|]. split_and!.
  - by apply intact_app.
  - reflexivity.
  - reflexivity.
  - reflexivity.
Qed.

(** X20: a [claim-available] message makes [process_points] claim the bonus
    once, for the channel and the claim the message names, when the message
    is complete; when its [point_gain] is missing the handler raises before
    it claims anything, although the channel and the claim are there. *)
Theorem process_points_claims_complete_messages (message data claim_data : json)
    (h : list GQLOperation.t) :
  intact h →
  getitem "type" message = Ok (JStr "claim-available") →
  getitem "data" message = Ok data →
  getitem "claim" data = Ok claim_data →
  (∀ point_gain points channel_id claim_id,
     getitem "point_gain" claim_data = Ok point_gain →
     getitem "total_points" point_gain = Ok points →
     getitem "channel_id" claim_data = Ok channel_id →
     getitem "id" claim_data = Ok claim_id →
     ∃ op,
       Requests.process_points str message h
       = ([Requests.Post op; Requests.Print "Claimed bonus points"], Ok (), h ++ [op])
       ∧ PyDict.get "operationName" op = Some (JStr "ClaimCommunityPoints")
       ∧ PyDict.get "variables" op
         = Some (JObj [("input", JObj [("channelID", JStr (str channel_id));
                                       ("claimID", claim_id)])]))
  ∧ (∀ e, getitem "point_gain" claim_data = Raise e →
       Requests.process_points str message h = ([], Raise e, h)).
Proof.
  intros Hh Htype Hdata Hclaim. split.
  - intros point_gain points channel_id claim_id Hgain Hpoints Hchannel Hid.
    destruct (claim_points_eq channel_id claim_id h Hh) as (entry & Hentry & Hpost).
    cbv in Hentry. injection Hentry as <-.
    eexists. split.
    { unfold Requests.process_points. rewrite Htype. simpl.
      rewrite Hdata. simpl. rewrite Hclaim. simpl. rewrite Hgain. simpl.
      rewrite Hpoints. simpl. rewrite Hchannel. simpl. rewrite Hid. simpl.
      by rewrite Hpost. }
    split; reflexivity.
  - intros e Hgain. unfold Requests.process_points. rewrite Htype. simpl.
    rewrite Hdata. simpl. rewrite Hclaim. simpl. by rewrite Hgain.
Qed.

Lemma bonus_check_no_claim (op : GQLOperation.t) (response : json)
    (h : list GQLOperation.t) :
  no_claim response →
  Requests.bonus_check str op response h = ([Requests.Post op], Ok (), h).
Proof.
  intros (data & community & channel_data & self & community_points & claim_available
          & Hdata & Hcommunity & Hchannel & Hself & Hpoints & Hclaim & Hfalse).
  unfold Requests.bonus_check. rewrite Hdata. simpl. rewrite Hcommunity. simpl.
  rewrite Hchannel. simpl. rewrite Hself. simpl. rewrite Hpoints. simpl.
  rewrite Hclaim. simpl. by rewrite Hfalse.
Qed.

Lemma watcher_loop_no_claims (channel : Twitch.Channel) (op : GQLOperation.t)
    (responses : nat → json) (turns t : nat) (h : list GQLOperation.t) :
  (∀ u, (u mod 30 = 0)%nat → no_claim (responses u)) →
  Requests.watcher_loop str channel op responses turns t (t mod 30) h
  = ((λ u, if bool_decide (u mod 30 = 0)%nat
           then [Requests.SendWatch (Twitch.id channel); Requests.Post op]
           else [Requests.SendWatch (Twitch.id channel)]) <$> seq t turns,
     h).
Proof.
  intros Hquiet. revert t. induction turns as [|turns IH]; intros t; [done|].
  cbn [Requests.watcher_loop seq fmap list_fmap]. unfold Requests.watcher_turn.
  assert (((t mod 30 + 1) mod 30)%nat = (S t mod 30)%nat) as Hnext.
  { rewrite Nat.Div0.add_mod_idemp_l. f_equal. lia. }
  case_bool_decide as Hzero.
  - rewrite bonus_check_no_claim by (by apply Hquiet).
    rewrite Hnext, IH. done.
  - rewrite Hnext, IH. done.
Qed.

(** What the bonus check does, whatever the reply: it posts the query, and
    then either nothing more or one claim, which it logs. *)
Lemma bonus_check_cases (op : GQLOperation.t) (response : json)
    (h : list GQLOperation.t) :
  intact h →
  ∃ actions r h',
    Requests.bonus_check str op response h = (actions, r, h')
    ∧ intact h'
    ∧ (actions = [Requests.Post op]
       ∨ ∃ claim, actions = [Requests.Post op; Requests.Post claim;
                             Requests.Info "Claimed bonus points"]
                  ∧ PyDict.get "operationName" claim = Some (JStr "ClaimCommunityPoints")
                  ∧ r = Ok ()).
Proof.
  intros Hh. unfold Requests.bonus_check.
  destruct (Requests.and_then (getitem "data" response) _)
    as [[channel_data claim_available]|e].
  2: { do 3 eexists. split; [reflexivity|]. split; [done|]. by left. }
  destruct (Requests.truthy claim_available).
  2: { do 3 eexists. split; [reflexivity|]. split; [done|]. by left. }
  destruct (Requests.and_then (getitem "id" channel_data) _)
    as [[channel_id claim_id]|e].
  2: { do 3 eexists. split; [reflexivity|]. split; [done|]. by left. }
  destruct (claim_points_eq channel_id claim_id h Hh) as (entry & Hentry & ->).
  cbv in Hentry. injection Hentry as <-.
  do 3 eexists. split; [reflexivity|]. split; [by apply intact_app|].
  right. eexists. split; [reflexivity|]. split; reflexivity.
Qed.

(** The loop from the turn [t] on, whatever the replies. *)
Lemma watcher_loop_cadence (channel : Twitch.Channel) (op : GQLOperation.t)
    (responses : nat → json) (turns t : nat) (h : list GQLOperation.t) :
  intact h →
  ∃ log h',
    Requests.watcher_loop str channel op responses turns t (t mod 30) h = (log, h')
    ∧ (length log ≤ turns)%nat
    ∧ (∀ k actions, log !! k = Some actions → turn_actions channel op (t + k) actions)
    ∧ ((length log < turns)%nat →
         ∃ k, length log = S k ∧ ((t + k) mod 30 = 0)%nat).
Proof.
  revert t h. induction turns as [|turns IH]; intros t h Hh.
  { exists [], h. split; [reflexivity|]. split; [done|]. split; [done|].
    simpl. lia. }
  cbn [Requests.watcher_loop]. unfold Requests.watcher_turn.
  assert (((t mod 30 + 1) mod 30)%nat = (S t mod 30)%nat) as Hnext.
  { rewrite Nat.Div0.add_mod_idemp_l. f_equal. lia. }
  assert (∀ h1 first, intact h1 → turn_actions channel op t first →
            ∃ log h',
              (let '(later, h'') :=
                 Requests.watcher_loop str channel op responses turns (S t)
                   (S t mod 30) h1 in
               (first :: later, h'')) = (log, h')
              ∧ (length log ≤ S turns)%nat
              ∧ (∀ k actions, log !! k = Some actions →
                   turn_actions channel op (t + k) actions)
              ∧ ((length log < S turns)%nat →
                   ∃ k, length log = S k ∧ ((t + k) mod 30 = 0)%nat)) as Hcont.
  { intros h1 first Hh1 Hfirst.
    destruct (IH (S t) h1 Hh1) as (later & h'' & -> & Hlen & Hshape & Hearly).
    exists (first :: later), h''. split; [reflexivity|]. split; [simpl; lia|]. split.
    - intros [|k] actions; simpl.
      + intros [= <-]. by rewrite Nat.add_0_r.
      + intros Hk. replace (t + S k)%nat with (S t + k)%nat by lia. by apply Hshape.
    - simpl. intros Hlt. destruct Hearly as (k & -> & Hk); [lia|].
      exists (S k). split; [done|]. by replace (t + S k)%nat with (S t + k)%nat by lia. }
  case_bool_decide as Hzero.
  - destruct (bonus_check_cases op (responses t) h Hh)
      as (actions & r & h1 & -> & Hh1 & Hactions).
    assert (turn_actions channel op t (Requests.SendWatch (Twitch.id channel) :: actions))
      as Hfirst.
    { unfold turn_actions. rewrite bool_decide_eq_true_2 by done.
      destruct Hactions as [->|(claim & -> & Hname & _)]; [by left|].
      right. by exists claim. }
    destruct r as [[]|e].
    + rewrite Hnext. by apply Hcont.
    + eexists _, h1. split; [reflexivity|]. split; [simpl; lia|]. split.
      * intros [|k] actions'; simpl; [|by rewrite lookup_nil].
        intros [= <-]. by rewrite Nat.add_0_r.
      * intros _. exists 0%nat. split; [done|]. by rewrite Nat.add_0_r.
  - rewrite Hnext. apply Hcont; [done|].
    unfold turn_actions. by rewrite bool_decide_eq_false_2.
Qed.

(** X21: the watcher sends the watch signal first in every turn it runs and
    posts the points query in the first turn and in every 30th turn after it,
    never in between, always with the operation it built when it started; a
    turn with the query may go on to claim the bonus, a turn without it does
    nothing else; and the watcher ends before its time only in a turn with
    the query.  When no reply offers a claim, every turn is run and the heap
    only gains the operation built at the start. *)
Theorem watcher_checks_bonus_every_30_turns (channel : Twitch.Channel)
    (responses : nat → json) (turns : nat) (h : list GQLOperation.t) :
  intact h →
  ∃ op log h',
    Requests.watcher str channel responses turns h = (Ok log, h')
    ∧ PyDict.get "operationName" op = Some (JStr "ChannelPointsContext")
    ∧ PyDict.get "variables" op
      = Some (JObj [("channelLogin", JStr (Twitch.name channel))])
    ∧ (length log ≤ turns)%nat
    ∧ (∀ u actions, log !! u = Some actions → turn_actions channel op u actions)
    ∧ ((length log < turns)%nat →
         ∃ u, length log = S u ∧ (u mod 30 = 0)%nat)
    ∧ ((∀ u, (u mod 30 = 0)%nat → no_claim (responses u)) →
         log = (λ u, if bool_decide (u mod 30 = 0)%nat
                     then [Requests.SendWatch (Twitch.id channel); Requests.Post op]
                     else [Requests.SendWatch (Twitch.id channel)]) <$> seq 0 turns
         ∧ h' = h ++ [op]).
Proof.
  intros Hh. unfold Requests.watcher.
  erewrite (derive_eq "ChannelPointsContext" _ 4) by (reflexivity || done).
  match goal with
  | |- context [Requests.watcher_loop _ _ ?op _ _ _ _ ?h'] =>
      pose proof (watcher_loop_no_claims channel op responses turns 0 h') as Hquiet;
      destruct (watcher_loop_cadence channel op responses turns 0 h')
        as (log & h'' & Hloop & Hlen & Hshape & Hearly); [by apply intact_app|];
      exists op, log, h''
  end.
  change (0 mod 30)%nat with 0%nat in Hloop, Hquiet. rewrite Hloop in Hquiet |- *.
  split; [reflexivity|]. split; [reflexivity|].
  split; [reflexivity|]. split; [exact Hlen|]. split; [exact Hshape|].
  split; [exact Hearly|].
  intros Hnone. specialize (Hquiet Hnone). injection Hquiet as Hlog Hheap. by split.
Qed.

End requests.

(** ** Logging in *)

Lemma attempt_posts_once (login_response payload : list (string * json)) (s : Login.t) :
  match Login.attempt login_response payload s with
  | Login.Leave _ s' | Login.Again _ s' => Login.posts s' = Login.posts s ++ [payload]
  end.
Proof.
  unfold Login.attempt, Login.read.
  repeat (case_match; simplify_eq; simpl; try done).
Qed.

Lemma attempts_posts (n : nat) (responses : nat → list (string * json))
    (payload : list (string * json)) (s : Login.t) :
  ∃ sent, Login.posts (Login.attempts n responses payload s).2 = Login.posts s ++ sent
          ∧ (length sent ≤ n)%nat.
Proof.
  revert payload s. induction n as [|n IH]; intros payload s; simpl.
  - exists []. by rewrite app_nil_r.
  - pose proof (attempt_posts_once (responses (length (Login.posts s))) payload s) as Hone.
    destruct (Login.attempt _ payload s) as [r s'|payload' s'].
    + exists [payload]. simpl. split; [done|lia].
    + destruct (IH payload' s') as (sent & Hsent & Hlen).
      exists (payload :: sent). rewrite Hsent, Hone, <- app_assoc. simpl.
      split; [done|lia].
Qed.

Lemma prepare_posts (s : Login.t) : Login.posts (Login.prepare s).2 = Login.posts s.
Proof.
  unfold Login.prepare, Login.read.
  repeat (case_match; simplify_eq; simpl; try done).
Qed.

(** X22: [_login] posts to the login endpoint at most ten times, whatever
    the server replies and whatever the user types. *)
Theorem login_posts_at_most_ten_times (responses : nat → list (string * json))
    (s : Login.t) :
  ∃ sent, Login.posts (Login._login responses s).2 = Login.posts s ++ sent
          ∧ (length sent ≤ 10)%nat.
Proof.
  unfold Login._login. pose proof (prepare_posts s) as Hprepare.
  destruct (Login.prepare s) as [[payload|e] s1]; simpl in Hprepare.
  - destruct (attempts_posts 10 responses payload s1) as (sent & Hsent & Hlen).
    exists sent. rewrite <- Hprepare. split; [|done].
    destruct (Login.attempts 10 responses payload s1) as [[[]|e] s2];
      cbn [fst snd] in *; [|exact Hsent].
    destruct (Login._access_token s2); exact Hsent.
  - exists []. simpl. rewrite app_nil_r. split; [exact Hprepare|lia].
Qed.

Lemma attempt_keeps_credentials (name pass : string)
    (login_response payload payload' : list (string * json)) (s s' : Login.t) :
  carries_credentials name pass payload →
  Login.attempt login_response payload s = Login.Again payload' s' →
  carries_credentials name pass payload'.
Proof.
  intros [Hname Hpass]. unfold Login.attempt, Login.read, carries_credentials.
  intros Hstep.
  repeat (case_match; simplify_eq; simpl; try done);
    rewrite ?get_set_ne by done; done.
Qed.

Lemma attempts_keep_credentials (name pass : string) (n : nat)
    (responses : nat → list (string * json)) (payload : list (string * json))
    (s : Login.t) :
  carries_credentials name pass payload →
  ∃ sent, Login.posts (Login.attempts n responses payload s).2 = Login.posts s ++ sent
          ∧ Forall (carries_credentials name pass) sent.
Proof.
  revert payload s. induction n as [|n IH]; intros payload s Hcreds; simpl.
  - exists []. by rewrite app_nil_r.
  - pose proof (attempt_posts_once (responses (length (Login.posts s))) payload s) as Hone.
    destruct (Login.attempt _ payload s) as [r s'|payload' s'] eqn:Hstep.
    + exists [payload]. simpl. split; [done|]. by constructor.
    + destruct (IH payload' s') as (sent & Hsent & Hall).
      { by eapply attempt_keeps_credentials. }
      exists (payload :: sent). rewrite Hsent, Hone, <- app_assoc. simpl.
      split; [done|]. by constructor.
Qed.

(** X23: every payload [_login] posts carries the user name and the password
    it started with.  A password typed again after the server refused the
    first one is stored in the client but never put into the payload, so the
    later posts repeat the refused password. *)
Theorem login_always_posts_the_first_password (name pass : string)
    (responses : nat → list (string * json)) (s : Login.t) :
  Login.username s = Some name →
  Login.password s = Some pass →
  ∃ sent, Login.posts (Login._login responses s).2 = Login.posts s ++ sent
          ∧ Forall (carries_credentials name pass) sent.
Proof.
  intros Hname Hpass. unfold Login._login, Login.prepare.
  rewrite Hname, Hpass. cbn -[Login.attempts].
  destruct (Login.empty pass).
  - exists []. simpl. by rewrite app_nil_r.
  - destruct (attempts_keep_credentials name pass 10 responses
                [ ("username", JStr name); ("password", JStr pass);
                  ("client_id", JStr CLIENT_ID); ("undelete_user", JBool false);
                  ("remember_me", JBool true) ] s) as (sent & Hsent & Hall).
    { by split. }
    exists sent. split; [|done].
    destruct (Login.attempts 10 _ _ s) as [[[]|e] s2];
      cbn [fst snd] in *; [|exact Hsent].
    destruct (Login._access_token s2); exact Hsent.
Qed.

Lemma attempt_asks_for_token (login_response payload : list (string * json))
    (line : string) (rest : list string) (s : Login.t) :
  asks_for_token login_response →
  Login.console s = line :: rest →
  ∃ payload',
    Login.attempt login_response payload s
    = Login.Again payload' (Login.set_console rest (Login.post payload s)).
Proof.
  intros (error_code & Hcode & Hin) Hconsole.
  unfold Login.attempt, Login.read. rewrite Hcode. simpl. rewrite Hconsole.
  repeat (apply elem_of_cons in Hin as [->|Hin]; [by eexists|]).
  by apply elem_of_nil in Hin.
Qed.

Lemma attempts_ask_for_token (n : nat) (responses : nat → list (string * json))
    (payload : list (string * json)) (s : Login.t) :
  (∀ k, asks_for_token (responses k)) →
  (n ≤ length (Login.console s))%nat →
  ∃ s', Login.attempts n responses payload s = (Login.Returns (), s')
        ∧ length (Login.posts s') = (length (Login.posts s) + n)%nat
        ∧ Login.console s' = drop n (Login.console s)
        ∧ Login._access_token s' = Login._access_token s.
Proof.
  intros Hasks. revert payload s. induction n as [|n IH]; intros payload s Hlines.
  - exists s. simpl. split_and!; first [done|lia].
  - destruct (Login.console s) as [|line rest] eqn:Hconsole; [simpl in Hlines; lia|].
    destruct (attempt_asks_for_token (responses (length (Login.posts s))) payload
                line rest s (Hasks _) Hconsole) as (payload' & Hstep).
    cbn [Login.attempts]. rewrite Hstep.
    destruct (IH payload' (Login.set_console rest (Login.post payload s)))
      as (s' & Hrun & Hposts & Hrest & Htoken).
    { simpl in *. lia. }
    exists s'. split; [done|]. simpl in *. rewrite Hposts, length_app. simpl.
    split_and!; first [done|lia].
Qed.

(** X24: when the server keeps asking for a two-factor token, [_login] gives
    up after the tenth post: it has read ten lines from the console, obtained
    no token and raises the exception for exhausted retries. *)
Theorem login_gives_up_after_ten_token_requests (name pass : string)
    (responses : nat → list (string * json)) (s : Login.t) :
  Login.username s = Some name →
  Login.password s = Some pass →
  Login.empty pass = false →
  Login._access_token s = None →
  (10 ≤ length (Login.console s))%nat →
  (∀ k, asks_for_token (responses k)) →
  ∃ s', Login._login responses s
        = (Login.Raises (Login.LoginException (JStr "Ran out of login retries")), s')
        ∧ length (Login.posts s') = (length (Login.posts s) + 10)%nat
        ∧ Login.console s' = drop 10 (Login.console s).
Proof.
  intros Hname Hpass Hfilled Htoken Hlines Hasks.
  unfold Login._login, Login.prepare. rewrite Hname, Hpass. cbn -[Login.attempts].
  rewrite Hfilled.
  destruct (attempts_ask_for_token 10 responses
              [ ("username", JStr name); ("password", JStr pass);
                ("client_id", JStr CLIENT_ID); ("undelete_user", JBool false);
                ("remember_me", JBool true) ] s Hasks Hlines)
    as (s' & Hrun & Hposts & Hconsole & Hnone).
  rewrite Hrun, Hnone, Htoken. by exists s'.
Qed.

(** ** Topics of the tracked channels *)

Lemma append_inj (prefix a b : string) : prefix +:+ a = prefix +:+ b → a = b.
Proof. induction prefix as [|c prefix IH]; simpl; [done|]. intros [= ?]. auto. Qed.

(** X25: [get_topic] raises [KeyError] for a name that is not in the table;
    for a name of the table the key is the prefix, a dot and the target as an
    f-string prints it, whatever the handler.  Two topics of one name have
    the same key exactly when their targets print the same: two integer
    targets when they are equal, two string targets when they are equal,
    while a string of digits and the integer it denotes give one key. *)
Theorem get_topic_keys_follow_targets (topic_name : string) (a b : Target)
    (process_a process_b : Handler) :
  match PyDict.get topic_name WEBSOCKET_TOPICS with
  | None => get_topic topic_name a process_a = Raise KeyError
  | Some prefix =>
      ∃ topic_a topic_b,
        get_topic topic_name a process_a = Ok topic_a
        ∧ get_topic topic_name b process_b = Ok topic_b
        ∧ WebsocketTopic.id topic_a = prefix +:+ "." +:+ format a
        ∧ WebsocketTopic.process topic_a = process_a
        ∧ (WebsocketTopic.id topic_a = WebsocketTopic.id topic_b ↔ format a = format b)
        ∧ (∀ x y, a = TargetInt x → b = TargetInt y →
             WebsocketTopic.id topic_a = WebsocketTopic.id topic_b ↔ x = y)
        ∧ (∀ x y, a = TargetStr x → b = TargetStr y →
             WebsocketTopic.id topic_a = WebsocketTopic.id topic_b ↔ x = y)
        ∧ (∀ x, a = TargetStr (pretty x) → b = TargetInt x →
             WebsocketTopic.id topic_a = WebsocketTopic.id topic_b)
  end.
Proof.
  unfold get_topic. destruct (PyDict.get topic_name WEBSOCKET_TOPICS) as [prefix|]; [|done].
  do 2 eexists. split; [reflexivity|]. split; [reflexivity|].
  split; [reflexivity|]. split; [reflexivity|]. simpl.
  assert (prefix +:+ "." +:+ format a = prefix +:+ "." +:+ format b
          ↔ format a = format b) as Hkeys.
  { split; [|by intros ->]. intros Hsame. by apply append_inj, append_inj in Hsame. }
  split_and!.
  - exact Hkeys.
  - intros x y -> ->. rewrite Hkeys. simpl. split; [apply (inj pretty)|by intros ->].
  - intros x y -> ->. rewrite Hkeys. simpl. split; [done|by intros ->].
  - intros x -> ->. by apply Hkeys.
Qed.

Lemma keys_set_held {V} (d : list (Z * V)) (k : Z) (v : V) :
  k ∈ PyDict.keys d → PyDict.keys (PyDict.set k v d) = PyDict.keys d.
Proof.
  unfold PyDict.keys. induction d as [|[k0 v0] d IH]; simpl.
  - intros Hin. by apply elem_of_nil in Hin.
  - intros Hin. destruct (decide (k = k0)) as [->|Hne]; simpl; [done|].
    apply elem_of_cons in Hin as [?|Hin]; [done|]. f_equal. by apply IH.
Qed.

Lemma get_held {V} (d : list (Z * V)) (k : Z) :
  k ∈ PyDict.keys d → is_Some (PyDict.get k d).
Proof.
  unfold PyDict.keys. induction d as [|[k0 v0] d IH]; simpl.
  - intros Hin. by apply elem_of_nil in Hin.
  - intros Hin. destruct (decide (k = k0)); [by eexists|].
    apply elem_of_cons in Hin as [?|Hin]; [done|]. by apply IH.
Qed.

Lemma register_keys_NoDup (fetched : list Twitch.Channel) (s : Twitch.t) :
  NoDup (PyDict.keys (Twitch.channels s)) →
  NoDup (PyDict.keys (Twitch.channels (Twitch.register fetched s))).
Proof.
  unfold Twitch.register. simpl. generalize (Twitch.channels s). clear s.
  induction fetched as [|channel rest IH]; intros d Hd; simpl; [done|].
  apply IH. destruct (decide (Twitch.id channel ∈ PyDict.keys d)) as [Hin|Hout].
  - by rewrite keys_set_held.
  - rewrite set_fresh by done. unfold PyDict.keys. rewrite fmap_app. simpl.
    apply NoDup_app. split_and!; [done| |apply NoDup_singleton].
    intros k Hk Hk'. apply list_elem_of_singleton in Hk' as ->. done.
Qed.

Lemma channel_topics_eq (s : Twitch.t) :
  Twitch.channel_topics s
  = Ok ((λ channel_id,
           WebsocketTopic.mk ("video-playback-by-id" +:+ "." +:+ pretty channel_id)
             (process_stream_state channel_id))
        <$> PyDict.keys (Twitch.channels s)).
Proof.
  unfold Twitch.channel_topics.
  induction (PyDict.keys (Twitch.channels s)) as [|k keys IH]; [done|].
  cbn [foldr]. rewrite IH. reflexivity.
Qed.

(** X26: the topics [run] subscribes to for the channels it has registered
    are one per registered channel, with pairwise different keys, each with
    the stream-state handler of its channel; as a set they have as many
    members as there are channels. *)
Theorem channel_topics_one_per_channel (fetched : list Twitch.Channel) :
  let s := Twitch.register fetched Twitch.init in
  ∃ topics,
    Twitch.channel_topics s = Ok topics
    ∧ length topics = length (Twitch.channels s)
    ∧ NoDup (WebsocketTopic.id <$> topics)
    ∧ size (Websocket.topic_set topics) = length (Twitch.channels s)
    ∧ ∀ topic, topic ∈ topics →
        ∃ channel_id, is_Some (PyDict.get channel_id (Twitch.channels s))
                      ∧ WebsocketTopic.process topic = process_stream_state channel_id.
Proof.
  intros s. rewrite channel_topics_eq. eexists. split; [reflexivity|].
  assert (NoDup (PyDict.keys (Twitch.channels s))) as Hkeys.
  { apply register_keys_NoDup. constructor. }
  assert (NoDup (WebsocketTopic.id
                 <$> ((λ channel_id,
                         WebsocketTopic.mk
                           ("video-playback-by-id" +:+ "." +:+ pretty channel_id)
                           (process_stream_state channel_id))
                      <$> PyDict.keys (Twitch.channels s)))) as Hids.
  { rewrite <- list_fmap_compose. apply NoDup_fmap_2; [|done].
    intros a b Hab. simpl in Hab. apply append_inj, append_inj in Hab.
    by apply (inj pretty). }
  split_and!.
  - unfold PyDict.keys. by rewrite !length_fmap.
  - done.
  - rewrite <- size_dom, topic_set_dom, size_list_to_set by done.
    unfold PyDict.keys. by rewrite !length_fmap.
  - intros topic Hin. apply list_elem_of_fmap in Hin as (k & -> & Hk).
    exists k. split; [|done]. by apply get_held.
Qed.

(** ** Closing the client *)

Section closing.
Variable json_loads : string → option json.
Variable process_raises : Handler → json → bool.

(** A cancelled heartbeat task does nothing when it is resumed, and
    cancelling touches nothing but the task and the future it waits for. *)
Lemma cancel_task_stops (task : nat) (s : Websocket.t) :
  ∃ s1, Websocket.cancel_task task s = (Ok (), s1, [])
        ∧ Websocket.connected s1 = Websocket.connected s
        ∧ Websocket.reconnect s1 = Websocket.reconnect s
        ∧ Websocket._send_queue s1 = Websocket._send_queue s
        ∧ Websocket._ping_task s1 = Websocket._ping_task s
        ∧ ∀ w, Websocket._ping_loop task w s1 = (Ok (), s1, []).
Proof.
  unfold Websocket.cancel_task, Websocket.cancel. run.
  destruct (Websocket.ping_tasks s !! task) as [pc|] eqn:Htask.
  - assert (task < length (Websocket.ping_tasks s))%nat as Hlt
      by (by eapply lookup_lt_Some).
    assert (∀ s0, Websocket.ping_tasks s0 !! task = Some TaskCancelled →
              ∀ w, Websocket._ping_loop task w s0 = (Ok (), s0, [])) as Hidle.
    { intros s0 Hs0 w. unfold Websocket._ping_loop. run. rewrite Hs0. by destruct w. }
    destruct pc as [|future| | |]; simpl.
    + eexists. split; [reflexivity|]. split_and!; try done.
      apply Hidle. simpl. by apply list_lookup_insert_eq.
    + destruct (Websocket.futures s !! future) as [[]|]; simpl;
        (eexists; split; [reflexivity|]; split_and!; try done;
         apply Hidle; simpl; by apply list_lookup_insert_eq).
    + eexists. split; [reflexivity|]. split_and!; try done.
      apply Hidle. simpl. by apply list_lookup_insert_eq.
    + exists s. split; [reflexivity|]. split_and!; try done.
      intros w. by apply ping_loop_over.
    + exists s. split; [reflexivity|]. split_and!; try done.
      by apply Hidle.
  - exists s. split; [reflexivity|]. split_and!; try done.
    intros w. unfold Websocket._ping_loop. run. rewrite Htask. by destruct w.
Qed.

Lemma pump_closed (exc : exn) (wire : option (nat * exn))
    (rest : list (Websocket.received * option (nat * exn))) (s : Websocket.t) :
  Websocket.reconnect s = false →
  Websocket.pump json_loads process_raises ((Websocket.Closed exc, wire) :: rest) s
  = (Raise exc, s, []).
Proof.
  intros Hgo. simpl. unfold Websocket.iteration. run. by rewrite Hgo.
Qed.

(** X27: [close] clears readiness and stops the heartbeat task, which sends
    nothing any more however it is resumed, and leaves the queue alone; when
    the socket then reports the clean close this side asked for, the
    connection loop ends, with no heartbeat task recorded. *)
Theorem close_stops_heartbeat_and_ends_loop (wire : option (nat * exn))
    (rest : list (Websocket.received * option (nat * exn))) (s : Websocket.t) :
  Websocket.reconnect s = false →
  ∃ s1 s2,
    Websocket.close s = (Ok (), s1, [])
    ∧ Websocket.connected s1 = false
    ∧ Websocket._send_queue s1 = Websocket._send_queue s
    ∧ (∀ task w, Websocket._ping_task s = Some task →
         Websocket._ping_loop task w s1 = (Ok (), s1, []))
    ∧ Websocket.session json_loads process_raises
        ((Websocket.Closed (ConnectionClosedOK false), wire) :: rest) s1
      = (Ok Websocket.Break, s2, [])
    ∧ Websocket.connected s2 = false
    ∧ Websocket._ping_task s2 = None.
Proof.
  intros Hgo.
  assert (∃ s1, Websocket.close s = (Ok (), s1, [])
                ∧ Websocket.connected s1 = false
                ∧ Websocket.reconnect s1 = false
                ∧ Websocket._send_queue s1 = Websocket._send_queue s
                ∧ ∀ task w, Websocket._ping_task s = Some task →
                    Websocket._ping_loop task w s1 = (Ok (), s1, []))
    as (s1 & Hclose & Hdown & Hgo1 & Hqueue & Hidle).
  { unfold Websocket.close. run.
    destruct (Websocket._ping_task s) as [task|] eqn:Hcurrent; simpl.
    - destruct (cancel_task_stops task (Websocket.set_connected false s))
        as (s1 & -> & Hc & Hr & Hq & _ & Hidle).
      exists s1. split; [done|]. split_and!; try done.
      + by rewrite Hr.
      + intros task' w [= <-]. apply Hidle.
    - exists (Websocket.set_connected false s). split; [done|]. split_and!; done. }
  exists s1.
  assert (∃ s2, Websocket.on_exception (ConnectionClosedOK false) s1
                = (Ok Websocket.Break, s2, [])
                ∧ Websocket.connected s2 = false
                ∧ Websocket._ping_task s2 = None) as (s2 & Hexcept & Hdown2 & Hnone).
  { unfold Websocket.on_exception. run.
    destruct (Websocket._ping_task s1) as [task|] eqn:Hcurrent; simpl.
    - destruct (cancel_task_stops task (Websocket.set_connected false s1))
        as (s2 & -> & Hc & _). eexists. split; [reflexivity|]. simpl.
      by rewrite Hc.
    - eexists. split; [reflexivity|]. done. }
  exists s2. split_and!; try done.
  unfold Websocket.session, Websocket.try_except, Websocket.bind at 1.
  rewrite pump_closed by done. by rewrite Hexcept.
Qed.

End closing.

(** X28: channels fetched with pairwise different ids are registered in the
    order in which they were fetched, each under its own id. *)
Theorem registered_channels_keep_their_order (fetched : list Twitch.Channel) :
  NoDup (Twitch.id <$> fetched) →
  let s := Twitch.register fetched Twitch.init in
  PyDict.values (Twitch.channels s) = fetched
  ∧ PyDict.keys (Twitch.channels s) = Twitch.id <$> fetched
  ∧ ∀ channel, channel ∈ fetched →
      PyDict.get (Twitch.id channel) (Twitch.channels s) = Some channel.
Proof.
  intros Hids s.
  assert (Twitch.channels s = (λ channel, (Twitch.id channel, channel)) <$> fetched)
    as ->.
  { unfold s, Twitch.register. simpl.
    enough (∀ d : list (Z * Twitch.Channel),
      NoDup (PyDict.keys d ++ (Twitch.id <$> fetched)) →
      foldl (λ d c, PyDict.set (Twitch.id c) c d) d fetched
      = d ++ ((λ channel, (Twitch.id channel, channel)) <$> fetched)) as Hgen.
    { by rewrite (Hgen []). }
    clear s. induction fetched as [|c rest IH]; intros d Hnd; simpl.
    - by rewrite app_nil_r.
    - simpl in Hnd. apply NoDup_app in Hnd as (Hd & Hdisj & Hrest).
      apply NoDup_cons in Hids as [_ Hids'].
      apply NoDup_cons in Hrest as [Hc Hrest].
      assert (Twitch.id c ∉ PyDict.keys d) as Hfresh.
      { intros Hin. apply (Hdisj _ Hin). left. }
      rewrite set_fresh by done. rewrite IH; [by rewrite <- app_assoc|done|].
      unfold PyDict.keys. rewrite fmap_app. simpl. rewrite <- app_assoc. simpl.
      apply NoDup_app. split_and!; [done| |by apply NoDup_cons].
      intros k Hk. rewrite elem_of_cons. intros [->|Hin]; [done|].
      apply (Hdisj _ Hk). by right. }
  split_and!.
  - unfold PyDict.values. rewrite <- list_fmap_compose. by rewrite list_fmap_id.
  - unfold PyDict.keys. by rewrite <- list_fmap_compose.
  - intros channel Hin. clear s. induction fetched as [|c rest IH]; simpl.
    + by apply elem_of_nil in Hin.
    + apply NoDup_cons in Hids as [Hc Hrest].
      destruct (decide (Twitch.id channel = Twitch.id c)) as [Heq|Hne].
      * apply elem_of_cons in Hin as [->|Hin]; [done|].
        exfalso. apply Hc. rewrite <- Heq. by apply list_elem_of_fmap_2.
      * apply elem_of_cons in Hin as [->|Hin]; [done|]. by apply IH.
Qed.

(** ** Instances *)

(** A map is not empty when it has the key [key]. *)
Ltac nonempty_at key :=
  let Hempty := fresh in
  let Hkey := fresh in
  intros Hempty;
  pose proof (f_equal (λ m : gmap string Handler, m !! key) Hempty) as Hkey;
  vm_compute in Hkey; discriminate Hkey.

Lemma send_failure_loses_the_dequeued_request_witness :
  ∃ s' tr,
    Websocket.iteration Sample.json_loads Sample.process_raises Websocket.Nothing
      (Some (length [("n1", Sample.listen_request)], ConnectionClosedError))
      Sample.two_queued
    = (Raise ConnectionClosedError, s', tr)
    ∧ wires tr = Websocket.stamp <$> [("n1", Sample.listen_request)]
    ∧ Websocket._send_queue s' = []
    ∧ Websocket._recv_dict s' = Websocket._recv_dict Sample.two_queued.
Proof.
  apply (send_failure_loses_the_dequeued_request Sample.json_loads Sample.process_raises
           [("n1", Sample.listen_request)] [] ("n2", Sample.unlisten_request)
           ConnectionClosedError Sample.two_queued); by vm_compute.
Defined.

Lemma request_is_written_with_its_nonce_witness :
  ∃ future s1 s2 frame,
    Websocket.send "n1" (JObj [("type", JStr "LISTEN")]) Sample.opened
    = (Ok future, s1, [])
    ∧ Websocket.pump Sample.json_loads Sample.process_raises
        [(Websocket.Nothing, None)] s1
      = (Ok false, s2,
         Wire <$> ((Websocket.stamp <$> Websocket._send_queue Sample.opened) ++ [frame]))
    ∧ getitem "nonce" frame = Ok (JStr "n1")
    ∧ (∀ key, key ≠ "nonce" →
         getitem key frame = getitem key (JObj [("type", JStr "LISTEN")]))
    ∧ Websocket._send_queue s2 = []
    ∧ Websocket._recv_dict s2 !! "n1" = Some future.
Proof.
  apply (request_is_written_with_its_nonce Sample.json_loads Sample.process_raises
           "n1" [("type", JStr "LISTEN")] (JStr "LISTEN") Sample.opened);
    by vm_compute.
Defined.

Lemma reconnect_request_keeps_queue_and_heartbeat_witness :
  Websocket.session Sample.more_loads Sample.process_raises
    ((Websocket.Message "<reconnect>", None) :: [(Websocket.Nothing, None)])
    Sample.two_queued
  = (Ok Websocket.Continue, Websocket.set_reconnect true Sample.two_queued,
     [Log WARNING "Received a Websocket Reconnect Request"])
  ∧ ∃ s',
      (Websocket.connected_to 1 (Websocket.set_reconnect true Sample.two_queued)).1
      = (Ok (), s')
      ∧ Websocket.ping_tasks s' = Websocket.ping_tasks Sample.two_queued ++ [AtConnectedWait]
      ∧ Websocket._send_queue s' = Websocket._send_queue Sample.two_queued
      ∧ Websocket.futures s' = Websocket.futures Sample.two_queued.
Proof.
  apply (reconnect_request_keeps_queue_and_heartbeat Sample.more_loads
           Sample.process_raises "<reconnect>" (JObj [("type", JStr "RECONNECT")]) None
           [(Websocket.Nothing, None)] 1 Sample.two_queued); by vm_compute.
Defined.

Lemma malformed_frame_ends_the_session_witness :
  Websocket.session Sample.more_loads Sample.process_raises
    ((Websocket.Message "<untyped>", None) :: []) Sample.two_queued
  = (Ok Websocket.Continue, Sample.two_queued,
     [Log EXCEPTION "Exception in Websocket - Reconnecting"]).
Proof.
  apply (malformed_frame_ends_the_session Sample.more_loads Sample.process_raises
           "<untyped>" None [] Sample.two_queued).
  - right. exists [("data", JNull)]. by vm_compute.
  - by vm_compute.
Defined.

Lemma unknown_kind_is_logged_and_dropped_witness :
  Websocket.process_receive Sample.more_loads Sample.process_raises "<auth>"
    Sample.two_queued
  = (Ok (), Sample.two_queued, [Log ERROR "Received unknown websocket payload"])
  ∧ Websocket.iteration Sample.more_loads Sample.process_raises
      (Websocket.Message "<auth>") None Sample.two_queued
    = (Ok (), Websocket.set_send_queue [] Sample.two_queued,
       Log ERROR "Received unknown websocket payload"
       :: (Wire <$> (Websocket.stamp <$> Websocket._send_queue Sample.two_queued))).
Proof.
  apply (unknown_kind_is_logged_and_dropped Sample.more_loads Sample.process_raises
           "<auth>" (JObj [("type", JStr "AUTH_REVOKED")]) (JStr "AUTH_REVOKED")
           Sample.two_queued); try by vm_compute.
  repeat constructor.
Defined.

Lemma add_topics_success_stays_below_50_witness :
  (size (Websocket._topics
           (Websocket.add_topics "n1" (Sample.videos 3) Sample.subscribed).1.2) < 50)%nat.
Proof.
  apply (add_topics_success_stays_below_50 "n1" (Sample.videos 3) Sample.subscribed
           (Websocket.AwaitingReply 1)).
  - vm_compute. lia.
  - by vm_compute.
Defined.

Lemma add_topics_before_connection_defers_listen_witness :
  ∃ new keys s1 s2 s3,
    Websocket.add_topics "n0" Sample.user_topics (Websocket.init (Some "oauth"))
    = (Ok (Websocket.AwaitingConnected new), s1, [])
    ∧ Websocket._send_queue s1 = Websocket._send_queue (Websocket.init (Some "oauth"))
    ∧ dom (Websocket._topics s1)
      = dom (Websocket._topics (Websocket.init (Some "oauth")))
        ∪ list_to_set (WebsocketTopic.id <$> Sample.user_topics)
    ∧ (Websocket.connected_to 0 s1).1 = (Ok (), s2)
    ∧ Websocket.add_topics_listen "n0" new s2
      = (Ok (Websocket.AwaitingReply
               (length (Websocket.futures (Websocket.init (Some "oauth"))))), s3,
         [Log INFO "Listening for"])
    ∧ Websocket._send_queue s3
      = Websocket._send_queue (Websocket.init (Some "oauth"))
        ++ [("n0", JObj [ ("type", JStr "LISTEN");
                          ("data", JObj [ ("topics", JArr (JStr <$> keys));
                                          ("auth_token", JStr "oauth") ]) ])]
    ∧ NoDup keys
    ∧ ∀ key, key ∈ keys ↔
        key ∈ WebsocketTopic.id <$> Sample.user_topics
        ∧ Websocket._topics (Websocket.init (Some "oauth")) !! key = None.
Proof.
  apply (add_topics_before_connection_defers_listen "n0" "oauth" Sample.user_topics 0
           (Websocket.init (Some "oauth"))).
  - reflexivity.
  - reflexivity.
  - nonempty_at "user-drop-events.7".
  - vm_compute. lia.
Defined.

Lemma add_topics_without_token_raises_after_commit_witness :
  Websocket.add_topics "n0" Sample.user_topics Sample.anonymous
  = (Raise AssertionError,
     Websocket.set_topics
       (Websocket._topics Sample.anonymous
        ∪ (Websocket.topic_set Sample.user_topics ∖ Websocket._topics Sample.anonymous))
       Sample.anonymous,
     []).
Proof.
  apply (add_topics_without_token_raises_after_commit "n0" Sample.user_topics
           Sample.anonymous).
  - reflexivity.
  - reflexivity.
  - nonempty_at "user-drop-events.7".
  - vm_compute. lia.
Defined.

Lemma at_most_one_watcher_runs_witness :
  one_watcher (Twitch.watch Sample.chanB Sample.watching)
  ∧ one_watcher (Twitch.stop_watching Sample.watching)
  ∧ one_watcher (Twitch.run_turn Sample.games Sample.fetch Sample.watching).2
  ∧ one_watcher (Twitch.stream_down 11 Sample.watching)
  ∧ Forall (λ w, Twitch.cancelled w = true)
      (Twitch.tasks (Twitch.stop_watching Sample.watching))
  ∧ Twitch._watching_channel (Twitch.stop_watching Sample.watching) = None.
Proof.
  apply (at_most_one_watcher_runs Sample.games Sample.fetch Sample.chanB 11
           Sample.watching).
  intros task w Hw Hruns. destruct task as [|[|task]]; vm_compute in Hw; [|done..].
  injection Hw as <-. by vm_compute.
Defined.

Lemma one_refresh_then_pause_witness :
  let s := Twitch.stream_down 11 Sample.watching in
  let s1 := (Twitch.run_turn Sample.games Sample.all_offline s).2 in
  (Twitch.run_turn Sample.games Sample.all_offline s).1 = Twitch.Refreshed
  ∧ PyDict.keys (Twitch.channels s1) = PyDict.keys (Twitch.channels s)
  ∧ (∀ channel_id channel, PyDict.get channel_id (Twitch.channels s) = Some channel →
       PyDict.get channel_id (Twitch.channels s1)
       = Some (Twitch.mkChannel (Twitch.id channel) (Twitch.name channel)
                 (Sample.all_offline (Twitch.id channel))))
  ∧ Twitch.tasks s1 = Twitch.tasks s
  ∧ Twitch._watching_channel s1 = Twitch._watching_channel s
  ∧ Twitch._channel_change s1 = true
  ∧ (Twitch.first_eligible Sample.games (PyDict.values (Twitch.channels s1)) = None →
     Twitch.run_turn Sample.games Sample.all_offline s1 = (Twitch.Sleep120, s1)).
Proof.
  intros s.
  apply (one_refresh_then_pause Sample.games Sample.all_offline Sample.all_offline s);
    by vm_compute.
Defined.

Lemma offline_channel_stays_watched_witness :
  let s1 := Twitch.stream_down 11 Sample.watching in
  PyDict.get 11%Z (Twitch.channels s1) = Some (Twitch.set_offline Sample.chanA)
  ∧ Twitch.eligible Sample.games (Twitch.set_offline Sample.chanA) = false
  ∧ (∀ other, other ≠ 11%Z →
       PyDict.get other (Twitch.channels s1)
       = PyDict.get other (Twitch.channels Sample.watching))
  ∧ Twitch._channel_change s1 = true
  ∧ Twitch.tasks s1 = Twitch.tasks Sample.watching
  ∧ Twitch._watching_task s1 = Twitch._watching_task Sample.watching
  ∧ Twitch._watching_channel s1 = Some 11%Z
  ∧ (Twitch.first_eligible Sample.games (PyDict.values (Twitch.channels s1)) = None →
     Twitch.tasks (Twitch.run_turn Sample.games Sample.all_offline s1).2
     = Twitch.tasks Sample.watching
     ∧ Twitch._watching_channel (Twitch.run_turn Sample.games Sample.all_offline s1).2
       = Some 11%Z).
Proof.
  apply (offline_channel_stays_watched Sample.games Sample.all_offline 11 Sample.chanA
           Sample.watching); by vm_compute.
Defined.

Lemma claim_points_posts_a_copy_witness :
  ∃ op,
    Requests.claim_points Sample.str (JStr "11") (JStr "claim-1") Requests.table
    = (Ok (Requests.Post op), Requests.table ++ [op])
    ∧ intact (Requests.table ++ [op])
    ∧ PyDict.get "operationName" op = Some (JStr "ClaimCommunityPoints")
    ∧ PyDict.get "extensions" op
      = Some (JObj [("persistedQuery",
                      JObj [("version", JNum 1);
                            ("sha256Hash",
                              JStr "46aaeebe02c99afdf4fc97c7c0cba964124bf6b0af229395f1f6d1feed05b3d0")])])
    ∧ PyDict.get "variables" op
      = Some (JObj [("input", JObj [("channelID", JStr (Sample.str (JStr "11")));
                                    ("claimID", JStr "claim-1")])]).
Proof.
  apply (claim_points_posts_a_copy Sample.str (JStr "11") (JStr "claim-1") Requests.table).
  intros address op Hop. exact Hop.
Defined.

Lemma process_points_claims_complete_messages_witness :
  ∃ op,
    Requests.process_points Sample.str Sample.claim_available Requests.table
    = ([Requests.Post op; Requests.Print "Claimed bonus points"], Ok (),
       Requests.table ++ [op])
    ∧ PyDict.get "operationName" op = Some (JStr "ClaimCommunityPoints")
    ∧ PyDict.get "variables" op
      = Some (JObj [("input", JObj [("channelID", JStr (Sample.str (JStr "11")));
                                    ("claimID", JStr "claim-1")])]).
Proof.
  eapply (process_points_claims_complete_messages Sample.str Sample.claim_available);
    try reflexivity.
  intros address op Hop. exact Hop.
Defined.

Lemma watcher_checks_bonus_every_30_turns_witness :
  ∃ op log h',
    Requests.watcher Sample.str Sample.chanA Sample.replies 61 Requests.table
    = (Ok log, h')
    ∧ PyDict.get "operationName" op = Some (JStr "ChannelPointsContext")
    ∧ PyDict.get "variables" op
      = Some (JObj [("channelLogin", JStr (Twitch.name Sample.chanA))])
    ∧ (length log ≤ 61)%nat
    ∧ (∀ u actions, log !! u = Some actions → turn_actions Sample.chanA op u actions)
    ∧ ((length log < 61)%nat →
         ∃ u, length log = S u ∧ (u mod 30 = 0)%nat)
    ∧ ((∀ u, (u mod 30 = 0)%nat → no_claim (Sample.replies u)) →
         log = (λ u, if bool_decide (u mod 30 = 0)%nat
                     then [Requests.SendWatch (Twitch.id Sample.chanA); Requests.Post op]
                     else [Requests.SendWatch (Twitch.id Sample.chanA)]) <$> seq 0 61
         ∧ h' = Requests.table ++ [op]).
Proof.
  apply (watcher_checks_bonus_every_30_turns Sample.str Sample.chanA
           Sample.replies 61 Requests.table).
  intros address op Hop. exact Hop.
Defined.

Lemma login_always_posts_the_first_password_witness :
  ∃ sent,
    Login.posts (Login._login Sample.asks_authy Sample.user).2
    = Login.posts Sample.user ++ sent
    ∧ Forall (carries_credentials "somebody" "secret") sent.
Proof.
  apply (login_always_posts_the_first_password "somebody" "secret" Sample.asks_authy
           Sample.user); reflexivity.
Defined.

Lemma login_gives_up_after_ten_token_requests_witness :
  ∃ s',
    Login._login Sample.asks_authy Sample.user
    = (Login.Raises (Login.LoginException (JStr "Ran out of login retries")), s')
    ∧ length (Login.posts s') = (length (Login.posts Sample.user) + 10)%nat
    ∧ Login.console s' = drop 10 (Login.console Sample.user).
Proof.
  apply (login_gives_up_after_ten_token_requests "somebody" "secret" Sample.asks_authy
           Sample.user).
  - reflexivity.
  - reflexivity.
  - reflexivity.
  - reflexivity.
  - simpl. lia.
  - intros k. exists 3011%Z. split; [reflexivity|]. apply list_elem_of_here.
Defined.

Lemma close_stops_heartbeat_and_ends_loop_witness :
  ∃ s1 s2,
    Websocket.close Sample.beating = (Ok (), s1, [])
    ∧ Websocket.connected s1 = false
    ∧ Websocket._send_queue s1 = Websocket._send_queue Sample.beating
    ∧ (∀ task w, Websocket._ping_task Sample.beating = Some task →
         Websocket._ping_loop task w s1 = (Ok (), s1, []))
    ∧ Websocket.session Sample.json_loads Sample.process_raises
        ((Websocket.Closed (ConnectionClosedOK false), None) :: []) s1
      = (Ok Websocket.Break, s2, [])
    ∧ Websocket.connected s2 = false
    ∧ Websocket._ping_task s2 = None.
Proof.
  apply (close_stops_heartbeat_and_ends_loop Sample.json_loads Sample.process_raises
           None [] Sample.beating).
  by vm_compute.
Defined.

Lemma registered_channels_keep_their_order_witness :
  let s := Twitch.register [Sample.chanOff; Sample.chanA; Sample.chanB] Twitch.init in
  PyDict.values (Twitch.channels s) = [Sample.chanOff; Sample.chanA; Sample.chanB]
  ∧ PyDict.keys (Twitch.channels s)
    = Twitch.id <$> [Sample.chanOff; Sample.chanA; Sample.chanB]
  ∧ ∀ channel, channel ∈ [Sample.chanOff; Sample.chanA; Sample.chanB] →
      PyDict.get (Twitch.id channel) (Twitch.channels s) = Some channel.
Proof.
  apply (registered_channels_keep_their_order
           [Sample.chanOff; Sample.chanA; Sample.chanB]).
  apply (bool_decide_unpack _). by vm_compute.
Defined.
